(** * uk-stock-analyzer: the indicator engine, the aggregator, the validator
      and the sheet

    A shallow embedding of [src/src/stock_analyzer.py] (class
    [StockAnalyzer]), of [src/src/groq_analyzer.py] (class
    [GroqStockAnalyzer]), of [src/src/google_sheets_updater.py] (class
    [GoogleSheetsUpdater]) and of the two runs of [src/main.py].

    Numbers.  pandas and numpy compute on IEEE binary64.  The embedding keeps
    the three special values [NaN], [+inf] and [-inf], because the program's
    behaviour on short or flat series is decided by them, and models every
    finite number as a rational: the arithmetic of the indicator engine is
    exact here (rounding and overflow of finite results are not modelled,
    and the two zeros are one).  Results are kept in lowest terms ([Qred]).
    Prices and volumes of a bar are finite numbers.  Python's [float], which
    the validator calls, rounds as binary64 does: an integer or a decimal
    text becomes the nearest binary64 number.

    Text.  A string is the UTF-8 text of a Python [str]; its characters
    are its code points. *)

From Stdlib Require Import ZArith QArith String Ascii Bool Lia Lqa List.
Import ListNotations.

Set Implicit Arguments.

(* ------------------------------------------------------------------ *)
(** ** Python outcomes: a value, or a raised exception *)

Module Py.

Inductive exn : Type :=
| IndexError | NameError | ValueError | TypeError | KeyError
| AttributeError | OverflowError | OtherError.

Inductive outcome (A : Type) : Type :=
| Returns (a : A)
| Raises (e : exn).
Arguments Raises {A} e.

Definition bind {A B} (c : outcome A) (k : A -> outcome B) : outcome B :=
  match c with
  | Returns a => k a
  | Raises e => Raises e
  end.

End Py.
Export Py.

Declare Scope py_scope.
Delimit Scope py_scope with py.
Notation "x <- c ;; k" := (bind c (fun x => k))
  (at level 61, c at next level, right associativity) : py_scope.

(* ------------------------------------------------------------------ *)
(** ** Floating-point values *)

Module Float.

Inductive fval : Type :=
| Fin (q : Q)
| PInf
| NInf
| NaN.

Definition Qltb (a b : Q) : bool := negb (Qle_bool b a).

Definition fneg (x : fval) : fval :=
  match x with
  | Fin a => Fin (- a)
  | PInf => NInf
  | NInf => PInf
  | NaN => NaN
  end.

Definition fadd (x y : fval) : fval :=
  match x, y with
  | NaN, _ | _, NaN => NaN
  | Fin a, Fin b => Fin (Qred (a + b))
  | PInf, NInf | NInf, PInf => NaN
  | PInf, _ | _, PInf => PInf
  | NInf, _ | _, NInf => NInf
  end.

Definition fsub (x y : fval) : fval := fadd x (fneg y).

(** An infinity scaled by a finite factor: [inf * 0] is not a number. *)
Definition scale_inf (pos : bool) (a : Q) : fval :=
  if Qeq_bool a 0 then NaN
  else if Bool.eqb pos (Qltb 0 a) then PInf else NInf.

Definition fmul (x y : fval) : fval :=
  match x, y with
  | NaN, _ | _, NaN => NaN
  | Fin a, Fin b => Fin (Qred (a * b))
  | PInf, Fin a | Fin a, PInf => scale_inf true a
  | NInf, Fin a | Fin a, NInf => scale_inf false a
  | PInf, PInf | NInf, NInf => PInf
  | PInf, NInf | NInf, PInf => NInf
  end.

(** Division as numpy does it on float64: no exception, [0/0] and
    [inf/inf] are [NaN], [x/0] is an infinity (the divisor's zero counts
    as positive, the model having one zero), [x/inf] is [0]. *)
Definition fdiv (x y : fval) : fval :=
  match x, y with
  | NaN, _ | _, NaN => NaN
  | Fin a, Fin b =>
      if Qeq_bool b 0 then
        if Qeq_bool a 0 then NaN else if Qltb 0 a then PInf else NInf
      else Fin (Qred (a / b))
  | Fin _, (PInf | NInf) => Fin 0
  | PInf, Fin b => if Qltb b 0 then NInf else PInf
  | NInf, Fin b => if Qltb b 0 then PInf else NInf
  | (PInf | NInf), (PInf | NInf) => NaN
  end.

(** [x > y]; every comparison with [NaN] is false. *)
Definition fgt (x y : fval) : bool :=
  match x, y with
  | NaN, _ | _, NaN => false
  | Fin a, Fin b => Qltb b a
  | PInf, (Fin _ | NInf) => true
  | Fin _, NInf => true
  | _, _ => false
  end.

Definition flt (x y : fval) : bool := fgt y x.

(** [x != y] on floats: true as soon as one side is [NaN]. *)
Definition fne (x y : fval) : bool :=
  match x, y with
  | Fin a, Fin b => negb (Qeq_bool a b)
  | PInf, PInf | NInf, NInf => false
  | _, _ => true
  end.

Definition is_nan (x : fval) : bool :=
  match x with NaN => true | _ => false end.

(** The square root of a rational: exact on squares of rationals, rounded
    down to a multiple of [2^-52 / Qden q] otherwise. *)
Definition Qsqrt (q : Q) : Q :=
  let d := Zpos (Qden q) in
  Qred (Qmake (Z.sqrt (Qnum q * d * 2 ^ 104)) (Qden q * 2 ^ 52)).

Definition fsqrt (x : fval) : fval :=
  match x with
  | Fin a => if Qltb a 0 then NaN else Fin (Qsqrt a)
  | PInf => PInf
  | NInf | NaN => NaN
  end.

Definition is_finite (x : fval) : bool :=
  match x with Fin _ => true | _ => false end.

Definition is_inf (x : fval) : bool :=
  match x with PInf | NInf => true | _ => false end.

(** A finite value that is not negative. *)
Definition is_nonneg (x : fval) : bool :=
  match x with Fin a => Qle_bool 0 a | _ => false end.

(** *** Conversion to binary64

    Where Python makes a float of an integer or of a decimal text, the
    result is the binary64 number nearest to the value, ties going to
    the even significand, and an infinity past the largest one. *)

(** [n / d] rounded to the nearest integer, ties to even, for [0 <= n]
    and [0 < d]. *)
Definition round_half_even (n d : Z) : Z :=
  let q := (n / d)%Z in
  match (2 * (n mod d) ?= d)%Z with
  | Lt => q
  | Gt => (q + 1)%Z
  | Eq => if Z.even q then q else (q + 1)%Z
  end.

(** [(a / d) / 2^k] as a fraction of non-negative integers. *)
Definition shifted (a d k : Z) : Z * Z :=
  if (0 <=? k)%Z then (a, (d * 2 ^ k)%Z) else ((a * 2 ^ (- k))%Z, d).

(** [m * 2^k] *)
Definition scaled (m k : Z) : Q :=
  if (0 <=? k)%Z then inject_Z (m * 2 ^ k)
  else Qred (Qmake m (Z.to_pos (2 ^ (- k)))).

Definition to_double (q : Q) : fval :=
  let n := Qnum q in
  let d := Zpos (Qden q) in
  if (n =? 0)%Z then Fin 0
  else
    let a := Z.abs n in
    let e0 := (Z.log2 a - Z.log2 d)%Z in
    (* the exponent of the leading bit of [a / d] *)
    let e := let '(x, y) := shifted a d e0 in
             if (y <=? x)%Z then e0 else (e0 - 1)%Z in
    (* subnormal numbers share the exponent of the smallest normal one *)
    let E := Z.max e (-1022) in
    let '(x, y) := shifted a d (E - 52) in
    let m := round_half_even x y in
    if ((1024 <=? E)%Z || ((E =? 1023)%Z && (m =? 2 ^ 53)%Z))%bool
    then (if (n <? 0)%Z then NInf else PInf)
    else Fin (if (n <? 0)%Z then - scaled m (E - 52) else scaled m (E - 52)).

End Float.
Export Float.

(* ------------------------------------------------------------------ *)
(** ** The pandas operations the engine calls *)

Module Pandas.

Definition Series := list fval.

(** [s.iloc[-k]] for [k >= 1]: the [k]-th element from the end;
    "single positional indexer is out-of-bounds" otherwise. *)
Definition iloc_neg {A} (s : list A) (k : nat) : outcome A :=
  if length s <? k then Raises IndexError
  else match nth_error s (length s - k) with
       | Some x => Returns x
       | None => Raises IndexError
       end.

Definition empty {A} (s : list A) : bool :=
  match s with [] => true | _ => false end.

(** [s.diff()]: first element [NaN], then [s[i] - s[i-1]]. *)
Fixpoint diff_from (prev : fval) (s : Series) : Series :=
  match s with
  | [] => []
  | x :: t => fsub x prev :: diff_from x t
  end.

Definition diff (s : Series) : Series :=
  match s with
  | [] => []
  | x :: t => NaN :: diff_from x t
  end.

(** [s.where(cond, other)]: keep the entries where [cond] holds. *)
Definition where_ (cond : fval -> bool) (other : fval) (s : Series) : Series :=
  map (fun x => if cond x then x else other) s.

(** Element-wise binary operation of two aligned series. *)
Definition zip_with (f : fval -> fval -> fval) (a b : Series) : Series :=
  map (fun p => f (fst p) (snd p)) (combine a b).

(** Rolling windows convert infinities to [NaN] before aggregating. *)
Definition prep_values (s : Series) : Series :=
  map (fun x => match x with PInf | NInf => NaN | _ => x end) s.

(** The bars [max 0 (i-w+1) .. i] of a series. *)
Definition window (w i : nat) (s : Series) : Series :=
  skipn (i + 1 - w) (firstn (i + 1) s).

(** The observations of a window: its entries that are numbers. *)
Definition observations (win : Series) : list Q :=
  flat_map (fun x => match x with Fin q => [q] | _ => [] end) win.

Definition Qsum (l : list Q) : Q := fold_right Qplus 0 l.

Definition Qlen (l : list Q) : Q := inject_Z (Z.of_nat (length l)).

(** [roll_mean]: the mean of the observations, [NaN] with fewer than
    [minp] of them. *)
Definition roll_mean (minp : nat) (win : Series) : fval :=
  let obs := observations win in
  if (minp <=? length obs) && (0 <? length obs)
  then Fin (Qred (Qsum obs / Qlen obs))
  else NaN.

(** [roll_var] with [ddof = 1], then the square root. *)
Definition roll_std (minp : nat) (win : Series) : fval :=
  let obs := observations win in
  if (minp <=? length obs) && (1 <? length obs)
  then
    let m := Qsum obs / Qlen obs in
    let ssqdm := Qsum (map (fun x => (x - m) * (x - m)) obs) in
    let v := ssqdm / (Qlen obs - 1) in
    fsqrt (Fin (Qred (if Qltb v 0 then 0 else v)))
  else NaN.

(** [s.rolling(window=w)] followed by an aggregation; [min_periods]
    defaults to the window size. *)
Definition rolling (w : nat) (agg : nat -> Series -> fval) (s : Series) : Series :=
  let v := prep_values s in
  map (fun i => agg w (window w i v)) (seq 0 (length s)).

Definition rolling_mean (w : nat) : Series -> Series := rolling w roll_mean.
Definition rolling_std (w : nat) : Series -> Series := rolling w roll_std.

(** [s.ewm(span=n).mean()] with the defaults [adjust=True],
    [ignore_na=False], [min_periods=0]: the loop of pandas' [ewm]
    aggregation.  [weighted] is the running average, [old_wt] the weight
    it carries, [nobs] the observations seen. *)
Fixpoint ewm_loop (old_wt_factor new_wt : Q) (minp : nat)
         (weighted : fval) (old_wt : Q) (nobs : nat) (vals : Series) : Series :=
  match vals with
  | [] => []
  | cur :: rest =>
      let is_observation := negb (is_nan cur) in
      let nobs' := (nobs + if is_observation then 1 else 0)%nat in
      let '(weighted', old_wt') :=
        if negb (is_nan weighted) then
          let old_wt1 := Qred (old_wt * old_wt_factor) in
          if is_observation then
            (if fne weighted cur
             then fdiv (fadd (fmul (Fin old_wt1) weighted) (fmul (Fin new_wt) cur))
                       (Fin (old_wt1 + new_wt))
             else weighted,
             Qred (old_wt1 + new_wt))
          else (weighted, old_wt1)
        else if is_observation then (cur, old_wt)
        else (weighted, old_wt) in
      (if minp <=? nobs' then weighted' else NaN)
        :: ewm_loop old_wt_factor new_wt minp weighted' old_wt' nobs' rest
  end.

Definition ewm_mean (span : Z) (s : Series) : Series :=
  let alpha := 2 / (inject_Z span + 1) in
  let minp := 1%nat in
  match prep_values s with
  | [] => []
  | x0 :: rest =>
      let nobs := if is_nan x0 then 0%nat else 1%nat in
      (if minp <=? nobs then x0 else NaN)
        :: ewm_loop (1 - alpha) 1 minp x0 1 nobs rest
  end.

End Pandas.
Export Pandas.

(* ------------------------------------------------------------------ *)
(** ** Python data: JSON values, dictionaries, truthiness, [float()] *)

Module PyData.

Local Open Scope string_scope.

(** What [json.loads] produces, and what yfinance's [info] holds.
    Numbers are floats of the model ([json.loads] also reads [NaN] and
    [Infinity]). *)
#[local] Unset Elimination Schemes.
Inductive json : Type :=
| JNull
| JBool (b : bool)
| JNum (x : fval)
| JStr (s : string)
| JArr (l : list json)
| JObj (kv : list (string * json)).
#[local] Set Elimination Schemes.

(** A dict with string keys, as the list of its items. *)
Definition dict (V : Type) := list (string * V).

Fixpoint lookup {V} (d : dict V) (k : string) : option V :=
  match d with
  | [] => None
  | (k', v) :: rest => if String.eqb k k' then Some v else lookup rest k
  end.

(** [d.get(k, default)] *)
Definition get {V} (d : dict V) (k : string) (default : V) : V :=
  match lookup d k with
  | Some v => v
  | None => default
  end.

Definition fval_truthy (x : fval) : bool :=
  match x with
  | Fin q => negb (Qeq_bool q 0)
  | _ => true
  end.

Definition truthy (v : json) : bool :=
  match v with
  | JNull => false
  | JBool b => b
  | JNum x => fval_truthy x
  | JStr s => negb (String.eqb s "")
  | JArr l => negb (empty l)
  | JObj kv => negb (empty kv)
  end.

(** *** The characters of a string

    A Python [str] is a sequence of code points; here a string is its
    UTF-8 text.  One character is a byte that is no continuation byte,
    with the continuation bytes that follow it. *)

Definition is_continuation (c : ascii) : bool :=
  let n := nat_of_ascii c in ((128 <=? n) && (n <? 192))%nat.

Fixpoint code_units (l : list ascii) : list (list ascii) :=
  match l with
  | [] => []
  | c :: r =>
      match code_units r with
      | (c' :: g) :: gs =>
          if is_continuation c' then (c :: c' :: g) :: gs
          else [c] :: (c' :: g) :: gs
      | gs => [c] :: gs
      end
  end.

(** The characters of a string, each as a string: what [for c in s]
    yields and what [s[i]] picks. *)
Definition py_chars (s : string) : list string :=
  map string_of_list_ascii (code_units (list_ascii_of_string s)).

(** [len(s)] *)
Definition py_strlen (s : string) : nat := length (py_chars s).

(** The code point of a character; -1 for bytes that are no UTF-8 text. *)
Definition code_point (g : list ascii) : Z :=
  match map (fun c => Z.of_nat (nat_of_ascii c)) g with
  | [a] => if (a <? 128)%Z then a else (-1)%Z
  | [a; b] => ((a mod 32) * 64 + b mod 64)%Z
  | [a; b; c] => ((a mod 16) * 4096 + (b mod 64) * 64 + c mod 64)%Z
  | [a; b; c; d] =>
      ((a mod 8) * 262144 + (b mod 64) * 4096 + (c mod 64) * 64 + d mod 64)%Z
  | _ => (-1)%Z
  end.

(** *** [float(str)] *)

(** The code points above 127 that [str.isspace] accepts. *)
Definition unicode_spaces : list Z :=
  [
    133; 160; 5760; 8192; 8193; 8194; 8195; 8196;
    8197; 8198; 8199; 8200; 8201; 8202; 8232; 8233;
    8239; 8287; 12288 ]%Z.

(** The digit zero of every decimal number system of Unicode 14.0 (the
    data of Python 3.11); its nine successors are the digits 1 to 9. *)
Definition unicode_zeros : list Z :=
  [
    1632; 1776; 1984; 2406; 2534; 2662; 2790; 2918;
    3046; 3174; 3302; 3430; 3558; 3664; 3792; 3872;
    4160; 4240; 6112; 6160; 6470; 6608; 6784; 6800;
    6992; 7088; 7232; 7248; 42528; 43216; 43264; 43472;
    43504; 43600; 44016; 65296; 66720; 68912; 69734; 69872;
    69942; 70096; 70384; 70736; 70864; 71248; 71360; 71472;
    71904; 72016; 72784; 73040; 73120; 92768; 92864; 93008;
    120782; 120792; 120802; 120812; 120822; 123200; 123632; 125264;
    130032 ]%Z.

Definition unicode_decimal (cp : Z) : option Z :=
  match find (fun z => (z <=? cp) && (cp <? z + 10))%Z unicode_zeros with
  | Some z => Some (cp - z)%Z
  | None => None
  end.

(** What [float] makes of the text before it reads it: an ASCII
    character stays, any other white space becomes a blank and any other
    decimal digit its ASCII digit; at the first character that is
    neither, a question mark ends the text. *)
Fixpoint to_ascii (chars : list (list ascii)) : list ascii :=
  match chars with
  | [] => []
  | g :: rest =>
      let cp := code_point g in
      if ((0 <=? cp) && (cp <? 128))%Z then
        match g with
        | c :: _ => c :: to_ascii rest
        | [] => to_ascii rest
        end
      else if existsb (Z.eqb cp) unicode_spaces then " "%char :: to_ascii rest
      else
        match unicode_decimal cp with
        | Some d => ascii_of_nat (48 + Z.to_nat d) :: to_ascii rest
        | None => ["?"%char]
        end
  end.

(** The white space [float] drops at both ends of the ASCII text. *)
Definition is_space (c : ascii) : bool :=
  let n := nat_of_ascii c in
  ((9 <=? n) && (n <=? 13) || (n =? 32))%nat.

Fixpoint lstrip (l : list ascii) : list ascii :=
  match l with
  | c :: r => if is_space c then lstrip r else l
  | [] => []
  end.

Definition strip (l : list ascii) : list ascii :=
  rev (lstrip (rev (lstrip l))).

Definition lower (c : ascii) : ascii :=
  let n := nat_of_ascii c in
  if ((65 <=? n) && (n <=? 90))%nat then ascii_of_nat (n + 32) else c.

Definition digit (c : ascii) : option Z :=
  let n := nat_of_ascii c in
  if ((48 <=? n) && (n <=? 57))%nat then Some (Z.of_nat (n - 48)) else None.

(** A digit part, [digit (["_"] digit)*]: its value, the number of
    digits read and the rest of the input; no digit read when the input
    does not start with one. *)
Fixpoint digitpart (acc : Z) (n : nat) (l : list ascii) : Z * nat * list ascii :=
  match l with
  | c :: r =>
      match digit c with
      | Some d => digitpart (10 * acc + d) (S n) r
      | None =>
          if (Ascii.eqb c "_" && (0 <? n)%nat)%bool then
            match r with
            | c2 :: r2 =>
                match digit c2 with
                | Some d => digitpart (10 * acc + d) (S n) r2
                | None => (acc, n, l)
                end
            | [] => (acc, n, l)
            end
          else (acc, n, l)
      end
  | [] => (acc, n, l)
  end.

(** The exponent of a float literal: nothing, or [e], an optional sign
    and a digit part, up to the end of the input. *)
Definition parse_exponent (l : list ascii) : option Z :=
  match l with
  | [] => Some 0%Z
  | c :: r =>
      if Ascii.eqb (lower c) "e" then
        let '(neg, r1) :=
          match r with
          | "+"%char :: r' => (false, r')
          | "-"%char :: r' => (true, r')
          | _ => (false, r)
          end in
        match digitpart 0 0 r1 with
        | (e, S _, []) => Some (if neg then (- e)%Z else e)
        | _ => None
        end
      else None
  end.

(** [m * 10^e] as a float, for [0 <= m] written with [digits] digits.
    From [10^310] on the result is the infinity and below [10^-330] it
    is 0 whatever the digits are, so the power is computed between these
    only. *)
Definition decimal_to_double (m : Z) (digits : nat) (e : Z) : fval :=
  if (m =? 0)%Z then Fin 0
  else if (310 <=? e)%Z then PInf
  else if (e + Z.of_nat digits <=? -330)%Z then Fin 0
  else if (e <? 0)%Z then to_double (Qmake m (Z.to_pos (10 ^ (- e))))
  else to_double (inject_Z (m * 10 ^ e)).

(** [number [exponent]] with
    [number ::= [digitpart] "." digitpart | digitpart ["."]]; the digits
    before and after the point make one integer. *)
Definition parse_floatnumber (l : list ascii) : option fval :=
  let '(ip, n_ip, r1) := digitpart 0 0 l in
  let '(m, n_fp, r2) :=
    match r1 with
    | "."%char :: r => digitpart ip 0 r
    | _ => (ip, 0%nat, r1)
    end in
  if (n_ip + n_fp =? 0)%nat then None
  else
    match parse_exponent r2 with
    | Some e => Some (decimal_to_double m (n_ip + n_fp) (e - Z.of_nat n_fp))
    | None => None
    end.

Definition ascii_list_eqb (a : list ascii) (s : string) : bool :=
  String.eqb (string_of_list_ascii a) s.

(** [float(s)] for a string: the text is brought to ASCII, the white
    space at both ends is dropped, then come a sign and a float literal,
    [inf], [infinity] or [nan] in any case; [None] stands for the
    [ValueError]. *)
Definition parse_float (s : string) : option fval :=
  let l := strip (to_ascii (code_units (list_ascii_of_string s))) in
  let '(neg, body) :=
    match l with
    | "+"%char :: r => (false, r)
    | "-"%char :: r => (true, r)
    | _ => (false, l)
    end in
  let low := map lower body in
  if ascii_list_eqb low "inf" || ascii_list_eqb low "infinity"
  then Some (if neg then NInf else PInf)
  else if ascii_list_eqb low "nan" then Some NaN
  else
    match parse_floatnumber body with
    | Some x => Some (if neg then fneg x else x)
    | None => None
    end.

(** Whether a finite number is a whole number. *)
Definition is_whole (q : Q) : bool := (Zpos (Qden (Qred q)) =? 1)%Z.

(** [float(v)].  A float is returned as it is.  A whole number may be an
    [int]: it is rounded to binary64 (nothing changes below [2^53]), and
    raises [OverflowError] when it lies past the largest float, which
    only an [int] can do.  Booleans convert, a string is parsed
    ([ValueError] when it is no float literal), [None], lists and dicts
    raise [TypeError]. *)
Definition float_ (v : json) : outcome fval :=
  match v with
  | JNum (Fin q) =>
      if is_whole q then
        match to_double q with
        | Fin r => Returns (Fin r)
        | _ => Raises OverflowError
        end
      else Returns (Fin q)
  | JNum x => Returns x
  | JBool b => Returns (Fin (if b then 1 else 0))
  | JStr s =>
      match parse_float s with
      | Some x => Returns x
      | None => Raises ValueError
      end
  | JNull | JArr _ | JObj _ => Raises TypeError
  end.

End PyData.
Export PyData.

(* ------------------------------------------------------------------ *)
(** ** [class StockAnalyzer] *)

Module StockAnalyzer.

Local Open Scope string_scope.
Local Open Scope py_scope.

(** One bar of an OHLCV series; the date index plays no part in the
    computation, the rows come in ascending date order. *)
Record Bar : Type := mkBar
  { Open : Q; High : Q; Low : Q; Close : Q; Volume : Q }.

Definition DataFrame := list Bar.

(** [df['Close']], [df['Volume']] *)
Definition col (f : Bar -> Q) (df : DataFrame) : Series :=
  map (fun b => Fin (f b)) df.

(** *** The series of [calculate_technical_indicators] *)

(* RSI *)
Definition delta (df : DataFrame) : Series := diff (col Close df).
Definition gain (df : DataFrame) : Series :=
  rolling_mean 14 (where_ (fun x => fgt x (Fin 0)) (Fin 0) (delta df)).
Definition loss (df : DataFrame) : Series :=
  rolling_mean 14 (map fneg (where_ (fun x => flt x (Fin 0)) (Fin 0) (delta df))).
Definition rs (df : DataFrame) : Series := zip_with fdiv (gain df) (loss df).
Definition rsi (df : DataFrame) : Series :=
  map (fun x => fsub (Fin 100) (fdiv (Fin 100) (fadd (Fin 1) x))) (rs df).

(* MACD *)
Definition exp1 (df : DataFrame) : Series := ewm_mean 12 (col Close df).
Definition exp2 (df : DataFrame) : Series := ewm_mean 26 (col Close df).
Definition macd (df : DataFrame) : Series := zip_with fsub (exp1 df) (exp2 df).
Definition signal (df : DataFrame) : Series := ewm_mean 9 (macd df).

(* Moving averages *)
Definition sma_20 (df : DataFrame) : Series := rolling_mean 20 (col Close df).
Definition sma_50 (df : DataFrame) : Series := rolling_mean 50 (col Close df).

(* Bollinger bands *)
Definition bb_period : nat := 20.
Definition bb_std : fval := Fin 2.
Definition sma (df : DataFrame) : Series := rolling_mean bb_period (col Close df).
Definition std (df : DataFrame) : Series := rolling_std bb_period (col Close df).
Definition bb_upper (df : DataFrame) : Series :=
  zip_with fadd (sma df) (map (fun x => fmul x bb_std) (std df)).
Definition bb_lower (df : DataFrame) : Series :=
  zip_with fsub (sma df) (map (fun x => fmul x bb_std) (std df)).

(* Volume analysis *)
Definition avg_volume (df : DataFrame) : Series := rolling_mean 20 (col Volume df).

(** [df['Volume'].iloc[-1] / avg_volume.iloc[-1] if not avg_volume.empty else 0] *)
Definition volume_ratio (df : DataFrame) : outcome fval :=
  if negb (empty (avg_volume df)) then
    v <- iloc_neg (col Volume df) 1 ;;
    a <- iloc_neg (avg_volume df) 1 ;;
    Returns (fdiv v a)
  else Returns (Fin 0).

(** [(close.iloc[-1] - close.iloc[-(k+1)]) / close.iloc[-(k+1)] * 100] *)
Definition price_change (k : nat) (df : DataFrame) : outcome fval :=
  c <- iloc_neg (col Close df) 1 ;;
  p <- iloc_neg (col Close df) (k + 1) ;;
  p' <- iloc_neg (col Close df) (k + 1) ;;
  Returns (fmul (fdiv (fsub c p) p') (Fin 100)).

(** [s.iloc[-1] if not s.empty else 0] *)
Definition last_or_0 (s : Series) : outcome fval :=
  if negb (empty s) then iloc_neg s 1 else Returns (Fin 0).

(** [(close.iloc[-1] - bb_lower.iloc[-1]) / (bb_upper.iloc[-1] - bb_lower.iloc[-1])
     if not bb_upper.empty else 0] *)
Definition bb_position (df : DataFrame) : outcome fval :=
  if negb (empty (bb_upper df)) then
    c <- iloc_neg (col Close df) 1 ;;
    l <- iloc_neg (bb_lower df) 1 ;;
    u <- iloc_neg (bb_upper df) 1 ;;
    l' <- iloc_neg (bb_lower df) 1 ;;
    Returns (fdiv (fsub c l) (fsub u l'))
  else Returns (Fin 0).

(** The indicator record: a dict from indicator name to value; [{}] is
    the empty list. *)
Definition Indicators := dict fval.

(** [df] is [None], or a frame (possibly with no row). *)
Definition calculate_technical_indicators (df : option DataFrame)
  : outcome Indicators :=
  match df with
  | None => Returns []
  | Some df =>
      if empty df then Returns []
      else
        volume_ratio <- volume_ratio df ;;
        price_change_5d <- price_change 5 df ;;
        price_change_20d <- price_change 20 df ;;
        v_rsi <- last_or_0 (rsi df) ;;
        v_macd <- last_or_0 (macd df) ;;
        v_signal <- last_or_0 (signal df) ;;
        v_sma_20 <- last_or_0 (sma_20 df) ;;
        v_sma_50 <- last_or_0 (sma_50 df) ;;
        v_bb <- bb_position df ;;
        current_price <- iloc_neg (col Close df) 1 ;;
        Returns [ ("rsi", v_rsi);
                  ("macd", v_macd);
                  ("macd_signal", v_signal);
                  ("sma_20", v_sma_20);
                  ("sma_50", v_sma_50);
                  ("bb_position", v_bb);
                  ("volume_ratio", volume_ratio);
                  ("price_change_5d", price_change_5d);
                  ("price_change_20d", price_change_20d);
                  ("current_price", current_price) ]
  end.

(** *** The aggregator *)

(** The result of [get_stock_news_sentiment]. *)
Record Sentiment : Type := mkSentiment
  { sentiment_score : fval;
    news_count : nat;
    recent_headlines : option (list json) }.

(** The analysis record built by [analyze_stock]. *)
Record Analysis : Type := mkAnalysis
  { symbol : string;
    company_name : json;
    analysis_date : string;
    technical_indicators : Indicators;
    sentiment : Sentiment;
    market_cap : json;
    sector : json }.

(** What lies outside the program, its answers fixed for the run.
    [ticker s] is what [yf.Ticker(s)] gives for [history(period)] and
    [info], or the exception one of the three calls raises.
    [get_stock_news_sentiment] wraps its request in
    [try ... except Exception] and answers with a sentiment record on
    every path, so it is taken whole.  [today] is
    [datetime.now().strftime('%Y-%m-%d')]. *)
Record World : Type := mkWorld
  { ticker : string -> outcome (DataFrame * dict json);
    get_stock_news_sentiment : string -> json -> Sentiment;
    today : string }.

Definition get_stock_data (w : World) (symbol : string)
  : option DataFrame * option (dict json) :=
  match ticker w symbol with
  | Returns (hist, info) => (Some hist, Some info)
  | Raises _ => (None, None)
  end.

(** [if stock_info]: neither [None] nor the empty dict. *)
Definition info_truthy (stock_info : option (dict json)) : option (dict json) :=
  match stock_info with
  | Some ((_ :: _) as d) => Some d
  | _ => None
  end.

(** [analyze_stock], with the method bound to
    [self.calculate_technical_indicators] as a parameter. *)
Definition analyze_stock_with
           (indicators : option DataFrame -> outcome Indicators)
           (w : World) (symbol : string) : outcome (option Analysis) :=
  let '(hist_data, stock_info) := get_stock_data w symbol in
  if match hist_data with None => true | Some h => empty h end
  then Returns None
  else
    technical_data <- indicators hist_data ;;
    let company_name :=
      match info_truthy stock_info with
      | Some i => get i "longName" (JStr symbol)
      | None => JStr symbol
      end in
    let news_data := get_stock_news_sentiment w symbol company_name in
    Returns (Some
      {| symbol := symbol;
         company_name := company_name;
         analysis_date := today w;
         technical_indicators := technical_data;
         sentiment := news_data;
         market_cap :=
           match info_truthy stock_info with
           | Some i => get i "marketCap" (JNum (Fin 0))
           | None => JNum (Fin 0)
           end;
         sector :=
           match info_truthy stock_info with
           | Some i => get i "sector" (JStr "Unknown")
           | None => JStr "Unknown"
           end |}).

Definition analyze_stock : World -> string -> outcome (option Analysis) :=
  analyze_stock_with calculate_technical_indicators.

(** The loop of [analyze_multiple_stocks]: [results] grows by
    [append]; a result of [None] and any exception leave it as it is. *)
Fixpoint analyze_loop (w : World) (symbols : list string)
         (results : list Analysis) : list Analysis :=
  match symbols with
  | [] => results
  | symbol :: rest =>
      match analyze_stock w symbol with
      | Returns (Some result) => analyze_loop w rest (results ++ [result])%list
      | Returns None => analyze_loop w rest results
      | Raises _ => analyze_loop w rest results
      end
  end.

Definition analyze_multiple_stocks (w : World) (symbols : list string)
  : list Analysis :=
  analyze_loop w symbols [].

End StockAnalyzer.

(* ------------------------------------------------------------------ *)
(** ** [StockAnalyzer.get_stock_news_sentiment] *)

Module NewsSentiment.

Import StockAnalyzer.
Local Open Scope string_scope.
Local Open Scope py_scope.

Definition positive_keywords : list string :=
  [ "growth"; "profit"; "gain"; "increase"; "positive"; "strong"; "buy";
    "upgrade" ].

Definition negative_keywords : list string :=
  [ "loss"; "decline"; "decrease"; "negative"; "weak"; "sell"; "downgrade";
    "crisis" ].

(** [needle in hay] for two strings. *)
Fixpoint is_substring (needle hay : string) : bool :=
  String.prefix needle hay ||
  match hay with
  | EmptyString => false
  | String _ rest => is_substring needle rest
  end.

(** [s.lower()]; the text is ASCII. *)
Fixpoint str_lower (s : string) : string :=
  match s with
  | EmptyString => EmptyString
  | String c rest => String (lower c) (str_lower rest)
  end.

(** [sum(1 for word in keywords if word in text)] *)
Definition count_keywords (keywords : list string) (text : string) : nat :=
  length (filter (fun word => is_substring word text) keywords).

(** The score the loop appends for one article.  An article that is no
    dict has no [get]; a title or a description that is no string cannot
    be concatenated. *)
Definition article_score (article : json) : outcome Q :=
  match article with
  | JObj kv =>
      match get kv "title" (JStr ""), get kv "description" (JStr "") with
      | JStr title, JStr description =>
          let text := str_lower (title ++ " " ++ description) in
          let positive_count := count_keywords positive_keywords text in
          let negative_count := count_keywords negative_keywords text in
          Returns (if (negative_count <? positive_count)%nat then 7 # 10
                   else if (positive_count <? negative_count)%nat then 3 # 10
                   else 1 # 2)
      | _, _ => Raises TypeError
      end
  | _ => Raises AttributeError
  end.

(** The loop over [articles[:10]]. *)
Fixpoint score_articles (articles : list json) : outcome (list Q) :=
  match articles with
  | [] => Returns []
  | article :: rest =>
      score <- article_score article ;;
      scores <- score_articles rest ;;
      Returns (score :: scores)
  end.

(** [article['title']] *)
Definition title_of (article : json) : outcome json :=
  match article with
  | JObj kv =>
      match lookup kv "title" with
      | Some t => Returns t
      | None => Raises KeyError
      end
  | _ => Raises TypeError
  end.

(** [[article['title'] for article in articles[:3]]] *)
Fixpoint titles (articles : list json) : outcome (list json) :=
  match articles with
  | [] => Returns []
  | article :: rest =>
      t <- title_of article ;;
      ts <- titles rest ;;
      Returns (t :: ts)
  end.

(** [np.mean(sentiment_scores) if sentiment_scores else 0.5] *)
Definition avg_sentiment (sentiment_scores : list Q) : fval :=
  match sentiment_scores with
  | [] => Fin (1 # 2)
  | _ => Fin (Qred (Qsum sentiment_scores / Qlen sentiment_scores))
  end.

(** [{'sentiment_score': 0.5, 'news_count': 0}] *)
Definition neutral_sentiment : Sentiment := mkSentiment (Fin (1 # 2)) 0 None.

(** The branch of status 200, from the value of
    [news_data.get('articles', [])] on.  Only a list (and the empty
    string) can be sliced and looped over as the code does. *)
Definition sentiment_of_articles (articles : json) : outcome Sentiment :=
  match articles with
  | JArr l =>
      sentiment_scores <- score_articles (firstn 10 l) ;;
      recent_headlines <- titles (firstn 3 l) ;;
      Returns (mkSentiment (avg_sentiment sentiment_scores) (length l)
                           (Some recent_headlines))
  | JStr "" => Returns (mkSentiment (Fin (1 # 2)) 0 (Some []))
  | JStr _ => Raises AttributeError
  | JObj _ | JNull | JBool _ | JNum _ => Raises TypeError
  end.

(** What [requests.get] answers: the status code and what
    [response.json()] gives. *)
Record Response : Type := mkResponse
  { status_code : Z; json_ : outcome json }.

(** [get_stock_news_sentiment]; [news_api_key] is the configured key,
    [requests_get] the request for a symbol and a company name (the
    query and its parameters are taken whole). *)
Definition get_stock_news_sentiment
           (news_api_key : option string)
           (requests_get : string -> json -> outcome Response)
           (symbol : string) (company_name : json) : Sentiment :=
  if match news_api_key with None => true | Some k => String.eqb k "" end
  then neutral_sentiment
  else
    match (response <- requests_get symbol company_name ;;
           news_data <- json_ response ;;
           if (status_code response =? 200)%Z then
             match news_data with
             | JObj kv => sentiment_of_articles (get kv "articles" (JArr []))
             | _ => Raises AttributeError
             end
           else Returns neutral_sentiment) with
    | Returns result => result
    | Raises _ => neutral_sentiment
    end.

End NewsSentiment.

(* ------------------------------------------------------------------ *)
(** ** [GroqStockAnalyzer.validate_recommendations] *)

Module GroqStockAnalyzer.

Local Open Scope string_scope.
Local Open Scope py_scope.

(** One pick of the candidate: a JSON object. *)
Definition Pick := dict json.

Record ValidatedPick : Type := mkValidatedPick
  { rank : json;
    symbol : json;
    company_name : json;
    recommendation : json;
    target_price : fval;
    confidence_score : fval;
    key_reasons : json;
    risk_level : json;
    time_horizon : json;
    expected_return : json }.

Record RecommendationSet : Type := mkRecommendationSet
  { top_10_picks : list ValidatedPick;
    market_overview : json;
    top_sectors : json;
    key_risks : json;
    analysis_timestamp : json }.

(** [key in v] for a string [key]: a key of a dict, an element of a
    list, a part of a string. *)
Definition py_in (key : string) (v : json) : outcome bool :=
  match v with
  | JObj kv => Returns (match lookup kv key with Some _ => true | None => false end)
  | JArr l =>
      Returns (existsb (fun x => match x with
                                 | JStr s => String.eqb s key
                                 | _ => false
                                 end) l)
  | JStr s => Returns (NewsSentiment.is_substring key s)
  | JNull | JBool _ | JNum _ => Raises TypeError
  end.

(** [j[key]] for a string key *)
Definition subscript_key (j : json) (key : string) : outcome json :=
  match j with
  | JObj kv =>
      match lookup kv key with
      | Some v => Returns v
      | None => Raises KeyError
      end
  | _ => Raises TypeError
  end.

(** [j.get(key, default)]: only a dict has [get]. *)
Definition py_get (j : json) (key : string) (default : json) : outcome json :=
  match j with
  | JObj kv => Returns (get kv key default)
  | _ => Raises AttributeError
  end.

(** The body of the [try] for a pick that is a dict: the dict display,
    evaluated in order. *)
Definition validate_pick (pick : Pick) : outcome ValidatedPick :=
  let rank := get pick "rank" (JNum (Fin 0)) in
  let symbol := get pick "symbol" (JStr "") in
  let company_name := get pick "company_name" (JStr "") in
  let recommendation := get pick "recommendation" (JStr "HOLD") in
  target_price <- float_ (get pick "target_price" (JNum (Fin 0))) ;;
  confidence_score <- float_ (get pick "confidence_score" (JNum (Fin 0))) ;;
  Returns
    {| rank := rank;
       symbol := symbol;
       company_name := company_name;
       recommendation := recommendation;
       target_price := target_price;
       confidence_score := confidence_score;
       key_reasons := get pick "key_reasons" (JArr []);
       risk_level := get pick "risk_level" (JStr "MEDIUM");
       time_horizon := get pick "time_horizon" (JStr "1-3 days");
       expected_return := get pick "expected_return" (JStr "0%") |}.

(** The [for] loop: a pick is appended, or skipped on [ValueError] and
    [TypeError]; any other exception leaves the function: the
    [OverflowError] of [float], and the [AttributeError] of [pick.get]
    for an entry that is no dict. *)
Fixpoint validate_loop (picks : list json) (validated_picks : list ValidatedPick)
  : outcome (list ValidatedPick) :=
  match picks with
  | [] => Returns validated_picks
  | JObj pick :: rest =>
      match validate_pick pick with
      | Returns validated_pick =>
          validate_loop rest (validated_picks ++ [validated_pick])%list
      | Raises ValueError | Raises TypeError =>
          validate_loop rest validated_picks
      | Raises e => Raises e
      end
  | _ :: _ => Raises AttributeError
  end.

(** [top[:10]], as the sequence the loop runs over: the first ten
    entries of a list, the first ten characters of a string.  A dict
    cannot be indexed by a slice ([TypeError] as of Python 3.11) and
    [None], a boolean and a number cannot be indexed at all. *)
Definition first_ten (top : json) : outcome (list json) :=
  match top with
  | JArr l => Returns (firstn 10 l)
  | JStr s => Returns (map JStr (firstn 10 (py_chars s)))
  | JObj _ | JNull | JBool _ | JNum _ => Raises TypeError
  end.

(** The picks the function collects from the value of [top_10_picks]. *)
Definition collect (top : json) : outcome (list ValidatedPick) :=
  picks <- first_ten top ;;
  validate_loop picks [].

(** The picks the function collects for a candidate whose
    [top_10_picks] is the list of the pick objects [picks]. *)
Definition validated_picks_of (picks : list Pick) : outcome (list ValidatedPick) :=
  collect (JArr (map JObj picks)).

(** What a name of the module's namespace is bound to. *)
Inductive pyobj : Type :=
| PyData (j : json)
| PyModule
| PyClass.

(** The global names of [groq_analyzer.py]: its imports and its class.
    The function's own names are [self], [recommendations],
    [validated_picks], [pick], [validated_pick] and [e]. *)
Definition module_globals : dict pyobj :=
  [ ("json", PyModule); ("logging", PyModule); ("Groq", PyClass);
    ("GroqStockAnalyzer", PyClass) ].

(** Reading a name that is not local: the module's namespace (no
    builtin is called [stock_data]). *)
Definition load_global (globals : dict pyobj) (name : string) : outcome pyobj :=
  match lookup globals name with
  | Some o => Returns o
  | None => Raises NameError
  end.

Definition obj_truthy (o : pyobj) : bool :=
  match o with
  | PyData j => truthy j
  | PyModule | PyClass => true
  end.

(** [o[0]] *)
Definition subscript_0 (o : pyobj) : outcome json :=
  match o with
  | PyData (JArr (x :: _)) => Returns x
  | PyData (JArr []) => Raises IndexError
  | PyData (JStr s) =>
      match py_chars s with
      | c :: _ => Returns (JStr c)
      | [] => Raises IndexError
      end
  | PyData (JObj _) => Raises KeyError
  | _ => Raises TypeError
  end.

(** [validate_recommendations], in a module namespace [globals];
    [recommendations] is [None] or any value [json.loads] can give. *)
Definition validate_recommendations_in (globals : dict pyobj)
           (recommendations : option json)
  : outcome (option RecommendationSet) :=
  match recommendations with
  | None => Returns None
  | Some r =>
      if negb (truthy r) then Returns None
      else
        present <- py_in "top_10_picks" r ;;
        if negb present then Returns None
        else
          top <- subscript_key r "top_10_picks" ;;
          validated_picks <- collect top ;;
          overview <- py_get r "market_overview" (JStr "") ;;
          sectors <- py_get r "top_sectors" (JArr []) ;;
          risks <- py_get r "key_risks" (JArr []) ;;
          stock_data <- load_global globals "stock_data" ;;
          timestamp <-
            (if obj_truthy stock_data then
               first <- subscript_0 stock_data ;;
               subscript_key first "analysis_date"
             else Returns (JStr "")) ;;
          Returns (Some
            {| top_10_picks := validated_picks;
               market_overview := overview;
               top_sectors := sectors;
               key_risks := risks;
               analysis_timestamp := timestamp |})
  end.

Definition validate_recommendations
  : option json -> outcome (option RecommendationSet) :=
  validate_recommendations_in module_globals.

End GroqStockAnalyzer.

(* ------------------------------------------------------------------ *)
(** ** [GroqStockAnalyzer.get_stock_recommendations] *)

Module GroqClient.

Import GroqStockAnalyzer.
Local Open Scope string_scope.
Local Open Scope py_scope.

(** [s.find(c)]: the first index of the character, or -1. *)
Fixpoint find (c : ascii) (s : string) : Z :=
  match s with
  | EmptyString => (-1)%Z
  | String a rest =>
      if Ascii.eqb a c then 0%Z
      else match find c rest with
           | Zneg _ => (-1)%Z
           | i => (i + 1)%Z
           end
  end.

(** [s.rfind(c)]: the last index of the character, or -1. *)
Fixpoint rfind (c : ascii) (s : string) : Z :=
  match s with
  | EmptyString => (-1)%Z
  | String a rest =>
      match rfind c rest with
      | Zneg _ => if Ascii.eqb a c then 0%Z else (-1)%Z
      | i => (i + 1)%Z
      end
  end.

(** [s[a:b]] for two indices that are not negative. *)
Definition slice (s : string) (a b : Z) : string :=
  substring (Z.to_nat a) (Z.to_nat b - Z.to_nat a) s.

(** [len(v)] *)
Definition py_len (v : json) : outcome nat :=
  match v with
  | JArr l => Returns (length l)
  | JStr s => Returns (py_strlen s)
  | JObj kv => Returns (length kv)
  | JNull | JBool _ | JNum _ => Raises TypeError
  end.

(** [get_stock_recommendations].  [chat stock_data] stands for the prompt
    built from the records, the request to the model and the content of
    its first choice ([None] when it has none); [json_loads] is
    [json.loads].  Every exception ends in [return None]: the inner
    handler takes the decoding errors, the outer one the rest, the
    [len] inside the log line included. *)
Definition get_stock_recommendations
           (chat : list StockAnalyzer.Analysis -> outcome (option string))
           (json_loads : string -> outcome json)
           (stock_data : list StockAnalyzer.Analysis) : option json :=
  if empty stock_data then None
  else
    match chat stock_data with
    | Raises _ => None
    | Returns None => None
    | Returns (Some response_content) =>
        let json_start := find "{" response_content in
        let json_end := (rfind "}" response_content + 1)%Z in
        if negb (json_start =? -1)%Z && negb (json_end =? -1)%Z then
          let json_content := slice response_content json_start json_end in
          match json_loads json_content with
          | Raises _ => None
          | Returns recommendations =>
              match py_in "top_10_picks" recommendations with
              | Returns true =>
                  match (picks <- subscript_key recommendations "top_10_picks" ;;
                         py_len picks) with
                  | Returns _ => Some recommendations
                  | Raises _ => None
                  end
              | Returns false => None
              | Raises _ => None
              end
          end
        else None
    end.

End GroqClient.

(* ------------------------------------------------------------------ *)
(** ** [class GoogleSheetsUpdater] *)

Module GoogleSheetsUpdater.

Import GroqStockAnalyzer.
Local Open Scope string_scope.
Local Open Scope py_scope.

(** A row of cells. *)
Definition Row := list json.

Definition headers : Row :=
  map JStr
      [ "Date"; "Rank"; "Symbol"; "Company Name"; "Recommendation";
        "Target Price (Â£)"; "Confidence Score"; "Risk Level";
        "Expected Return"; "Time Horizon"; "Key Reason 1"; "Key Reason 2";
        "Key Reason 3" ].

(** [for x in v]: the elements of a list, the characters of a string,
    the keys of a dict. *)
Definition py_iter (v : json) : outcome (list json) :=
  match v with
  | JArr l => Returns l
  | JStr s => Returns (map JStr (py_chars s))
  | JObj kv => Returns (map (fun p => JStr (fst p)) kv)
  | JNull | JBool _ | JNum _ => Raises TypeError
  end.

(** [reasons[0], reasons[1], reasons[2]] after
    [while len(reasons) < 3: reasons.append('')].  A list is padded; a
    string and a dict have no [append] when they are shorter than 3, a
    longer string gives its first three characters, a longer dict has
    no key 0. *)
Definition three_reasons (reasons : json) : outcome (json * json * json) :=
  match reasons with
  | JArr l =>
      match (l ++ repeat (JStr "") (3 - length l))%list with
      | a :: b :: c :: _ => Returns (a, b, c)
      | _ => Raises IndexError
      end
  | JStr s =>
      match py_chars s with
      | a :: b :: c :: _ => Returns (JStr a, JStr b, JStr c)
      | _ => Raises AttributeError
      end
  | JObj kv =>
      if (length kv <? 3)%nat then Raises AttributeError else Raises KeyError
  | JNull | JBool _ | JNum _ => Raises TypeError
  end.

(** The row of one pick. *)
Definition row_of_pick (current_date : string) (pick : ValidatedPick)
  : outcome Row :=
  reasons <- three_reasons (key_reasons pick) ;;
  let '(r0, r1, r2) := reasons in
  Returns [ JStr current_date;
            rank pick;
            symbol pick;
            company_name pick;
            recommendation pick;
            JNum (target_price pick);
            JNum (confidence_score pick);
            risk_level pick;
            expected_return pick;
            time_horizon pick;
            r0; r1; r2 ].

Fixpoint rows_of_picks (current_date : string) (picks : list ValidatedPick)
  : outcome (list Row) :=
  match picks with
  | [] => Returns []
  | pick :: rest =>
      row <- row_of_pick current_date pick ;;
      rows <- rows_of_picks current_date rest ;;
      Returns (row :: rows)
  end.

(** [format_recommendations_for_sheets] on the validated set;
    [current_date] is [datetime.now().strftime('%Y-%m-%d %H:%M')].  The
    padding of [key_reasons] is done on the pick's own list; nothing
    reads that list afterwards. *)
Definition format_recommendations_for_sheets (current_date : string)
           (recommendations : option RecommendationSet)
  : outcome (list Row) :=
  match recommendations with
  | None => Returns []
  | Some r =>
      pick_rows <- rows_of_picks current_date (top_10_picks r) ;;
      sectors <- py_iter (top_sectors r) ;;
      risks <- py_iter (key_risks r) ;;
      Returns ((headers :: pick_rows)
                 ++ [ []; [JStr "MARKET OVERVIEW"]; [market_overview r]; [];
                      [JStr "TOP SECTORS"] ]
                 ++ map (fun sector => [sector]) sectors
                 ++ [ []; [JStr "KEY RISKS"] ]
                 ++ map (fun risk => [risk]) risks)%list
  end.

(** [sheet['properties']['title'] == worksheet_name] *)
Definition title_is (worksheet_name : string) (sheet : json) : outcome bool :=
  properties <- subscript_key sheet "properties" ;;
  title <- subscript_key properties "title" ;;
  Returns (match title with
           | JStr t => String.eqb t worksheet_name
           | _ => false
           end).

(** The loop of [get_sheet_id]. *)
Fixpoint first_sheet_id (worksheet_name : string) (sheets : list json)
  : outcome json :=
  match sheets with
  | [] => Returns (JNum (Fin 0))
  | sheet :: rest =>
      found <- title_is worksheet_name sheet ;;
      if found then
        properties <- subscript_key sheet "properties" ;;
        subscript_key properties "sheetId"
      else first_sheet_id worksheet_name rest
  end.

(** [get_sheet_id]; [spreadsheet] is what the request for the
    spreadsheet gives. *)
Definition get_sheet_id (worksheet_name : string) (spreadsheet : outcome json)
  : json :=
  match (s <- spreadsheet ;;
         sheets <- subscript_key s "sheets" ;;
         l <- py_iter sheets ;;
         first_sheet_id worksheet_name l) with
  | Returns id => id
  | Raises _ => JNum (Fin 0)
  end.

(** [[sheet['properties']['title'] for sheet in sheets]] *)
Fixpoint titles_of_sheets (sheets : list json) : outcome (list json) :=
  match sheets with
  | [] => Returns []
  | sheet :: rest =>
      properties <- subscript_key sheet "properties" ;;
      title <- subscript_key properties "title" ;;
      titles <- titles_of_sheets rest ;;
      Returns (title :: titles)
  end.

(** [worksheet_name in worksheet_names], from the answer for the
    spreadsheet. *)
Definition worksheet_known (worksheet_name : string) (spreadsheet : json)
  : outcome bool :=
  sheets <- subscript_key spreadsheet "sheets" ;;
  l <- py_iter sheets ;;
  worksheet_names <- titles_of_sheets l ;;
  Returns (existsb (fun t => match t with
                             | JStr t => String.eqb t worksheet_name
                             | _ => false
                             end) worksheet_names).

(** What the sheets service answers: to the [n]-th request for the
    spreadsheet, to a batch update, to the clearing of the values and to
    their update. *)
Record Service : Type := mkService
  { spreadsheets_get : nat -> outcome json;
    batch_update : outcome unit;
    values_clear : outcome unit;
    values_update : list Row -> outcome json }.

(** The requests sent to the service. *)
Inductive Request : Type :=
| GetSpreadsheet
| AddSheet (title : string)
| ClearValues
| UpdateValues (rows : list Row)
| FormatHeader (sheet_id_bold sheet_id_resize : json).

(** [create_worksheet_if_not_exists]: the requests it sends; it returns
    nothing and swallows every exception. *)
Definition create_worksheet_if_not_exists (svc : Service) (worksheet_name : string)
  : list Request :=
  GetSpreadsheet ::
  match (spreadsheet <- spreadsheets_get svc 0 ;;
         worksheet_known worksheet_name spreadsheet) with
  | Returns false => [AddSheet worksheet_name]
  | Returns true => []
  | Raises _ => []
  end.

(** [clear_existing_data] *)
Definition clear_existing_data : list Request := [ClearValues].

(** [apply_formatting], called after one earlier request for the
    spreadsheet: [get_sheet_id] is called for each of the two ranges. *)
Definition apply_formatting (svc : Service) (worksheet_name : string)
  : list Request :=
  let id_bold := get_sheet_id worksheet_name (spreadsheets_get svc 1) in
  let id_resize := get_sheet_id worksheet_name (spreadsheets_get svc 2) in
  [GetSpreadsheet; GetSpreadsheet; FormatHeader id_bold id_resize].

(** [update_sheet]: its result and the requests it has sent. *)
Definition update_sheet (svc : Service) (worksheet_name current_date : string)
           (recommendations : option RecommendationSet)
  : bool * list Request :=
  let sent :=
    (create_worksheet_if_not_exists svc worksheet_name ++ clear_existing_data)%list in
  match format_recommendations_for_sheets current_date recommendations with
  | Raises _ => (false, sent)
  | Returns data_rows =>
      if empty data_rows then (false, sent)
      else
        let sent := (sent ++ [UpdateValues data_rows])%list in
        match values_update svc data_rows with
        | Raises _ => (false, sent)
        | Returns (JObj _) =>
            (true, (sent ++ apply_formatting svc worksheet_name)%list)
        | Returns _ => (false, sent)
        end
  end.

End GoogleSheetsUpdater.

(* ------------------------------------------------------------------ *)
(** ** [class UKStockAnalyzer] of [main.py] *)

Module Main.

Import GroqStockAnalyzer.
Local Open Scope string_scope.

(** [get_uk_stock_symbols]: the list of the configuration, or the
    default one. *)
Definition get_uk_stock_symbols (configured : option (list string)) : list string :=
  match configured with
  | Some l => l
  | None =>
      [ "AAPL.L"; "BARC.L"; "BP.L"; "BT-A.L"; "LLOY.L";
        "HSBA.L"; "VOD.L"; "RIO.L"; "SHEL.L"; "AZN.L";
        "ULVR.L"; "GSK.L"; "DGE.L"; "NG.L"; "REL.L";
        "LSEG.L"; "NWG.L"; "STAN.L"; "PRU.L"; "FLTR.L";
        "IAG.L"; "GLEN.L"; "JD.L"; "MNG.L"; "PSON.L";
        "RKT.L"; "TSCO.L"; "WTB.L"; "INF.L"; "ANTO.L" ]
  end.

(** What a run is given from outside. *)
Record Setting : Type := mkSetting
  { world : StockAnalyzer.World;
    uk_stocks : option (list string);
    chat : list StockAnalyzer.Analysis -> outcome (option string);
    json_loads : string -> outcome json;
    service : GoogleSheetsUpdater.Service;
    worksheet_name : string;
    current_date : string }.

(** The steps 2 to 5 that [run_daily_analysis] and [run_test_mode]
    share: the result, and the requests sent to the sheets service.
    Every exception ends in [return False]. *)
Definition analyse_and_publish (s : Setting) (stock_symbols : list string)
  : bool * list GoogleSheetsUpdater.Request :=
  let stock_analysis_results :=
    StockAnalyzer.analyze_multiple_stocks (world s) stock_symbols in
  if empty stock_analysis_results then (false, [])
  else
    match GroqClient.get_stock_recommendations (chat s) (json_loads s)
                                                stock_analysis_results with
    | None => (false, [])
    | Some recommendations =>
        if negb (truthy recommendations) then (false, [])
        else
          match validate_recommendations (Some recommendations) with
          | Raises _ => (false, [])
          | Returns None => (false, [])
          | Returns (Some validated_recommendations) =>
              GoogleSheetsUpdater.update_sheet
                (service s) (worksheet_name s) (current_date s)
                (Some validated_recommendations)
          end
    end.

Definition run_daily_analysis (s : Setting)
  : bool * list GoogleSheetsUpdater.Request :=
  analyse_and_publish s (get_uk_stock_symbols (uk_stocks s)).

Definition run_test_mode (s : Setting)
  : bool * list GoogleSheetsUpdater.Request :=
  analyse_and_publish s ["AAPL.L"; "BARC.L"; "BP.L"; "LLOY.L"; "VOD.L"].

End Main.

(* ------------------------------------------------------------------ *)
(** ** The notions the specification uses *)

Module Spec.

Local Open Scope string_scope.

(** The fetch of a symbol failed: the request raised, or the history
    it returned has no row. *)
Definition fetch_failed (w : StockAnalyzer.World) (s : string) : Prop :=
  match fst (StockAnalyzer.get_stock_data w s) with
  | None => True
  | Some hist => hist = []
  end.

(** The analysis of a symbol succeeded: it returned a record. *)
Definition succeeded (w : StockAnalyzer.World) (s : string) : bool :=
  match StockAnalyzer.analyze_stock w s with
  | Returns (Some _) => true
  | _ => false
  end.

(** The records of the symbols that succeeded, in the order of the
    symbols. *)
Definition records_of_successes (w : StockAnalyzer.World) (symbols : list string)
  : list StockAnalyzer.Analysis :=
  flat_map (fun s => match StockAnalyzer.analyze_stock w s with
                     | Returns (Some r) => [r]
                     | _ => []
                     end) symbols.

(** The names of the ten indicators. *)
Definition indicator_names : list string :=
  [ "rsi"; "macd"; "macd_signal"; "sma_20"; "sma_50"; "bb_position";
    "volume_ratio"; "price_change_5d"; "price_change_20d"; "current_price" ].


(** The coercion of a pick fails the way the loop catches: with
    [ValueError] or [TypeError]. *)
Definition skipped (pick : GroqStockAnalyzer.Pick) : bool :=
  match GroqStockAnalyzer.validate_pick pick with
  | Raises ValueError | Raises TypeError => true
  | _ => false
  end.

(** The coercion of a pick fails the way the loop does not catch: a
    whole number past the largest float. *)
Definition overflows (pick : GroqStockAnalyzer.Pick) : bool :=
  match GroqStockAnalyzer.validate_pick pick with
  | Raises OverflowError => true
  | _ => false
  end.

(** The sanitised forms of the coercible picks among the first 10, in
    the order of the candidate. *)
Definition kept_picks (picks : list GroqStockAnalyzer.Pick)
  : list GroqStockAnalyzer.ValidatedPick :=
  flat_map (fun p => match GroqStockAnalyzer.validate_pick p with
                     | Returns v => [v]
                     | Raises _ => []
                     end) (firstn 10 picks).

End Spec.

(* ------------------------------------------------------------------ *)
(** ** Sample inputs *)

Module Examples.

Import StockAnalyzer.
Local Open Scope string_scope.

Definition bar (close volume : Q) : Bar :=
  mkBar close close close close volume.

(** 25 days of constant close price 100 and constant volume 1000. *)
Definition flat_25 : DataFrame := repeat (bar 100 1000) 25.

Definition one_bar : DataFrame := [bar 100 1000].

Definition five_bars : DataFrame := repeat (bar 100 1000) 5.

(** 21 days, the close alternating between 100 and 103. *)
Definition zigzag_21 : DataFrame :=
  map (fun i => bar (if Nat.even i then 100 else 103) 1000) (seq 0 21).

Definition zigzag_record : Indicators :=
  match calculate_technical_indicators (Some zigzag_21) with
  | Returns r => r
  | Raises _ => []
  end.

Definition neutral : Sentiment := mkSentiment (Fin (1 # 2)) 0 None.

(** A market of five symbols: a month of bars for [AAA.L] and [CCC.L],
    a failing request for [BBB.L], no row for [DDD.L], a week of bars
    for any other symbol. *)
Definition market : World :=
  {| ticker := fun s =>
       if String.eqb s "AAA.L"
       then Returns (zigzag_21, [("longName", JStr "Alpha plc")])
       else if String.eqb s "BBB.L" then Raises OtherError
       else if String.eqb s "CCC.L" then Returns (flat_25, [])
       else if String.eqb s "DDD.L" then Returns ([], [])
       else Returns (five_bars, []);
     get_stock_news_sentiment := fun _ _ => neutral;
     today := "2024-01-02" |}.

(** The records of [AAA.L] and [CCC.L] in that market. *)
Definition alpha_record : Analysis :=
  {| symbol := "AAA.L";
     company_name := JStr "Alpha plc";
     analysis_date := "2024-01-02";
     technical_indicators := zigzag_record;
     sentiment := neutral;
     market_cap := JNum (Fin 0);
     sector := JStr "Unknown" |}.

Definition gamma_record : Analysis :=
  {| symbol := "CCC.L";
     company_name := JStr "CCC.L";
     analysis_date := "2024-01-02";
     technical_indicators :=
       [ ("rsi", NaN); ("macd", Fin 0); ("macd_signal", Fin 0);
         ("sma_20", Fin 100); ("sma_50", NaN); ("bb_position", NaN);
         ("volume_ratio", Fin 1); ("price_change_5d", Fin 0);
         ("price_change_20d", Fin 0); ("current_price", Fin 100) ];
     sentiment := neutral;
     market_cap := JNum (Fin 0);
     sector := JStr "Unknown" |}.

Import GroqStockAnalyzer.

Definition good_pick (rank : Z) : Pick :=
  [ ("rank", JNum (Fin (inject_Z rank)));
    ("symbol", JStr "AAA.L");
    ("target_price", JNum (Fin (301 # 2)));
    ("confidence_score", JStr "8.5") ].


(** Fifteen good picks, listed from rank 15 down to rank 1. *)
Definition fifteen_picks : list Pick :=
  map good_pick [15; 14; 13; 12; 11; 10; 9; 8; 7; 6; 5; 4; 3; 2; 1]%Z.



(** A pick whose target price is a whole number past the largest
    float. *)
Definition huge_pick (rank : Z) : Pick :=
  [ ("rank", JNum (Fin (inject_Z rank)));
    ("symbol", JStr "CCC.L");
    ("target_price", JNum (Fin (inject_Z (10 ^ 400))));
    ("confidence_score", JNum (Fin 7)) ].

(** The candidate with these picks, as [json.loads] gives it. *)
Definition candidate_of (picks : list Pick) : json :=
  JObj [ ("top_10_picks", JArr (map JObj picks));
         ("market_overview", JStr "steady") ].

Definition without_picks : json :=
  JObj [ ("market_overview", JStr "steady") ].

(** 15 days, the close alternating between 100 and 103. *)
Definition zigzag_15 : DataFrame := firstn 15 zigzag_21.

End Examples.

(* ------------------------------------------------------------------ *)
(** ** More sample inputs *)

Module MoreExamples.

Import StockAnalyzer.
Import Examples.
Local Open Scope string_scope.



Definition record_of (df : DataFrame) : Indicators :=
  match calculate_technical_indicators (Some df) with
  | Returns r => r
  | Raises _ => []
  end.

(** An article as the news service lists it. *)
Definition article (title : string) (description : json) : json :=
  JObj [ ("title", JStr title); ("description", description) ].

Definition good_news : json :=
  article "Shares gain on strong profit" (JStr "An upgrade followed.").

Definition bad_news : json :=
  article "Profit warning" (JStr "Weak sales, a decline and a loss.").

(** An article the service sent without a description. *)
Definition bare_news : json := article "Results due" JNull.

(** A news service that answers every request with the same articles. *)
Definition answering (articles : list json)
  : string -> json -> outcome NewsSentiment.Response :=
  fun _ _ =>
    Returns (NewsSentiment.mkResponse
               200 (Returns (JObj [ ("status", JStr "ok");
                                    ("articles", JArr articles) ]))).

Definition twelve_articles : list json :=
  [ good_news; good_news; bad_news; good_news; bare_news; good_news;
    good_news; good_news; good_news; good_news; bad_news; good_news ].

(** The text of a JSON object with an empty list of picks. *)
Definition picks_text : string :=
  String "{" (String "034" "top_10_picks" ++ String "034" ": []" ++ "}").

(** A model whose answer is always [content]. *)
Definition saying (content : string)
  : list Analysis -> outcome (option string) :=
  fun _ => Returns (Some content).

(** [json.loads] on [picks_text]; the sample runs decode no other text. *)
Definition loads_picks_text (s : string) : outcome json :=
  if String.eqb s picks_text then Returns (JObj [ ("top_10_picks", JArr []) ])
  else Raises ValueError.

(** A pick the model sent with [null] for its reasons. *)
Definition null_reasons_pick : GroqStockAnalyzer.Pick :=
  [ ("rank", JNum (Fin 1)); ("symbol", JStr "AAA.L");
    ("target_price", JNum (Fin 120)); ("key_reasons", JNull) ].

Definition validated (reasons : json) : GroqStockAnalyzer.ValidatedPick :=
  GroqStockAnalyzer.mkValidatedPick
    (JNum (Fin 1)) (JStr "AAA.L") (JStr "Alpha plc") (JStr "BUY")
    (Fin 120) (Fin 8) reasons (JStr "LOW") (JStr "1-3 days") (JStr "2%").

(** A set of the validator's shape: two picks, two sectors, one risk. *)
Definition sample_set (reasons : json) : GroqStockAnalyzer.RecommendationSet :=
  GroqStockAnalyzer.mkRecommendationSet
    [ validated (JArr [JStr "momentum"]); validated reasons ]
    (JStr "Quiet market")
    (JArr [JStr "Banks"; JStr "Energy"])
    (JArr [JStr "Rates"])
    (JStr "2024-01-02").

(** The rows of [sample_set], none when the formatting raises. *)
Definition sample_rows (reasons : json) : list GoogleSheetsUpdater.Row :=
  match GoogleSheetsUpdater.format_recommendations_for_sheets
          "2024-01-02 08:00" (Some (sample_set reasons)) with
  | Returns rows => rows
  | Raises _ => []
  end.

Definition sheet (title : string) (id : Z) : json :=
  JObj [ ("properties",
          JObj [ ("sheetId", JNum (Fin (inject_Z id))); ("title", JStr title) ]) ].

(** A spreadsheet with three sheets, two of them with the same title. *)
Definition sample_spreadsheet : json :=
  JObj [ ("sheets", JArr [ sheet "Sheet1" 0; sheet "Daily_Stock_Picks" 7;
                           sheet "Daily_Stock_Picks" 9 ]) ].

(** A sheets service that accepts every request. *)
Definition sample_service : GoogleSheetsUpdater.Service :=
  GoogleSheetsUpdater.mkService
    (fun _ => Returns sample_spreadsheet)
    (Returns tt) (Returns tt)
    (fun rows => Returns (JObj [ ("updatedCells", JNum (Fin 40)) ])).

(** A run whose model answers with an empty list of picks. *)
Definition sample_setting : Main.Setting :=
  Main.mkSetting market (Some ["AAA.L"; "BBB.L"; "CCC.L"])
                 (saying picks_text) loads_picks_text
                 sample_service "Daily_Stock_Picks" "2024-01-02 08:00".

End MoreExamples.
(* ------------------------------------------------------------------ *)
(** * Properties *)

Import StockAnalyzer.

Unset Implicit Arguments.

(** ** Positional indexing and the shape of the series *)

Section Indexing.

Context {A : Type}.

Lemma iloc_neg_short (s : list A) (k : nat) :
  (length s < k)%nat -> iloc_neg s k = Raises IndexError.
Proof.
  intros H. unfold iloc_neg.
  destruct (Nat.ltb_spec (length s) k); [reflexivity | lia].
Qed.

Lemma iloc_neg_in_range (s : list A) (k : nat) :
  (1 <= k <= length s)%nat ->
  exists x, iloc_neg s k = Returns x /\ nth_error s (length s - k) = Some x.
Proof.
  intros H. unfold iloc_neg.
  destruct (Nat.ltb_spec (length s) k); [lia |].
  destruct (nth_error s (length s - k)) as [x |] eqn:E.
  - exists x. split; reflexivity.
  - apply nth_error_None in E. lia.
Qed.

(** [s.iloc[-1]] is the last entry. *)
Lemma iloc_neg_last (s : list A) (x : A) :
  nth_error s (length s - 1) = Some x -> iloc_neg s 1 = Returns x.
Proof.
  intros E. unfold iloc_neg.
  destruct (Nat.ltb_spec (length s) 1) as [H | H].
  - destruct s; [discriminate E | simpl in H; lia].
  - rewrite E. reflexivity.
Qed.

End Indexing.

Lemma nth_error_map_seq {B} (f : nat -> B) (n i : nat) :
  (i < n)%nat -> nth_error (map f (seq 0 n)) i = Some (f i).
Proof.
  intros H. rewrite nth_error_map, nth_error_seq.
  destruct (Nat.ltb_spec i n); [reflexivity | lia].
Qed.

Lemma nth_error_zip_with f (a b : Series) (i : nat) (x y : fval) :
  nth_error a i = Some x -> nth_error b i = Some y ->
  nth_error (zip_with f a b) i = Some (f x y).
Proof.
  unfold zip_with. revert b i.
  induction a as [| a0 a IH]; intros [| b0 b] [| i]; simpl; try discriminate.
  - intros [= ->] [= ->]. reflexivity.
  - apply IH.
Qed.

Lemma length_col f (df : DataFrame) : length (col f df) = length df.
Proof. apply length_map. Qed.

Lemma length_rolling w agg (s : Series) : length (rolling w agg s) = length s.
Proof. unfold rolling. rewrite length_map, length_seq. reflexivity. Qed.

Lemma length_diff (s : Series) : length (diff s) = length s.
Proof.
  destruct s as [| x t]; [reflexivity |]. simpl. f_equal.
  revert x. induction t as [| y t IH]; intros x; simpl; [reflexivity |].
  f_equal. apply IH.
Qed.

Lemma length_prep_values (s : Series) : length (prep_values s) = length s.
Proof. apply length_map. Qed.

Lemma length_observations (win : Series) :
  (length (observations win) <= length win)%nat.
Proof.
  induction win as [| x win IH]; simpl; [lia |].
  destruct x; simpl; lia.
Qed.

(** Fewer bars than the window: the rolling mean is [NaN]. *)
Lemma roll_mean_short w (win : Series) :
  (length win < w)%nat -> roll_mean w win = NaN.
Proof.
  intros H. unfold roll_mean.
  pose proof (length_observations win).
  destruct (Nat.leb_spec w (length (observations win))); [lia | reflexivity].
Qed.

Lemma roll_std_short w (win : Series) :
  (length win < w)%nat -> roll_std w win = NaN.
Proof.
  intros H. unfold roll_std.
  pose proof (length_observations win).
  destruct (Nat.leb_spec w (length (observations win))); [lia | reflexivity].
Qed.

Lemma col_nonempty f (df : DataFrame) : df <> [] -> col f df <> [].
Proof. destruct df; [congruence | discriminate]. Qed.

Lemma empty_false {A} (s : list A) : s <> [] -> empty s = false.
Proof. destruct s; [congruence | reflexivity]. Qed.

Lemma nonempty_length {A} (s : list A) : s <> [] <-> (0 < length s)%nat.
Proof. destruct s; simpl; split; intros H; try congruence; try lia. Qed.

Lemma rolling_nth_last w agg (s : Series) :
  s <> [] ->
  nth_error (rolling w agg s) (length s - 1)
  = Some (agg w (skipn (length s - w) (prep_values s))).
Proof.
  intros Hs. apply nonempty_length in Hs.
  unfold rolling. rewrite nth_error_map_seq by lia. f_equal. unfold window.
  replace (length s - 1 + 1)%nat with (length s) by lia.
  rewrite <- (length_prep_values s) at 2. rewrite firstn_all. reflexivity.
Qed.

Lemma last_or_0_nth (s : Series) (x : fval) :
  nth_error s (length s - 1) = Some x -> last_or_0 s = Returns x.
Proof.
  intros E. unfold last_or_0.
  destruct s as [| y t]; [discriminate E |].
  cbn [empty negb]. apply iloc_neg_last. exact E.
Qed.

Lemma length_zip_with f (a b : Series) :
  length a = length b -> length (zip_with f a b) = length a.
Proof.
  intros H. unfold zip_with. rewrite length_map, length_combine. lia.
Qed.

Lemma length_ewm_loop f nw minp (vals : Series) :
  forall weighted old_wt nobs,
    length (ewm_loop f nw minp weighted old_wt nobs vals) = length vals.
Proof.
  induction vals as [| cur rest IH]; intros weighted old_wt nobs;
    [reflexivity |].
  cbn [ewm_loop length].
  destruct (if negb (is_nan weighted) then _ else _) as [w' o'].
  cbn [length]. f_equal. apply IH.
Qed.

Lemma length_ewm_mean span (s : Series) : length (ewm_mean span s) = length s.
Proof.
  unfold ewm_mean. rewrite <- (length_prep_values s).
  destruct (prep_values s) as [| x0 rest]; [reflexivity |].
  cbn [length]. f_equal. apply length_ewm_loop.
Qed.

(** Every series the engine derives has one entry per bar. *)
Lemma length_delta df : length (delta df) = length df.
Proof. unfold delta. rewrite length_diff. apply length_col. Qed.

Lemma length_gain df : length (gain df) = length df.
Proof.
  unfold gain, rolling_mean, where_.
  rewrite length_rolling, length_map. apply length_delta.
Qed.

Lemma length_loss df : length (loss df) = length df.
Proof.
  unfold loss, rolling_mean, where_.
  rewrite length_rolling, !length_map. apply length_delta.
Qed.

Lemma length_rs df : length (rs df) = length df.
Proof.
  unfold rs. rewrite length_zip_with; rewrite length_gain; [| rewrite length_loss];
    reflexivity.
Qed.

Lemma length_rsi df : length (rsi df) = length df.
Proof. unfold rsi. rewrite length_map. apply length_rs. Qed.

Lemma length_macd df : length (macd df) = length df.
Proof.
  unfold macd, exp1, exp2.
  rewrite length_zip_with; rewrite !length_ewm_mean; rewrite ?length_col;
    reflexivity.
Qed.

Lemma length_signal df : length (signal df) = length df.
Proof. unfold signal. rewrite length_ewm_mean. apply length_macd. Qed.

Lemma length_sma_20 df : length (sma_20 df) = length df.
Proof. unfold sma_20, rolling_mean. rewrite length_rolling. apply length_col. Qed.

Lemma length_sma_50 df : length (sma_50 df) = length df.
Proof. unfold sma_50, rolling_mean. rewrite length_rolling. apply length_col. Qed.

Lemma length_sma df : length (sma df) = length df.
Proof. unfold sma, rolling_mean. rewrite length_rolling. apply length_col. Qed.

Lemma length_std df : length (std df) = length df.
Proof. unfold std, rolling_std. rewrite length_rolling. apply length_col. Qed.

Lemma length_bb_upper df : length (bb_upper df) = length df.
Proof.
  unfold bb_upper.
  rewrite length_zip_with; rewrite ?length_map, ?length_sma, ?length_std;
    reflexivity.
Qed.

Lemma length_bb_lower df : length (bb_lower df) = length df.
Proof.
  unfold bb_lower.
  rewrite length_zip_with; rewrite ?length_map, ?length_sma, ?length_std;
    reflexivity.
Qed.

Lemma length_avg_volume df : length (avg_volume df) = length df.
Proof.
  unfold avg_volume, rolling_mean. rewrite length_rolling. apply length_col.
Qed.

Lemma nonempty_of_length {A B} (s : list A) (t : list B) :
  length s = length t -> t <> [] -> s <> [].
Proof.
  intros H Ht. apply nonempty_length. rewrite H. apply nonempty_length, Ht.
Qed.

(** On a frame with a row, [s.iloc[-1] if not s.empty else 0] returns for
    each of the engine's series. *)
Lemma last_or_0_returns (s : Series) (df : DataFrame) :
  length s = length df -> df <> [] ->
  exists x, last_or_0 s = Returns x /\ nth_error s (length s - 1) = Some x.
Proof.
  intros Hl Hdf.
  assert (Hs : (0 < length s)%nat) by (rewrite Hl; apply nonempty_length, Hdf).
  destruct (nth_error s (length s - 1)) as [x |] eqn:E.
  - exists x. split; [apply last_or_0_nth, E | reflexivity].
  - apply nth_error_None in E. lia.
Qed.

(** ** Which calls of the engine raise *)

Lemma volume_ratio_returns (df : DataFrame) :
  df <> [] ->
  exists v a,
    nth_error (col Volume df) (length df - 1) = Some v /\
    nth_error (avg_volume df) (length df - 1) = Some a /\
    volume_ratio df = Returns (fdiv v a).
Proof.
  intros Hdf. pose proof (proj1 (nonempty_length df) Hdf) as Hn.
  unfold volume_ratio.
  rewrite (empty_false _ (nonempty_of_length _ _ (length_avg_volume df) Hdf)).
  cbn [negb].
  destruct (@iloc_neg_in_range _ (col Volume df) 1) as (v & Ev & Nv);
    [rewrite length_col; lia |].
  destruct (@iloc_neg_in_range _ (avg_volume df) 1) as (a & Ea & Na);
    [rewrite length_avg_volume; lia |].
  rewrite length_col in Nv. rewrite length_avg_volume in Na.
  exists v, a. rewrite Ev, Ea. cbn [bind]. auto.
Qed.

Lemma price_change_raises k (df : DataFrame) :
  df <> [] -> (length df < k + 1)%nat ->
  price_change k df = Raises IndexError.
Proof.
  intros Hdf Hlt. pose proof (proj1 (nonempty_length df) Hdf) as Hn.
  unfold price_change.
  destruct (@iloc_neg_in_range _ (col Close df) 1) as (c & Ec & _);
    [rewrite length_col; lia |].
  rewrite Ec. cbn [bind].
  rewrite iloc_neg_short by (rewrite length_col; lia). reflexivity.
Qed.

Lemma price_change_returns k (df : DataFrame) :
  (k + 1 <= length df)%nat ->
  exists c p,
    nth_error (col Close df) (length df - 1) = Some c /\
    nth_error (col Close df) (length df - (k + 1)) = Some p /\
    price_change k df = Returns (fmul (fdiv (fsub c p) p) (Fin 100)).
Proof.
  intros Hle. unfold price_change.
  destruct (@iloc_neg_in_range _ (col Close df) 1) as (c & Ec & Nc);
    [rewrite length_col; lia |].
  destruct (@iloc_neg_in_range _ (col Close df) (k + 1)) as (p & Ep & Np);
    [rewrite length_col; lia |].
  rewrite length_col in Nc, Np.
  exists c, p. rewrite Ec. cbn [bind]. rewrite Ep. cbn [bind]. auto.
Qed.

Lemma bb_position_returns (df : DataFrame) :
  df <> [] ->
  exists c l u,
    nth_error (col Close df) (length df - 1) = Some c /\
    nth_error (bb_lower df) (length df - 1) = Some l /\
    nth_error (bb_upper df) (length df - 1) = Some u /\
    bb_position df = Returns (fdiv (fsub c l) (fsub u l)).
Proof.
  intros Hdf. pose proof (proj1 (nonempty_length df) Hdf) as Hn.
  unfold bb_position.
  rewrite (empty_false _ (nonempty_of_length _ _ (length_bb_upper df) Hdf)).
  cbn [negb].
  destruct (@iloc_neg_in_range _ (col Close df) 1) as (c & Ec & Nc);
    [rewrite length_col; lia |].
  destruct (@iloc_neg_in_range _ (bb_lower df) 1) as (l & El & Nl);
    [rewrite length_bb_lower; lia |].
  destruct (@iloc_neg_in_range _ (bb_upper df) 1) as (u & Eu & Nu);
    [rewrite length_bb_upper; lia |].
  rewrite length_col in Nc. rewrite length_bb_lower in Nl.
  rewrite length_bb_upper in Nu.
  exists c, l, u. rewrite Ec. cbn [bind]. rewrite El. cbn [bind].
  rewrite Eu. cbn [bind]. auto.
Qed.

(** A frame of 1 to 20 rows: one of the two momentum lines raises. *)
Lemma calculate_short (df : DataFrame) :
  df <> [] -> (length df < 21)%nat ->
  calculate_technical_indicators (Some df) = Raises IndexError.
Proof.
  intros Hdf Hlt. unfold calculate_technical_indicators.
  rewrite (empty_false _ Hdf).
  destruct (volume_ratio_returns df Hdf) as (v & a & _ & _ & ->). cbn [bind].
  destruct (Nat.lt_ge_cases (length df) 6) as [H6 | H6].
  - rewrite (@price_change_raises 5 df Hdf) by (simpl; lia). reflexivity.
  - destruct (@price_change_returns 5 df) as (c & p & _ & _ & ->);
      [simpl; lia |].
    cbn [bind].
    rewrite (@price_change_raises 20 df Hdf) by (simpl; lia). reflexivity.
Qed.

(** A frame of 21 rows or more: the record of ten indicators, each the
    value of its expression. *)
Lemma calculate_long (df : DataFrame) :
  (21 <= length df)%nat ->
  exists vr p5 p20 v_rsi v_macd v_signal v_sma_20 v_sma_50 v_bb price,
    volume_ratio df = Returns vr /\
    price_change 5 df = Returns p5 /\
    price_change 20 df = Returns p20 /\
    last_or_0 (rsi df) = Returns v_rsi /\
    last_or_0 (macd df) = Returns v_macd /\
    last_or_0 (signal df) = Returns v_signal /\
    last_or_0 (sma_20 df) = Returns v_sma_20 /\
    last_or_0 (sma_50 df) = Returns v_sma_50 /\
    bb_position df = Returns v_bb /\
    nth_error (col Close df) (length df - 1) = Some price /\
    calculate_technical_indicators (Some df)
    = Returns [ ("rsi", v_rsi); ("macd", v_macd); ("macd_signal", v_signal);
                ("sma_20", v_sma_20); ("sma_50", v_sma_50);
                ("bb_position", v_bb); ("volume_ratio", vr);
                ("price_change_5d", p5); ("price_change_20d", p20);
                ("current_price", price) ]%string.
Proof.
  intros Hle.
  assert (Hdf : df <> []) by (apply nonempty_length; lia).
  unfold calculate_technical_indicators. rewrite (empty_false _ Hdf).
  destruct (volume_ratio_returns df Hdf) as (v & a & _ & _ & Evr).
  destruct (@price_change_returns 5 df) as (c5 & q5 & _ & _ & E5);
    [simpl; lia |].
  destruct (@price_change_returns 20 df) as (c20 & q20 & _ & _ & E20);
    [simpl; lia |].
  destruct (last_or_0_returns (rsi df) df (length_rsi df) Hdf) as (x1 & E1 & _).
  destruct (last_or_0_returns (macd df) df (length_macd df) Hdf) as (x2 & E2 & _).
  destruct (last_or_0_returns (signal df) df (length_signal df) Hdf) as (x3 & E3 & _).
  destruct (last_or_0_returns (sma_20 df) df (length_sma_20 df) Hdf) as (x4 & E4 & _).
  destruct (last_or_0_returns (sma_50 df) df (length_sma_50 df) Hdf) as (x5 & E5' & _).
  destruct (bb_position_returns df Hdf) as (c & l & u & _ & _ & _ & Ebb).
  destruct (@iloc_neg_in_range _ (col Close df) 1) as (pr & Epr & Npr);
    [rewrite length_col; lia |].
  rewrite length_col in Npr.
  exists (fdiv v a), (fmul (fdiv (fsub c5 q5) q5) (Fin 100)),
    (fmul (fdiv (fsub c20 q20) q20) (Fin 100)), x1, x2, x3, x4, x5,
    (fdiv (fsub c l) (fsub u l)), pr.
  rewrite Evr, E5, E20, E1, E2, E3, E4, E5', Ebb, Epr. cbn [bind].
  repeat split; assumption || reflexivity.
Qed.

(** The engine returns a record exactly on frames of 21 rows or more. *)
Lemma calculate_returns_long (df : DataFrame) r :
  df <> [] -> calculate_technical_indicators (Some df) = Returns r ->
  (21 <= length df)%nat.
Proof.
  intros Hdf E. destruct (Nat.lt_ge_cases (length df) 21) as [H | H];
    [| exact H].
  rewrite (calculate_short df Hdf H) in E. discriminate E.
Qed.

(** ** Not-a-number propagates *)

Lemma fadd_NaN_r x : fadd x NaN = NaN.
Proof. destruct x; reflexivity. Qed.

Lemma fsub_NaN_r x : fsub x NaN = NaN.
Proof. destruct x; reflexivity. Qed.

Lemma fdiv_NaN_r x : fdiv x NaN = NaN.
Proof. destruct x; reflexivity. Qed.

Lemma Forall_nth_error {A} (P : A -> Prop) (s : list A) i x :
  Forall P s -> nth_error s i = Some x -> P x.
Proof.
  intros H E. apply nth_error_In in E.
  rewrite Forall_forall in H. apply H, E.
Qed.

Lemma rolling_mean_nth_short w (s : Series) :
  s <> [] -> (length s < w)%nat ->
  nth_error (rolling_mean w s) (length s - 1) = Some NaN.
Proof.
  intros Hs Hlt. unfold rolling_mean. rewrite rolling_nth_last by assumption.
  f_equal. apply roll_mean_short.
  rewrite length_skipn, length_prep_values. lia.
Qed.

Lemma rolling_std_nth_short w (s : Series) :
  s <> [] -> (length s < w)%nat ->
  nth_error (rolling_std w s) (length s - 1) = Some NaN.
Proof.
  intros Hs Hlt. unfold rolling_std. rewrite rolling_nth_last by assumption.
  f_equal. apply roll_std_short.
  rewrite length_skipn, length_prep_values. lia.
Qed.

Lemma nth_error_last_exists {A} (s : list A) :
  s <> [] -> exists x, nth_error s (length s - 1) = Some x.
Proof.
  intros Hs. apply nonempty_length in Hs.
  destruct (nth_error s (length s - 1)) as [x |] eqn:E; [eauto |].
  apply nth_error_None in E. lia.
Qed.

Lemma prep_values_finite (s : Series) :
  Forall (fun x => is_finite x = true) s -> prep_values s = s.
Proof.
  induction 1 as [| x s Hx _ IH]; [reflexivity |].
  unfold prep_values in *. cbn [map]. rewrite IH.
  destruct x; try discriminate Hx; reflexivity.
Qed.

Lemma col_finite f (df : DataFrame) :
  Forall (fun x => is_finite x = true) (col f df).
Proof. unfold col. apply Forall_map, Forall_forall. reflexivity. Qed.

Lemma Qeq_bool_pos_false (d : Q) : 0 < d -> Qeq_bool d 0 = false.
Proof.
  intros H. destruct (Qeq_bool d 0) eqn:E; [| reflexivity].
  apply Qeq_bool_eq in E. rewrite E in H. exfalso. apply (Qlt_irrefl 0 H).
Qed.

(** The exponential mean of finite values is finite: the weight the
    running average carries stays positive, so the division is one of
    finite numbers by a positive one. *)

(** ** The gain and loss windows of the RSI *)

Lemma diff_from_no_inf (p : Q) (df : DataFrame) :
  Forall (fun x => is_inf x = false) (diff_from (Fin p) (col Close df)).
Proof.
  revert p. induction df as [| b df IH]; intros p; cbn; constructor;
    [reflexivity | apply IH].
Qed.

Lemma delta_no_inf (df : DataFrame) :
  Forall (fun x => is_inf x = false) (delta df).
Proof.
  unfold delta. destruct df as [| b df]; cbn; constructor;
    [reflexivity | apply diff_from_no_inf].
Qed.

Lemma Qltb_true (a b : Q) : Qltb a b = true -> a < b.
Proof.
  unfold Qltb. intros H. apply negb_true_iff in H.
  apply Qnot_le_lt. intros Hle. apply Qle_bool_iff in Hle. congruence.
Qed.

Lemma gain_input_nonneg (df : DataFrame) :
  Forall (fun x => is_nonneg x = true)
         (where_ (fun x => fgt x (Fin 0)) (Fin 0) (delta df)).
Proof.
  unfold where_. apply Forall_map.
  eapply Forall_impl; [| apply delta_no_inf].
  intros [a | | |] H; try discriminate H; cbn; [| reflexivity].
  destruct (Qltb 0 a) eqn:E; [| reflexivity].
  cbn. apply Qle_bool_iff, Qlt_le_weak, Qltb_true, E.
Qed.

Lemma loss_input_nonneg (df : DataFrame) :
  Forall (fun x => is_nonneg x = true)
         (map fneg (where_ (fun x => flt x (Fin 0)) (Fin 0) (delta df))).
Proof.
  unfold where_. rewrite map_map. apply Forall_map.
  eapply Forall_impl; [| apply delta_no_inf].
  intros [a | | |] H; try discriminate H; cbn; [| reflexivity].
  destruct (Qltb a 0) eqn:E; [| reflexivity].
  cbn. apply Qle_bool_iff. apply Qltb_true in E. lra.
Qed.

Lemma nonneg_finite (s : Series) :
  Forall (fun x => is_nonneg x = true) s ->
  Forall (fun x => is_finite x = true) s.
Proof.
  apply Forall_impl. intros [a | | |] H; try discriminate H. reflexivity.
Qed.

Lemma Forall_skipn_keep {A} (P : A -> Prop) (k : nat) (s : list A) :
  Forall P s -> Forall P (skipn k s).
Proof.
  revert s. induction k as [| k IH]; intros s H; [exact H |].
  destruct H as [| x s _ Hs]; [constructor | apply IH, Hs].
Qed.

(** A window of non-negative numbers has only observations, of
    non-negative sum. *)
Lemma observations_nonneg (win : Series) :
  Forall (fun x => is_nonneg x = true) win ->
  length (observations win) = length win /\ 0 <= Qsum (observations win).
Proof.
  induction 1 as [| x win Hx _ [IHl IHs]]; [split; [reflexivity | cbn; lra] |].
  destruct x as [a | | |]; try discriminate Hx.
  cbn in Hx. apply Qle_bool_iff in Hx.
  cbn [observations flat_map app length Qsum fold_right].
  change (flat_map _ win) with (observations win).
  change (fold_right Qplus 0 (observations win)) with (Qsum (observations win)).
  split; [f_equal; exact IHl | lra].
Qed.

Lemma Qlen_pos (l : list Q) : (0 < length l)%nat -> 0 < Qlen l.
Proof.
  intros H. unfold Qlen, Qlt. cbn. lia.
Qed.

Lemma roll_mean_nonneg minp (win : Series) :
  Forall (fun x => is_nonneg x = true) win ->
  (minp <= length win)%nat -> (0 < length win)%nat ->
  exists g, roll_mean minp win = Fin g /\ 0 <= g.
Proof.
  intros Hwin Hminp Hpos.
  destruct (observations_nonneg win Hwin) as [Hl Hs].
  unfold roll_mean. rewrite Hl.
  replace (minp <=? length win)%nat with true
    by (symmetry; apply Nat.leb_le; exact Hminp).
  replace (0 <? length win)%nat with true
    by (symmetry; apply Nat.ltb_lt; exact Hpos).
  cbn [andb]. eexists. split; [reflexivity |].
  rewrite Qred_correct. apply Qle_shift_div_l.
  - apply Qlen_pos. rewrite Hl. exact Hpos.
  - lra.
Qed.

Lemma roll_mean_Fin_length minp (win : Series) (l : Q) :
  roll_mean minp win = Fin l -> (minp <= length win)%nat /\ (0 < length win)%nat.
Proof.
  unfold roll_mean. pose proof (length_observations win) as Hle.
  destruct (Nat.leb_spec minp (length (observations win)));
    destruct (Nat.ltb_spec 0 (length (observations win)));
    cbn [andb]; intros E; try discriminate E. lia.
Qed.

(** [100 - 100 / (1 + g / l)] for [g >= 0] and [l > 0]. *)
Lemma rsi_formula_range (g l : Q) :
  0 <= g -> 0 < l ->
  exists v,
    fsub (Fin 100) (fdiv (Fin 100) (fadd (Fin 1) (fdiv (Fin g) (Fin l)))) = Fin v
    /\ 0 <= v /\ v <= 100.
Proof.
  intros Hg Hl.
  assert (Hr : 0 <= Qred (g / l)).
  { rewrite Qred_correct. apply Qle_shift_div_l; [exact Hl | lra]. }
  assert (Ht : 1 <= Qred (1 + Qred (g / l))) by (rewrite Qred_correct; lra).
  cbn [fdiv]. rewrite (Qeq_bool_pos_false l Hl). cbn [fadd fdiv].
  rewrite Qeq_bool_pos_false by lra.
  cbn [fsub fneg fadd]. eexists. split; [reflexivity |].
  set (t := Qred (1 + Qred (g / l))) in *.
  assert (Hu0 : 0 <= Qred (100 / t)).
  { rewrite Qred_correct. apply Qle_shift_div_l; lra. }
  assert (Hu1 : Qred (100 / t) <= 100).
  { rewrite Qred_correct. apply Qle_shift_div_r; lra. }
  rewrite Qred_correct. split; lra.
Qed.

(** ** Short history *)

Lemma rolling_col_short w agg f (df : DataFrame) :
  df <> [] -> (length df < w)%nat ->
  (forall win, (length win < w)%nat -> agg w win = NaN) ->
  nth_error (rolling w agg (col f df)) (length df - 1) = Some NaN.
Proof.
  intros Hdf Hlt Hagg.
  rewrite <- (length_col f df).
  rewrite rolling_nth_last by (apply col_nonempty, Hdf).
  f_equal. apply Hagg.
  rewrite length_skipn, length_prep_values, length_col. lia.
Qed.

Lemma rsi_short (df : DataFrame) :
  df <> [] -> (length df < 14)%nat -> last_or_0 (rsi df) = Returns NaN.
Proof.
  intros Hdf Hlt. apply last_or_0_nth. rewrite length_rsi.
  set (gi := where_ (fun x => fgt x (Fin 0)) (Fin 0) (delta df)).
  assert (Hgl : length gi = length df)
    by (unfold gi, where_; rewrite length_map; apply length_delta).
  assert (Eg : nth_error (gain df) (length df - 1) = Some NaN).
  { unfold gain. fold gi. rewrite <- Hgl.
    apply rolling_mean_nth_short;
      [apply (nonempty_of_length _ _ Hgl Hdf) | lia]. }
  destruct (nth_error_last_exists (loss df)) as (l & El);
    [apply (nonempty_of_length _ _ (length_loss df) Hdf) |].
  rewrite length_loss in El.
  unfold rsi. rewrite nth_error_map.
  unfold rs. rewrite (nth_error_zip_with fdiv _ _ _ _ _ Eg El). reflexivity.
Qed.

Lemma sma_20_short (df : DataFrame) :
  df <> [] -> (length df < 20)%nat -> last_or_0 (sma_20 df) = Returns NaN.
Proof.
  intros Hdf Hlt. apply last_or_0_nth. rewrite length_sma_20.
  apply rolling_col_short; auto using roll_mean_short.
Qed.

Lemma sma_50_short (df : DataFrame) :
  df <> [] -> (length df < 50)%nat -> last_or_0 (sma_50 df) = Returns NaN.
Proof.
  intros Hdf Hlt. apply last_or_0_nth. rewrite length_sma_50.
  apply rolling_col_short; auto using roll_mean_short.
Qed.

Lemma volume_ratio_short (df : DataFrame) :
  df <> [] -> (length df < 20)%nat -> volume_ratio df = Returns NaN.
Proof.
  intros Hdf Hlt.
  destruct (volume_ratio_returns df Hdf) as (v & a & _ & Ea & ->).
  unfold avg_volume, rolling_mean in Ea.
  rewrite rolling_col_short in Ea by auto using roll_mean_short.
  injection Ea as <-. rewrite fdiv_NaN_r. reflexivity.
Qed.

Lemma bb_position_short (df : DataFrame) :
  df <> [] -> (length df < 20)%nat -> bb_position df = Returns NaN.
Proof.
  intros Hdf Hlt.
  destruct (bb_position_returns df Hdf) as (c & l & u & _ & El & _ & ->).
  assert (Es : nth_error (sma df) (length df - 1) = Some NaN)
    by (apply rolling_col_short; auto using roll_mean_short).
  assert (Ed : nth_error (map (fun x => fmul x bb_std) (std df)) (length df - 1)
               = Some NaN).
  { rewrite nth_error_map. unfold std, rolling_std.
    rewrite rolling_col_short by auto using roll_std_short. reflexivity. }
  unfold bb_lower in El.
  rewrite (nth_error_zip_with fsub _ _ _ _ _ Es Ed) in El.
  injection El as <-. change (fsub NaN NaN) with NaN.
  rewrite !fsub_NaN_r. reflexivity.
Qed.
(** ** The claims about the indicator engine *)

Import Examples.

(** C1: the engine is claimed to return a record, and never to raise, on
    every series of at least one bar.  It raises [IndexError] on every
    series of 1 to 20 bars: [close.iloc[-6]] and [close.iloc[-21]] are
    read without the guard the other fields have. *)
Theorem C1_short_series_raises (df : DataFrame) :
  df <> [] -> (length df < 21)%nat ->
  calculate_technical_indicators (Some df) = Raises IndexError.
Proof. exact (calculate_short df). Qed.

Lemma C1_one_bar_raises :
  calculate_technical_indicators (Some one_bar) = Raises IndexError.
Proof.
  apply (C1_short_series_raises one_bar); [discriminate | simpl; lia].
Defined.

(** On a single bar both exponential means are the close itself. *)
Lemma one_bar_macd (df : DataFrame) :
  length df = 1%nat ->
  last_or_0 (macd df) = Returns (Fin 0) /\
  last_or_0 (signal df) = Returns (Fin 0).
Proof.
  destruct df as [| b [| b' rest]]; try discriminate. intros _.
  assert (Hm : macd [b] = [Fin 0]).
  { unfold macd, exp1, exp2, col, zip_with. cbn.
    f_equal. f_equal. apply (Qred_complete (Close b + - Close b) 0). ring. }
  unfold signal. rewrite Hm. split; reflexivity.
Qed.

(** C2, as stated, fails: on 25 bars the engine returns a record whose
    [sma_50], an indicator with a window of 50 bars, is [NaN] and not 0. *)
Lemma C2_sma_50_is_nan_not_zero :
  (length flat_25 < 50)%nat /\
  exists r,
    calculate_technical_indicators (Some flat_25) = Returns r /\
    lookup r "sma_50" = Some NaN /\
    lookup r "sma_50" <> Some (Fin 0).
Proof.
  split; [simpl; lia |].
  eexists. split; [vm_compute; reflexivity |].
  split; [reflexivity | discriminate].
Qed.

(** C2 (amended): on a series with fewer bars than the rolling window of
    an indicator, the value the engine computes for that indicator is the
    not-a-number sentinel [NaN], not 0: [rsi] (14 bars), [sma_20],
    [bb_position] and [volume_ratio] (20 bars), [sma_50] (50 bars), and a
    record returned for fewer than 50 bars has [sma_50 = NaN].  [macd] and
    [macd_signal] have no rolling window, the exponential means starting
    at the first bar: on a single bar both are 0. *)
Theorem C2_short_window_gives_nan (df : DataFrame) :
  df <> [] ->
  ((length df < 14)%nat -> last_or_0 (rsi df) = Returns NaN) /\
  ((length df < 20)%nat ->
     last_or_0 (sma_20 df) = Returns NaN /\
     bb_position df = Returns NaN /\
     volume_ratio df = Returns NaN) /\
  ((length df < 50)%nat ->
     last_or_0 (sma_50 df) = Returns NaN /\
     forall r, calculate_technical_indicators (Some df) = Returns r ->
               lookup r "sma_50" = Some NaN) /\
  (length df = 1%nat ->
     last_or_0 (macd df) = Returns (Fin 0) /\
     last_or_0 (signal df) = Returns (Fin 0)).
Proof.
  intros Hdf. repeat split.
  - intros H. apply rsi_short; assumption.
  - apply sma_20_short; assumption.
  - apply bb_position_short; assumption.
  - apply volume_ratio_short; assumption.
  - apply sma_50_short; assumption.
  - intros r Er.
    pose proof (calculate_returns_long df r Hdf Er) as Hlong.
    destruct (calculate_long df Hlong)
      as (vr & p5 & p20 & x1 & x2 & x3 & x4 & x5 & xb & pr & _ & _ & _ & _ & _
          & _ & _ & E50 & _ & _ & Ecalc).
    rewrite (sma_50_short df Hdf H) in E50. injection E50 as <-.
    rewrite Ecalc in Er. injection Er as <-. reflexivity.
  - apply one_bar_macd. assumption.
  - apply one_bar_macd. assumption.
Qed.

Lemma C2_five_bars_sma_20 : last_or_0 (sma_20 five_bars) = Returns NaN.
Proof.
  assert (H : five_bars <> []) by discriminate.
  assert (Hlt : (length five_bars < 20)%nat) by (simpl; lia).
  exact (proj1 (proj1 (proj2 (C2_short_window_gives_nan five_bars H)) Hlt)).
Defined.

(** C3, as stated, fails on two fields: for 25 bars of constant close 100
    and constant volume 1000 the engine returns [rsi = NaN] and
    [sma_50 = NaN], where the claim has 0. *)
Lemma C3_rsi_and_sma_50_are_nan :
  exists r,
    calculate_technical_indicators (Some flat_25) = Returns r /\
    lookup r "rsi" = Some NaN /\
    lookup r "sma_50" = Some NaN /\
    NaN <> Fin 0.
Proof.
  eexists. split; [vm_compute; reflexivity |].
  repeat split; try reflexivity. discriminate.
Qed.

(** C3 (amended): for 25 bars of constant close 100 and constant volume
    1000 the engine returns [rsi = NaN] (average gain and loss are both 0,
    and [0/0] propagates), [sma_20 = 100], [sma_50 = NaN] (fewer than 50
    bars), [volume_ratio = 1], [price_change_5d = 0],
    [price_change_20d = 0] and [current_price = 100]; [macd] and
    [macd_signal] are 0 and [bb_position], with a band of width 0, is
    [NaN]. *)
Theorem C3_flat_25_record :
  calculate_technical_indicators (Some flat_25)
  = Returns [ ("rsi", NaN); ("macd", Fin 0); ("macd_signal", Fin 0);
              ("sma_20", Fin 100); ("sma_50", NaN); ("bb_position", NaN);
              ("volume_ratio", Fin 1); ("price_change_5d", Fin 0);
              ("price_change_20d", Fin 0); ("current_price", Fin 100) ]%string.
Proof. vm_compute. reflexivity. Qed.

(** C4: a series of 14 to 20 bars fills the 14-period window of the
    RSI, and the engine returns no [rsi] for it: it raises [IndexError]
    where it reads [close.iloc[-6]] and [close.iloc[-21]], the defect of
    C1. *)
Theorem C4_window_populated_raises (df : DataFrame) :
  (14 <= length df < 21)%nat ->
  calculate_technical_indicators (Some df) = Raises IndexError.
Proof.
  intros [H14 H21]. apply calculate_short; [| exact H21].
  intros ->. cbn in H14. lia.
Qed.

(** Fifteen bars whose close falls seven times: the window is filled,
    the average loss is 3/2 and the RSI of the last bar is 50, but the
    engine raises. *)
Lemma C4_fifteen_bars_raise :
  (14 <= length zigzag_15 < 21)%nat /\
  last_or_0 (loss zigzag_15) = Returns (Fin (3 # 2)) /\
  last_or_0 (rsi zigzag_15) = Returns (Fin 50) /\
  calculate_technical_indicators (Some zigzag_15) = Raises IndexError.
Proof.
  assert (H : (14 <= length zigzag_15 < 21)%nat) by (cbn; lia).
  split; [exact H |]. split; [vm_compute; reflexivity |].
  split; [vm_compute; reflexivity |].
  exact (C4_window_populated_raises zigzag_15 H).
Defined.

(** ** The aggregator *)

Import Spec.

Lemma analyze_loop_acc (w : World) (symbols : list string) :
  forall results,
    analyze_loop w symbols results = results ++ records_of_successes w symbols.
Proof.
  induction symbols as [| s rest IH]; intros results; cbn.
  - rewrite app_nil_r. reflexivity.
  - destruct (analyze_stock w s) as [[r |] | e]; rewrite IH; cbn;
      [rewrite <- app_assoc |..]; reflexivity.
Qed.

Lemma analyze_multiple_stocks_spec (w : World) (symbols : list string) :
  analyze_multiple_stocks w symbols = records_of_successes w symbols.
Proof. unfold analyze_multiple_stocks. apply analyze_loop_acc. Qed.

Lemma fetch_failed_skipped indicators (w : World) (s : string) :
  fetch_failed w s -> analyze_stock_with indicators w s = Returns None.
Proof.
  unfold fetch_failed, analyze_stock_with.
  destruct (get_stock_data w s) as [[hist |] info]; cbn [fst].
  - intros ->. reflexivity.
  - reflexivity.
Qed.

(** What a record returned by [analyze_stock] was built from. *)
Lemma analyze_stock_returns (w : World) (s : string) (r : Analysis) :
  analyze_stock w s = Returns (Some r) ->
  exists hist info,
    ticker w s = Returns (hist, info) /\ hist <> [] /\
    calculate_technical_indicators (Some hist)
    = Returns (technical_indicators r) /\
    symbol r = s.
Proof.
  unfold analyze_stock, analyze_stock_with, get_stock_data.
  destruct (ticker w s) as [[hist info] | e]; cbv beta iota zeta;
    [| intros H; discriminate H].
  destruct hist as [| b hist]; cbn [empty]; cbv beta iota;
    [intros H; discriminate H |].
  destruct (calculate_technical_indicators _) as [t | e] eqn:Ec;
    cbn [bind]; [| intros H; discriminate H].
  intros [= <-]. exists (b :: hist), info.
  repeat split; try reflexivity; [discriminate | exact Ec].
Qed.

Lemma in_records_of_successes (w : World) (symbols : list string) (r : Analysis) :
  In r (records_of_successes w symbols) <->
  exists s, In s symbols /\ analyze_stock w s = Returns (Some r).
Proof.
  unfold records_of_successes. rewrite in_flat_map. split.
  - intros (s & Hs & Hr). exists s. split; [exact Hs |].
    destruct (analyze_stock w s) as [[r' |] | e]; cbn in Hr;
      try contradiction.
    destruct Hr as [-> | []]. reflexivity.
  - intros (s & Hs & E). exists s. split; [exact Hs |].
    rewrite E. left. reflexivity.
Qed.

Lemma symbols_of_successes (w : World) (symbols : list string) :
  map symbol (records_of_successes w symbols) = filter (succeeded w) symbols.
Proof.
  induction symbols as [| s rest IH]; [reflexivity |].
  cbn [records_of_successes flat_map filter]. unfold succeeded at 1.
  fold (records_of_successes w rest).
  destruct (analyze_stock w s) as [[r |] | e] eqn:E; cbn; rewrite IH;
    try reflexivity.
  destruct (analyze_stock_returns w s r E) as (_ & _ & _ & _ & _ & ->).
  reflexivity.
Qed.

(** C5: the aggregator returns the records of the symbols whose analysis
    succeeded, in the order of the symbols, a failure dropping its symbol
    only: the symbols of the records are the symbols that succeeded; for
    [a; b; c] where [a] and [c] have records and the fetch of [b] fails
    the result is the record of [a] then that of [c]; and the result is
    empty only if no symbol succeeded. *)
Theorem C5_successes_in_input_order (w : World) (symbols : list string) :
  analyze_multiple_stocks w symbols = records_of_successes w symbols /\
  map symbol (analyze_multiple_stocks w symbols) = filter (succeeded w) symbols /\
  (forall a b c ra rc,
      analyze_stock w a = Returns (Some ra) ->
      fetch_failed w b ->
      analyze_stock w c = Returns (Some rc) ->
      analyze_multiple_stocks w [a; b; c] = [ra; rc]) /\
  (analyze_multiple_stocks w symbols = [] ->
   forall s, In s symbols -> succeeded w s = false).
Proof.
  repeat split.
  - apply analyze_multiple_stocks_spec.
  - rewrite analyze_multiple_stocks_spec. apply symbols_of_successes.
  - intros a b c ra rc Ea Hb Ec.
    unfold analyze_multiple_stocks. cbn [analyze_loop].
    rewrite Ea. unfold analyze_stock at 1.
    rewrite (fetch_failed_skipped _ w b Hb), Ec. reflexivity.
  - intros E s Hs. rewrite analyze_multiple_stocks_spec in E.
    unfold succeeded.
    destruct (analyze_stock w s) as [[r |] | e] eqn:Es; try reflexivity.
    assert (Hin : In r (records_of_successes w symbols))
      by (apply in_records_of_successes; eauto).
    rewrite E in Hin. destruct Hin.
Qed.

Lemma C5_market_drops_failed_fetch :
  analyze_multiple_stocks market ["AAA.L"; "BBB.L"; "CCC.L"]%string
  = [alpha_record; gamma_record].
Proof.
  apply (proj1 (proj2 (proj2 (C5_successes_in_input_order market [])))).
  - vm_compute. reflexivity.
  - exact I.
  - vm_compute. reflexivity.
Defined.

(** C8: every record the aggregator returns carries a non-empty indicator
    record, the ten indicators, and belongs to a symbol whose fetch did
    not fail: a symbol with an empty or missing history has no record. *)
Theorem C8_records_have_indicators (w : World) (symbols : list string)
        (r : Analysis) :
  In r (analyze_multiple_stocks w symbols) ->
  technical_indicators r <> [] /\
  map fst (technical_indicators r) = indicator_names /\
  In (symbol r) symbols /\
  ~ fetch_failed w (symbol r).
Proof.
  rewrite analyze_multiple_stocks_spec, in_records_of_successes.
  intros (s & Hs & E).
  destruct (analyze_stock_returns w s r E) as (hist & info & Et & Hh & Ec & Hsym).
  pose proof (calculate_returns_long hist _ Hh Ec) as Hlong.
  destruct (calculate_long hist Hlong)
    as (vr & p5 & p20 & x1 & x2 & x3 & x4 & x5 & xb & pr & _ & _ & _ & _ & _
        & _ & _ & _ & _ & _ & Ecalc).
  rewrite Ecalc in Ec. injection Ec as Ec. rewrite <- Ec, Hsym.
  repeat split; try reflexivity; try discriminate; try exact Hs.
  unfold fetch_failed, get_stock_data. rewrite Et. exact Hh.
Qed.

Lemma C8_market_record :
  technical_indicators alpha_record <> [] /\
  map fst (technical_indicators alpha_record) = indicator_names /\
  In (symbol alpha_record) ["DDD.L"; "AAA.L"]%string /\
  ~ fetch_failed market (symbol alpha_record).
Proof.
  apply (C8_records_have_indicators market ["DDD.L"; "AAA.L"]%string).
  vm_compute. left. reflexivity.
Defined.

(** C10: for [None] and for a frame with no row the engine returns the
    empty mapping, and [analyze_stock] returns [None] for a symbol whose
    history is missing or empty, whatever the indicator computation
    would do. *)
Theorem C10_no_data_is_skipped :
  calculate_technical_indicators None = Returns [] /\
  calculate_technical_indicators (Some []) = Returns [] /\
  (forall indicators w s,
      fetch_failed w s -> analyze_stock_with indicators w s = Returns None) /\
  (forall w s, fetch_failed w s -> analyze_stock w s = Returns None).
Proof.
  repeat split.
  - intros indicators w s. apply fetch_failed_skipped.
  - intros w s. apply fetch_failed_skipped.
Qed.

Lemma C10_market_empty_history :
  analyze_stock_with (fun _ => Raises OtherError) market "DDD.L" = Returns None.
Proof.
  apply (proj1 (proj2 (proj2 C10_no_data_is_skipped))).
  reflexivity.
Defined.
(** ** The validator *)

Import GroqStockAnalyzer.

Lemma float_raises (v : json) (e : exn) :
  float_ v = Raises e ->
  e = ValueError \/ e = TypeError \/ e = OverflowError.
Proof.
  destruct v as [| b | x | s | l | kv]; cbn [float_]; try discriminate;
    try (intros [= <-]; right; left; reflexivity).
  - destruct x as [q | | |]; try discriminate.
    destruct (is_whole q); [| discriminate].
    destruct (to_double q); try discriminate;
      intros [= <-]; right; right; reflexivity.
  - destruct (parse_float s); [discriminate |].
    intros [= <-]. left. reflexivity.
Qed.

Lemma validate_pick_raises (pick : Pick) (e : exn) :
  validate_pick pick = Raises e ->
  e = ValueError \/ e = TypeError \/ e = OverflowError.
Proof.
  unfold validate_pick.
  destruct (float_ (get pick "target_price" (JNum (Fin 0)))) as [t | e1] eqn:Et;
    cbn [bind].
  - destruct (float_ (get pick "confidence_score" (JNum (Fin 0))))
      as [c | e2] eqn:Ec; cbn [bind]; [discriminate |].
    intros [= <-]. apply (float_raises _ _ Ec).
  - intros [= <-]. apply (float_raises _ _ Et).
Qed.


(** What the loop does with a pick: it collects it, skips it, or
    leaves the function. *)
Lemma validate_pick_cases (pick : Pick) :
  (exists v, validate_pick pick = Returns v /\
             skipped pick = false /\ overflows pick = false) \/
  (exists e, validate_pick pick = Raises e /\ (e = ValueError \/ e = TypeError) /\
             skipped pick = true /\ overflows pick = false) \/
  (validate_pick pick = Raises OverflowError /\
   skipped pick = false /\ overflows pick = true).
Proof.
  unfold skipped, overflows.
  destruct (validate_pick pick) as [v | e] eqn:E.
  - left. exists v. repeat split.
  - destruct (validate_pick_raises pick e E) as [-> | [-> | ->]].
    + right. left. exists ValueError. repeat split. left. reflexivity.
    + right. left. exists TypeError. repeat split. right. reflexivity.
    + right. right. repeat split.
Qed.


(** The loop appends, in order, the validated form of each pick that has
    one, as long as no pick overflows. *)
Lemma validate_loop_acc (picks : list Pick) :
  (forall p, In p picks -> overflows p = false) ->
  forall acc,
    validate_loop (map JObj picks) acc
    = Returns (acc ++ flat_map (fun p => match validate_pick p with
                                         | Returns v => [v]
                                         | Raises _ => []
                                         end) picks).
Proof.
  induction picks as [| p rest IH]; intros Hno acc;
    cbn [map validate_loop flat_map].
  - rewrite app_nil_r. reflexivity.
  - assert (Hrest : forall q, In q rest -> overflows q = false)
      by (intros q Hq; apply Hno; right; exact Hq).
    destruct (validate_pick_cases p)
      as [(v & E & _) | [(e & E & He & _) | (E & _ & Ho)]].
    + rewrite E, (IH Hrest), <- app_assoc. reflexivity.
    + rewrite E. destruct He as [-> | ->]; apply (IH Hrest).
    + rewrite (Hno p (or_introl eq_refl)) in Ho. discriminate Ho.
Qed.


Lemma validated_picks_of_loop (picks : list Pick) :
  validated_picks_of picks = validate_loop (map JObj (firstn 10 picks)) [].
Proof.
  unfold validated_picks_of, collect, first_ten. cbn [bind].
  rewrite firstn_map. reflexivity.
Qed.

Lemma validated_picks_of_kept (picks : list Pick) :
  (forall p, In p (firstn 10 picks) -> overflows p = false) ->
  validated_picks_of picks = Returns (kept_picks picks).
Proof.
  intros Hno. rewrite validated_picks_of_loop. unfold kept_picks.
  rewrite (validate_loop_acc _ Hno). reflexivity.
Qed.







(** The validator on a dict that has [top_10_picks]: the exception of
    the loop, or the [NameError] of the return statement. *)
Lemma validate_recommendations_with_picks (kv : dict json) (top : json) :
  lookup kv "top_10_picks" = Some top ->
  validate_recommendations (Some (JObj kv))
  = match collect top with
    | Returns _ => Raises NameError
    | Raises e => Raises e
    end.
Proof.
  intros E. unfold validate_recommendations, validate_recommendations_in.
  assert (Ht : truthy (JObj kv) = true) by (destruct kv; [discriminate | reflexivity]).
  rewrite Ht. cbn [negb py_in bind]. rewrite E. cbn [negb subscript_key bind].
  rewrite E. cbn [bind].
  destruct (collect top) as [vs | e]; reflexivity.
Qed.

Lemma validate_recommendations_raises (kv : dict json) (top : json) :
  lookup kv "top_10_picks" = Some top ->
  exists e, validate_recommendations (Some (JObj kv)) = Raises e.
Proof.
  intros E. rewrite (validate_recommendations_with_picks kv top E).
  destruct (collect top) as [vs | e]; eauto.
Qed.

Lemma validate_recommendations_without_picks (kv : dict json) :
  lookup kv "top_10_picks" = None ->
  validate_recommendations (Some (JObj kv)) = Returns None.
Proof.
  intros E. unfold validate_recommendations, validate_recommendations_in.
  destruct (truthy (JObj kv)); cbn [negb]; [| reflexivity].
  cbn [py_in bind]. rewrite E. reflexivity.
Qed.









(** C9, as stated, fails: a candidate whose [top_10_picks] is [null]
    makes the validator raise [TypeError] where it takes the first ten,
    one whose first pick is no dict [AttributeError], and one whose first
    pick has the target price [10^400] [OverflowError]: the return
    statement and its [NameError] are not reached. *)
Lemma C9_other_exceptions :
  lookup [("top_10_picks"%string, JNull)] "top_10_picks" = Some JNull /\
  validate_recommendations (Some (JObj [("top_10_picks"%string, JNull)]))
  = Raises TypeError /\
  validate_recommendations
    (Some (JObj [("top_10_picks"%string, JArr [JStr "AAA.L"])]))
  = Raises AttributeError /\
  validate_recommendations (Some (candidate_of [huge_pick 1]))
  = Raises OverflowError.
Proof.
  split; [reflexivity |]. split; [reflexivity |]. split; [reflexivity |].
  vm_compute. reflexivity.
Qed.

(** C9 (amended): for every candidate dict that has a [top_10_picks]
    field, [validate_recommendations] raises and so never returns a
    validated set.  When the loop over the first ten picks ends, the
    exception is the [NameError] of the return statement, [stock_data]
    being no name of its scope: so it is for every list of pick objects
    none of whose first ten carries a whole number past the largest
    float.  Otherwise the exception is the one that ended the loop. *)
Theorem C9_validator_never_returns (kv : dict json) (top : json) :
  lookup kv "top_10_picks" = Some top ->
  load_global module_globals "stock_data" = Raises NameError /\
  (exists e, validate_recommendations (Some (JObj kv)) = Raises e) /\
  (forall result, validate_recommendations (Some (JObj kv)) <> Returns result) /\
  validate_recommendations (Some (JObj kv))
  = match collect top with
    | Returns _ => Raises NameError
    | Raises e => Raises e
    end /\
  (forall picks,
      top = JArr (map JObj picks) ->
      (forall p, In p (firstn 10 picks) -> overflows p = false) ->
      validate_recommendations (Some (JObj kv)) = Raises NameError).
Proof.
  intros E. split; [reflexivity |].
  pose proof (validate_recommendations_with_picks kv top E) as Hv.
  split; [apply (validate_recommendations_raises kv top E) |].
  split.
  - intros result. destruct (validate_recommendations_raises kv top E)
      as (e & ->). discriminate.
  - split; [exact Hv |].
    intros picks -> Hno. rewrite Hv.
    change (collect (JArr (map JObj picks))) with (validated_picks_of picks).
    rewrite (validated_picks_of_kept picks Hno). reflexivity.
Qed.

Lemma C9_fifteen_picks_raise :
  validate_recommendations (Some (candidate_of fifteen_picks))
  = Raises NameError.
Proof.
  apply (proj2 (proj2 (proj2 (proj2
           (C9_validator_never_returns
              [ ("top_10_picks"%string, JArr (map JObj fifteen_picks));
                ("market_overview"%string, JStr "steady") ]
              (JArr (map JObj fifteen_picks)) eq_refl))))
           fifteen_picks eq_refl).
  intros p Hp. cbn in Hp.
  repeat (destruct Hp as [<- | Hp]; [reflexivity |]). destruct Hp.
Defined.

(** ** Sample runs *)

Example float_of_decimal_string :
  float_ (JStr "150.50") = Returns (Fin (301 # 2)).
Proof. reflexivity. Qed.

Example float_of_padded_string :
  float_ (JStr " -1_0.5e1 ") = Returns (Fin (-105)).
Proof. reflexivity. Qed.

(** A decimal text gives the nearest binary64 number. *)
Example float_of_a_tenth :
  float_ (JStr "0.1") = Returns (Fin (3602879701896397 # 36028797018963968)).
Proof. vm_compute. reflexivity. Qed.

Example float_of_fullwidth_digits :
  float_ (JStr "１２.５") = Returns (Fin (25 # 2)).
Proof. vm_compute. reflexivity. Qed.

Example float_of_large_exponent : float_ (JStr "1e400") = Returns PInf.
Proof. reflexivity. Qed.

Example float_of_large_int :
  float_ (JNum (Fin (inject_Z (10 ^ 400)))) = Raises OverflowError.
Proof. vm_compute. reflexivity. Qed.

Example float_of_odd_int :
  float_ (JNum (Fin (inject_Z (2 ^ 53 + 1)))) = Returns (Fin (inject_Z (2 ^ 53))).
Proof. vm_compute. reflexivity. Qed.

Example float_of_not_available : float_ (JStr "N/A") = Raises ValueError.
Proof. reflexivity. Qed.

Example float_of_null : float_ JNull = Raises TypeError.
Proof. reflexivity. Qed.

Example zigzag_rsi_is_50 : lookup zigzag_record "rsi" = Some (Fin 50).
Proof. vm_compute. reflexivity. Qed.

Example five_bars_raise :
  calculate_technical_indicators (Some five_bars) = Raises IndexError.
Proof. vm_compute. reflexivity. Qed.

(** A week of bars makes the engine raise: the symbol is dropped like the
    one whose request failed and the one with no row. *)
Example market_run :
  analyze_multiple_stocks market ["DDD.L"; "AAA.L"; "EEE.L"; "BBB.L"; "CCC.L"]%string
  = [alpha_record; gamma_record].
Proof. vm_compute. reflexivity. Qed.

Example candidate_without_picks :
  validate_recommendations (Some without_picks) = Returns None.
Proof. reflexivity. Qed.

Example no_candidate : validate_recommendations None = Returns None.
Proof. reflexivity. Qed.

(** With [stock_data] bound in the module the return statement is
    reached, and the ten collected picks come back in the order of the
    candidate. *)
Example validate_with_stock_data_bound :
  match validate_recommendations_in
          (("stock_data"%string,
            PyData (JArr [JObj [("analysis_date"%string, JStr "2024-01-02")]]))
             :: module_globals)
          (Some (candidate_of fifteen_picks)) with
  | Returns (Some r) =>
      map rank (top_10_picks r)
      = map (fun n => JNum (Fin (inject_Z n))) [15; 14; 13; 12; 11; 10; 9; 8; 7; 6]%Z
      /\ analysis_timestamp r = JStr "2024-01-02"
  | _ => False
  end.
Proof. vm_compute. split; reflexivity. Qed.

(* ------------------------------------------------------------------ *)
(** * Further properties of the code *)

(** ** The indicator engine on long series *)

Lemma observations_col f (df : DataFrame) (k : nat) :
  observations (skipn k (prep_values (col f df))) = map f (skipn k df).
Proof.
  rewrite (prep_values_finite _ (col_finite f df)).
  unfold col. rewrite skipn_map.
  induction (skipn k df) as [| b l IH]; [reflexivity |].
  cbn. f_equal. exact IH.
Qed.

Lemma Qlen_cons (x : Q) (l : list Q) : Qlen (x :: l) == Qlen l + 1.
Proof.
  unfold Qlen. cbn [length]. rewrite Nat2Z.inj_succ, <- Z.add_1_r.
  rewrite inject_Z_plus. reflexivity.
Qed.

Lemma Qsum_const (c : Q) (l : list Q) :
  Forall (fun q => q == c) l -> Qsum l == c * Qlen l.
Proof.
  induction 1 as [| x l Hx _ IH].
  - unfold Qsum, Qlen. cbn. ring.
  - rewrite Qlen_cons. unfold Qsum in *. cbn [fold_right].
    rewrite IH, Hx. ring.
Qed.

(** The last rolling mean of a column over [w] bars, when there are [w]
    bars: the mean of the last [w] values. *)
Lemma rolling_mean_col_last (w : nat) f (df : DataFrame) :
  (0 < w)%nat -> (w <= length df)%nat ->
  nth_error (rolling_mean w (col f df)) (length df - 1)
  = Some (Fin (Qred (Qsum (map f (skipn (length df - w) df))
                     / Qlen (map f (skipn (length df - w) df))))).
Proof.
  intros Hw Hle.
  assert (Hdf : df <> []) by (apply nonempty_length; lia).
  unfold rolling_mean. rewrite <- (length_col f df).
  rewrite rolling_nth_last by (apply col_nonempty, Hdf).
  rewrite length_col. unfold roll_mean. rewrite observations_col.
  rewrite length_map, length_skipn.
  replace (w <=? length df - (length df - w))%nat with true
    by (symmetry; apply Nat.leb_le; lia).
  replace (0 <? length df - (length df - w))%nat with true
    by (symmetry; apply Nat.ltb_lt; lia).
  reflexivity.
Qed.

Lemma Qlen_map_skipn f (df : DataFrame) (w : nat) :
  (0 < w)%nat -> (w <= length df)%nat ->
  0 < Qlen (map f (skipn (length df - w) df)).
Proof.
  intros Hw Hle. apply Qlen_pos. rewrite length_map, length_skipn. lia.
Qed.

Lemma mean_const (c : Q) (l : list Q) :
  0 < Qlen l -> Forall (fun q => q == c) l -> Qsum l / Qlen l == c.
Proof.
  intros Hpos Hall. rewrite (Qsum_const c l Hall). field.
  intros E. rewrite E in Hpos. apply (Qlt_irrefl 0 Hpos).
Qed.

Lemma Forall_map_Close (c : Q) (l : list Bar) :
  Forall (fun b => Close b == c) l -> Forall (fun q => q == c) (map Close l).
Proof. intros H. apply Forall_map. exact H. Qed.

(** The record of a frame of 21 rows or more, field by field. *)
Lemma record_fields (df : DataFrame) (r : Indicators) :
  df <> [] ->
  calculate_technical_indicators (Some df) = Returns r ->
  (21 <= length df)%nat /\
  map fst r = indicator_names /\
  (exists v, last_or_0 (rsi df) = Returns v /\ lookup r "rsi" = Some v) /\
  (exists v, last_or_0 (macd df) = Returns v /\ lookup r "macd" = Some v) /\
  (exists v, last_or_0 (signal df) = Returns v /\
             lookup r "macd_signal" = Some v) /\
  (exists v, last_or_0 (sma_20 df) = Returns v /\ lookup r "sma_20" = Some v) /\
  (exists v, last_or_0 (sma_50 df) = Returns v /\ lookup r "sma_50" = Some v) /\
  (exists v, bb_position df = Returns v /\ lookup r "bb_position" = Some v) /\
  (exists v, volume_ratio df = Returns v /\ lookup r "volume_ratio" = Some v) /\
  (exists v, price_change 5 df = Returns v /\
             lookup r "price_change_5d" = Some v) /\
  (exists v, price_change 20 df = Returns v /\
             lookup r "price_change_20d" = Some v) /\
  (exists v, nth_error (col Close df) (length df - 1) = Some v /\
             lookup r "current_price" = Some v).
Proof.
  intros Hdf Er.
  pose proof (calculate_returns_long df r Hdf Er) as Hlong.
  destruct (calculate_long df Hlong)
    as (vr & p5 & p20 & x1 & x2 & x3 & x4 & x5 & xb & pr & E1 & E2 & E3 & E4
        & E5 & E6 & E7 & E8 & E9 & E10 & Ecalc).
  rewrite Ecalc in Er. injection Er as <-.
  split; [exact Hlong |]. split; [reflexivity |].
  repeat split; eexists; (split; [eassumption | reflexivity]).
Qed.

Lemma nth_error_col f (df : DataFrame) (i : nat) :
  nth_error (col f df) i = option_map (fun b => Fin (f b)) (nth_error df i).
Proof. unfold col. apply nth_error_map. Qed.

(** X1: the engine returns a record exactly on the frames with no row
    and on those of 21 rows or more; on the latter the record holds the
    ten indicators, [current_price] being the close of the last bar. *)
Theorem engine_returns_exactly (df : DataFrame) :
  ((exists r, calculate_technical_indicators (Some df) = Returns r) <->
   df = [] \/ (21 <= length df)%nat) /\
  (forall r b,
      calculate_technical_indicators (Some df) = Returns r ->
      nth_error df (length df - 1) = Some b ->
      map fst r = indicator_names /\
      lookup r "current_price" = Some (Fin (Close b))).
Proof.
  split.
  - split.
    + intros (r & Er). destruct df as [| b df]; [left; reflexivity |].
      right. apply (calculate_returns_long _ r); [discriminate | exact Er].
    + intros [-> | Hlong]; [exists []; reflexivity |].
      destruct (calculate_long df Hlong)
        as (vr & p5 & p20 & x1 & x2 & x3 & x4 & x5 & xb & pr & _ & _ & _ & _
            & _ & _ & _ & _ & _ & _ & Ecalc).
      eexists. exact Ecalc.
  - intros r b Er Eb.
    assert (Hdf : df <> []) by (intros ->; discriminate Eb).
    destruct (record_fields df r Hdf Er)
      as (_ & Hnames & _ & _ & _ & _ & _ & _ & _ & _ & _ & (v & Ev & Hv)).
    split; [exact Hnames |].
    rewrite nth_error_col, Eb in Ev. injection Ev as <-. exact Hv.
Qed.

Lemma engine_returns_on_zigzag :
  map fst zigzag_record = indicator_names /\
  lookup zigzag_record "current_price" = Some (Fin 100).
Proof.
  apply (proj2 (engine_returns_exactly zigzag_21) zigzag_record
               (bar 100 1000)).
  - vm_compute. reflexivity.
  - reflexivity.
Defined.

(** ** The range of the RSI *)

Lemma roll_mean_nonneg_cases minp (win : Series) :
  Forall (fun x => is_nonneg x = true) win ->
  roll_mean minp win = NaN \/ exists g, roll_mean minp win = Fin g /\ 0 <= g.
Proof.
  intros Hwin. unfold roll_mean.
  destruct (observations_nonneg win Hwin) as [Hl Hs].
  destruct ((minp <=? length (observations win))%nat
            && (0 <? length (observations win))%nat) eqn:E;
    [| left; reflexivity].
  right. eexists. split; [reflexivity |].
  apply andb_true_iff in E. destruct E as [_ E]. apply Nat.ltb_lt in E.
  rewrite Qred_correct. apply Qle_shift_div_l; [apply Qlen_pos, E | lra].
Qed.

Lemma rolling_mean_nonneg_last w (s : Series) :
  s <> [] -> Forall (fun x => is_nonneg x = true) s ->
  exists m,
    nth_error (rolling_mean w s) (length s - 1) = Some m /\
    (m = NaN \/ exists g, m = Fin g /\ 0 <= g).
Proof.
  intros Hs Hall. unfold rolling_mean. rewrite rolling_nth_last by exact Hs.
  eexists. split; [reflexivity |].
  apply roll_mean_nonneg_cases.
  rewrite (prep_values_finite s) by (apply nonneg_finite, Hall).
  apply Forall_skipn_keep, Hall.
Qed.

(** [100 - 100 / (1 + g / l)] for two numbers that are not negative:
    not a number when both are 0, 100 when only the loss is 0. *)
Lemma rsi_formula_cases (g l : Q) :
  0 <= g -> 0 <= l ->
  let v := fsub (Fin 100) (fdiv (Fin 100) (fadd (Fin 1) (fdiv (Fin g) (Fin l)))) in
  (l == 0 -> g == 0 -> v = NaN) /\
  (l == 0 -> 0 < g -> v = Fin 100) /\
  (v = NaN \/ exists q, v = Fin q /\ 0 <= q /\ q <= 100).
Proof.
  intros Hg Hl v.
  assert (Hzero_zero : l == 0 -> g == 0 -> v = NaN).
  { intros El Eg. unfold v. cbn [fdiv].
    rewrite (Qeq_eq_bool _ _ El), (Qeq_eq_bool _ _ Eg). reflexivity. }
  assert (Hzero_pos : l == 0 -> 0 < g -> v = Fin 100).
  { intros El Hpos. unfold v. cbn [fdiv].
    rewrite (Qeq_eq_bool _ _ El), (Qeq_bool_pos_false g Hpos).
    replace (Qltb 0 g) with true; [reflexivity |].
    symmetry. unfold Qltb. apply negb_true_iff.
    destruct (Qle_bool g 0) eqn:E; [| reflexivity].
    apply Qle_bool_iff in E. lra. }
  split; [exact Hzero_zero |]. split; [exact Hzero_pos |].
  destruct (Qlt_le_dec 0 l) as [Hpos | Hle].
  - right. destruct (rsi_formula_range g l Hg Hpos) as (q & Eq & H0 & H1).
    exists q. repeat split; assumption.
  - assert (El : l == 0) by lra.
    destruct (Qlt_le_dec 0 g) as [Hgpos | Hgle].
    + right. exists 100. rewrite (Hzero_pos El Hgpos).
      repeat split; lra.
    + left. apply Hzero_zero; [exact El | lra].
Qed.

(** The last average gain and the last average loss. *)
Lemma gain_loss_last (df : DataFrame) :
  df <> [] ->
  exists g l,
    nth_error (gain df) (length df - 1) = Some g /\
    nth_error (loss df) (length df - 1) = Some l /\
    (g = NaN \/ exists q, g = Fin q /\ 0 <= q) /\
    (l = NaN \/ exists q, l = Fin q /\ 0 <= q).
Proof.
  intros Hdf.
  set (gi := where_ (fun x => fgt x (Fin 0)) (Fin 0) (delta df)).
  set (li := map fneg (where_ (fun x => flt x (Fin 0)) (Fin 0) (delta df))).
  assert (Hgl : length gi = length df)
    by (unfold gi, where_; rewrite length_map; apply length_delta).
  assert (Hll : length li = length df)
    by (unfold li, where_; rewrite !length_map; apply length_delta).
  destruct (rolling_mean_nonneg_last 14 gi
              (nonempty_of_length _ _ Hgl Hdf) (gain_input_nonneg df))
    as (g & Eg & Hg).
  destruct (rolling_mean_nonneg_last 14 li
              (nonempty_of_length _ _ Hll Hdf) (loss_input_nonneg df))
    as (l & El & Hl).
  rewrite Hgl in Eg. rewrite Hll in El.
  exists g, l. repeat split; assumption.
Qed.

Lemma rsi_last_of (df : DataFrame) (g l : fval) :
  nth_error (gain df) (length df - 1) = Some g ->
  nth_error (loss df) (length df - 1) = Some l ->
  last_or_0 (rsi df)
  = Returns (fsub (Fin 100) (fdiv (Fin 100) (fadd (Fin 1) (fdiv g l)))).
Proof.
  intros Eg El. apply last_or_0_nth. rewrite length_rsi.
  unfold rsi. rewrite nth_error_map.
  unfold rs. rewrite (nth_error_zip_with fdiv _ _ _ _ _ Eg El). reflexivity.
Qed.

Lemma rsi_last_cases (df : DataFrame) :
  df <> [] ->
  exists v, last_or_0 (rsi df) = Returns v /\
            (v = NaN \/ exists q, v = Fin q /\ 0 <= q /\ q <= 100).
Proof.
  intros Hdf.
  destruct (gain_loss_last df Hdf) as (g & l & Eg & El & Hg & Hl).
  rewrite (rsi_last_of df g l Eg El). eexists. split; [reflexivity |].
  destruct Hg as [-> | (qg & -> & Hqg)]; [left; reflexivity |].
  destruct Hl as [-> | (ql & -> & Hql)]; [left; reflexivity |].
  apply (rsi_formula_cases qg ql Hqg Hql).
Qed.

(** X2: the [rsi] of a record on a series with a bar is not a number, or
    a number between 0 and 100: it is never infinite, never negative,
    never above 100, whatever the closes. *)
Theorem rsi_is_nan_or_within_0_100 (df : DataFrame) (r : Indicators) :
  df <> [] ->
  calculate_technical_indicators (Some df) = Returns r ->
  exists v, lookup r "rsi" = Some v /\
            (v = NaN \/ exists q, v = Fin q /\ 0 <= q /\ q <= 100).
Proof.
  intros Hdf Er.
  destruct (record_fields df r Hdf Er) as (_ & _ & (v & Ev & Hv) & _).
  destruct (rsi_last_cases df Hdf) as (v' & Ev' & Hrange).
  rewrite Ev in Ev'. injection Ev' as <-.
  exists v. split; assumption.
Qed.

Lemma rsi_of_zigzag_within_0_100 :
  exists v, lookup zigzag_record "rsi" = Some v /\
            (v = NaN \/ exists q, v = Fin q /\ 0 <= q /\ q <= 100).
Proof.
  apply (rsi_is_nan_or_within_0_100 zigzag_21 zigzag_record).
  - discriminate.
  - vm_compute. reflexivity.
Defined.

(** ** Series that only rise, only fall, or stay flat *)

Lemma diff_from_nth (s : Series) :
  forall p i x y,
    nth_error (p :: s) i = Some y -> nth_error (p :: s) (S i) = Some x ->
    nth_error (diff_from p s) i = Some (fsub x y).
Proof.
  induction s as [| a s IH]; intros p i x y Hy Hx.
  - destruct i; discriminate Hx.
  - destruct i as [| i].
    + cbn in Hy, Hx |- *. congruence.
    + cbn [diff_from nth_error]. apply IH; assumption.
Qed.

(** Past the first bar, [delta] is the close minus the close before. *)
Lemma delta_nth (df : DataFrame) (i : nat) (a b : Bar) :
  nth_error df i = Some a -> nth_error df (S i) = Some b ->
  nth_error (delta df) (S i) = Some (Fin (Qred (Close b + - Close a))).
Proof.
  intros Ea Eb. unfold delta.
  assert (Ha : nth_error (col Close df) i = Some (Fin (Close a)))
    by (rewrite nth_error_col, Ea; reflexivity).
  assert (Hb : nth_error (col Close df) (S i) = Some (Fin (Close b)))
    by (rewrite nth_error_col, Eb; reflexivity).
  destruct (col Close df) as [| x0 t]; [destruct i; discriminate Ha |].
  cbn [diff nth_error].
  rewrite (diff_from_nth t x0 i _ _ Ha Hb). reflexivity.
Qed.

Lemma Forall_of_nth_error {A} (P : A -> Prop) (l : list A) :
  (forall i x, nth_error l i = Some x -> P x) -> Forall P l.
Proof.
  intros H. apply Forall_forall. intros x Hx.
  destruct (In_nth_error _ _ Hx) as (i & Ei). apply (H i x Ei).
Qed.

(** Every entry of [delta] is the first one, which is no number, or the
    difference of two consecutive closes. *)
Lemma delta_entries (df : DataFrame) (P : fval -> Prop) :
  P NaN ->
  (forall i a b, nth_error df i = Some a -> nth_error df (S i) = Some b ->
                 P (Fin (Qred (Close b + - Close a)))) ->
  Forall P (delta df).
Proof.
  intros Hnan Hstep. apply Forall_of_nth_error. intros i x Ex.
  assert (Hi : (i < length df)%nat).
  { rewrite <- length_delta. apply nth_error_Some. congruence. }
  destruct i as [| i].
  - unfold delta in Ex. destruct (col Close df); [discriminate Ex |].
    cbn in Ex. injection Ex as <-. exact Hnan.
  - destruct (nth_error df i) as [a |] eqn:Ea;
      [| apply nth_error_None in Ea; lia].
    destruct (nth_error df (S i)) as [b |] eqn:Eb;
      [| apply nth_error_None in Eb; lia].
    rewrite (delta_nth df i a b Ea Eb) in Ex. injection Ex as <-.
    apply (Hstep i a b Ea Eb).
Qed.

Lemma Qltb_false (a b : Q) : b <= a -> Qltb a b = false.
Proof.
  intros H. unfold Qltb. apply negb_false_iff, Qle_bool_iff, H.
Qed.


(** A window of zeros has the mean 0. *)
Lemma Qsum_zero (l : list Q) : Forall (fun q => q == 0) l -> Qsum l == 0.
Proof. intros H. rewrite (Qsum_const 0 l H). ring. Qed.

Lemma observations_zero (win : Series) :
  Forall (fun x => exists z, x = Fin z /\ z == 0) win ->
  Forall (fun q => q == 0) (observations win).
Proof.
  induction 1 as [| x win (z & -> & Hz) _ IH]; [constructor |].
  cbn. constructor; assumption.
Qed.

Lemma roll_mean_zero minp (win : Series) :
  Forall (fun x => exists z, x = Fin z /\ z == 0) win ->
  roll_mean minp win = NaN \/ exists m, roll_mean minp win = Fin m /\ m == 0.
Proof.
  intros Hwin. unfold roll_mean.
  destruct ((minp <=? length (observations win))%nat
            && (0 <? length (observations win))%nat) eqn:E;
    [| left; reflexivity].
  right. eexists. split; [reflexivity |].
  apply andb_true_iff in E. destruct E as [_ E]. apply Nat.ltb_lt in E.
  rewrite Qred_correct, (Qsum_zero _ (observations_zero win Hwin)).
  field. intros E0. pose proof (Qlen_pos _ E) as Hp. rewrite E0 in Hp.
  apply (Qlt_irrefl 0 Hp).
Qed.

Lemma zero_is_finite (s : Series) :
  Forall (fun x => exists z, x = Fin z /\ z == 0) s ->
  Forall (fun x => is_finite x = true) s.
Proof. apply Forall_impl. intros x (z & -> & _). reflexivity. Qed.

Lemma rolling_mean_zero_last w (s : Series) :
  s <> [] -> Forall (fun x => exists z, x = Fin z /\ z == 0) s ->
  exists m, nth_error (rolling_mean w s) (length s - 1) = Some m /\
            (m = NaN \/ exists q, m = Fin q /\ q == 0).
Proof.
  intros Hs Hall. unfold rolling_mean. rewrite rolling_nth_last by exact Hs.
  eexists. split; [reflexivity |]. apply roll_mean_zero.
  rewrite (prep_values_finite s) by (apply zero_is_finite, Hall).
  apply Forall_skipn_keep, Hall.
Qed.

(** When no close is below the close before, the loss entries are all 0. *)
Lemma loss_input_zero (df : DataFrame) :
  (forall i a b, nth_error df i = Some a -> nth_error df (S i) = Some b ->
                 Close a <= Close b) ->
  Forall (fun x => exists z, x = Fin z /\ z == 0)
         (map fneg (where_ (fun x => flt x (Fin 0)) (Fin 0) (delta df))).
Proof.
  intros Hup. unfold where_. rewrite map_map. apply Forall_map.
  apply delta_entries.
  - exists (- 0). split; [reflexivity | ring].
  - intros i a b Ea Eb. pose proof (Hup i a b Ea Eb) as Hle.
    cbn [flt fgt]. rewrite Qltb_false by (rewrite Qred_correct; lra).
    exists (- 0). split; [reflexivity | ring].
Qed.

(** When no close is above the close before, the gain entries are all 0. *)
Lemma gain_input_zero (df : DataFrame) :
  (forall i a b, nth_error df i = Some a -> nth_error df (S i) = Some b ->
                 Close b <= Close a) ->
  Forall (fun x => exists z, x = Fin z /\ z == 0)
         (where_ (fun x => fgt x (Fin 0)) (Fin 0) (delta df)).
Proof.
  intros Hdown. unfold where_. apply Forall_map.
  apply delta_entries.
  - exists 0. split; reflexivity.
  - intros i a b Ea Eb. pose proof (Hdown i a b Ea Eb) as Hle.
    cbn [fgt]. rewrite Qltb_false by (rewrite Qred_correct; lra).
    exists 0. split; reflexivity.
Qed.



Lemma Qsum_nonneg (l : list Q) : Forall (fun q => 0 <= q) l -> 0 <= Qsum l.
Proof.
  induction 1 as [| x l Hx _ IH]; unfold Qsum in *; cbn; lra.
Qed.

Lemma le_Qsum (l : list Q) (a : Q) :
  Forall (fun q => 0 <= q) l -> In a l -> a <= Qsum l.
Proof.
  induction 1 as [| x l Hx Hl IH]; intros Hin; [destruct Hin |].
  unfold Qsum in *. cbn [fold_right].
  pose proof (Qsum_nonneg l Hl) as Hs. unfold Qsum in Hs.
  destruct Hin as [-> | Hin]; [lra | specialize (IH Hin); lra].
Qed.

Lemma nth_error_skipn_last {A} (l : list A) (k : nat) (x : A) :
  (k < length l)%nat -> nth_error l (length l - 1) = Some x ->
  In x (skipn k l).
Proof.
  intros Hk E. apply (nth_error_In _ (length l - 1 - k)).
  rewrite nth_error_skipn. replace (k + (length l - 1 - k))%nat
    with (length l - 1)%nat by lia. exact E.
Qed.


Lemma zero_is_nonneg (s : Series) :
  Forall (fun x => exists z, x = Fin z /\ z == 0) s ->
  Forall (fun x => is_nonneg x = true) s.
Proof.
  apply Forall_impl. intros x (z & -> & Hz). cbn.
  apply Qle_bool_iff. rewrite Hz. apply Qle_refl.
Qed.

Lemma rolling_mean_zero_full w (s : Series) :
  (0 < w)%nat -> (w <= length s)%nat ->
  Forall (fun x => exists z, x = Fin z /\ z == 0) s ->
  exists m, nth_error (rolling_mean w s) (length s - 1) = Some (Fin m) /\ m == 0.
Proof.
  intros Hw Hle Hall.
  assert (Hs : s <> []) by (apply nonempty_length; lia).
  destruct (rolling_mean_zero_last w s Hs Hall) as (m & Em & [-> | (q & -> & Hq)]).
  - exfalso. unfold rolling_mean in Em. rewrite rolling_nth_last in Em by exact Hs.
    injection Em as Em.
    destruct (roll_mean_nonneg w (skipn (length s - w) (prep_values s)))
      as (g & Eg & _).
    + rewrite (prep_values_finite s) by (apply zero_is_finite, Hall).
      apply Forall_skipn_keep, zero_is_nonneg, Hall.
    + rewrite length_skipn, length_prep_values. lia.
    + rewrite length_skipn, length_prep_values. lia.
    + rewrite Eg in Em. discriminate Em.
  - exists q. split; assumption.
Qed.

Lemma length_gain_input (df : DataFrame) :
  length (where_ (fun x => fgt x (Fin 0)) (Fin 0) (delta df)) = length df.
Proof. unfold where_. rewrite length_map. apply length_delta. Qed.

Lemma length_loss_input (df : DataFrame) :
  length (map fneg (where_ (fun x => flt x (Fin 0)) (Fin 0) (delta df)))
  = length df.
Proof. unfold where_. rewrite !length_map. apply length_delta. Qed.




(** ** Flat series *)

Lemma Qred_zero (x : Q) : x == 0 -> Qred x = 0.
Proof. intros H. change 0 with (Qred 0). apply Qred_complete, H. Qed.

(** The exponential mean of a constant series is that constant: the loop
    leaves the running average alone when the new value equals it. *)
Lemma ewm_loop_const (f nw a : Q) (vals : Series) :
  Forall (fun x => exists b, x = Fin b /\ b == a) vals ->
  forall old_wt nobs,
    (1 <= nobs)%nat ->
    ewm_loop f nw 1 (Fin a) old_wt nobs vals = repeat (Fin a) (length vals).
Proof.
  induction 1 as [| cur rest (b & -> & Hb) _ IH]; intros old_wt nobs Hn;
    [reflexivity |].
  cbn [ewm_loop is_nan negb fne length repeat].
  rewrite (Qeq_eq_bool a b) by (symmetry; exact Hb). cbn [negb].
  replace (1 <=? nobs + 1)%nat with true by (symmetry; apply Nat.leb_le; lia).
  f_equal. apply IH. lia.
Qed.

Lemma ewm_mean_const (span : Z) (a : Q) (rest : Series) :
  Forall (fun x => exists b, x = Fin b /\ b == a) rest ->
  ewm_mean span (Fin a :: rest) = repeat (Fin a) (S (length rest)).
Proof.
  intros Hrest. unfold ewm_mean.
  rewrite prep_values_finite.
  - cbn [is_nan Nat.leb repeat]. f_equal. apply ewm_loop_const; [exact Hrest | lia].
  - constructor; [reflexivity |].
    eapply Forall_impl; [| exact Hrest]. intros x (b & -> & _). reflexivity.
Qed.

Lemma ewm_mean_repeat (span : Z) (a : Q) (n : nat) :
  ewm_mean span (repeat (Fin a) n) = repeat (Fin a) n.
Proof.
  destruct n as [| n]; [reflexivity |].
  cbn [repeat]. rewrite ewm_mean_const; [rewrite repeat_length; reflexivity |].
  apply Forall_forall. intros x Hx. apply repeat_spec in Hx.
  exists a. split; [exact Hx | reflexivity].
Qed.

Lemma zip_with_repeat f (x y : fval) (n : nat) :
  zip_with f (repeat x n) (repeat y n) = repeat (f x y) n.
Proof.
  unfold zip_with. induction n as [| n IH]; [reflexivity |].
  cbn. f_equal. exact IH.
Qed.

Lemma col_Close_flat (df : DataFrame) (c : Q) (b0 : Bar) (rest : list Bar) :
  df = b0 :: rest ->
  Forall (fun b => Close b == c) df ->
  col Close df = Fin (Close b0) :: col Close rest /\
  Forall (fun x => exists q, x = Fin q /\ q == Close b0) (col Close rest).
Proof.
  intros -> Hall. split; [reflexivity |].
  inversion Hall as [| ? ? H0 Hrest]; subst.
  unfold col. apply Forall_map.
  eapply Forall_impl; [| exact Hrest].
  intros b Hb. exists (Close b). split; [reflexivity |].
  rewrite Hb, H0. reflexivity.
Qed.

Lemma macd_flat (df : DataFrame) (c : Q) :
  Forall (fun b => Close b == c) df ->
  macd df = repeat (Fin 0) (length df) /\
  signal df = repeat (Fin 0) (length df).
Proof.
  intros Hall.
  assert (Hm : macd df = repeat (Fin 0) (length df)).
  { destruct df as [| b0 rest]; [reflexivity |].
    destruct (col_Close_flat _ c b0 rest eq_refl Hall) as [Ecol Hrest].
    unfold macd, exp1, exp2. rewrite Ecol.
    rewrite !ewm_mean_const by exact Hrest.
    rewrite zip_with_repeat. unfold col. rewrite length_map.
    cbn [length fsub fneg fadd]. rewrite Qred_zero by ring. reflexivity. }
  split; [exact Hm |].
  unfold signal. rewrite Hm. apply ewm_mean_repeat.
Qed.

Lemma last_or_0_repeat (x : fval) (n : nat) :
  (0 < n)%nat -> last_or_0 (repeat x n) = Returns x.
Proof.
  intros Hn. apply last_or_0_nth. rewrite repeat_length.
  apply nth_error_repeat. lia.
Qed.

(** The last rolling deviation over [w] equal values is 0. *)
Lemma rolling_std_flat_last (w : nat) (df : DataFrame) (c : Q) :
  (1 < w)%nat -> (w <= length df)%nat ->
  Forall (fun b => Close b == c) (skipn (length df - w) df) ->
  nth_error (rolling_std w (col Close df)) (length df - 1) = Some (Fin 0).
Proof.
  intros Hw Hle Hall.
  assert (Hdf : df <> []) by (apply nonempty_length; lia).
  unfold rolling_std. rewrite <- (length_col Close df).
  rewrite rolling_nth_last by (apply col_nonempty, Hdf).
  rewrite length_col. unfold roll_std. rewrite observations_col.
  set (obs := map Close (skipn (length df - w) df)).
  assert (Hlen : length obs = w)
    by (unfold obs; rewrite length_map, length_skipn; lia).
  rewrite Hlen.
  replace (w <=? w)%nat with true by (symmetry; apply Nat.leb_refl).
  replace (1 <? w)%nat with true by (symmetry; apply Nat.ltb_lt; exact Hw).
  cbn [andb]. f_equal.
  assert (Hobs : Forall (fun q => q == c) obs)
    by (apply Forall_map_Close, Hall).
  assert (Hmean : Qsum obs / Qlen obs == c).
  { apply mean_const; [apply Qlen_pos; rewrite Hlen; lia | exact Hobs]. }
  assert (Hss : Qsum (map (fun x => (x - Qsum obs / Qlen obs)
                                    * (x - Qsum obs / Qlen obs)) obs) == 0).
  { apply Qsum_zero, Forall_map.
    eapply Forall_impl; [| exact Hobs].
    intros q Hq. cbn beta. rewrite Hmean, Hq. ring. }
  rewrite Qred_zero; [reflexivity |].
  destruct (Qltb _ 0); [reflexivity |].
  unfold Qdiv. rewrite Hss. ring.
Qed.

Lemma nth_error_flat (l : list Bar) (c : Q) (i : nat) (b : Bar) :
  Forall (fun b => Close b == c) l -> nth_error l i = Some b -> Close b == c.
Proof. intros H E. apply (Forall_nth_error _ _ _ _ H E). Qed.

Lemma Forall_skipn_flat (df : DataFrame) (c : Q) (k : nat) :
  Forall (fun b => Close b == c) df ->
  Forall (fun b => Close b == c) (skipn k df).
Proof. apply Forall_skipn_keep. Qed.

(** The Bollinger position over 20 equal closes: a band of width 0. *)
Lemma bb_position_flat (df : DataFrame) (c : Q) :
  (20 <= length df)%nat ->
  Forall (fun b => Close b == c) (skipn (length df - 20) df) ->
  bb_position df = Returns NaN.
Proof.
  intros Hle Hall.
  assert (Hdf : df <> []) by (apply nonempty_length; lia).
  destruct (bb_position_returns df Hdf) as (cl & lo & up & Ec & El & Eu & ->).
  assert (Es : nth_error (sma df) (length df - 1)
               = Some (Fin (Qred (Qsum (map Close (skipn (length df - 20) df))
                                  / Qlen (map Close (skipn (length df - 20) df))))))
    by (apply (rolling_mean_col_last 20); lia).
  assert (Ed : nth_error (map (fun x => fmul x bb_std) (std df)) (length df - 1)
               = Some (Fin 0)).
  { rewrite nth_error_map. unfold std, bb_period.
    rewrite (rolling_std_flat_last 20 df c) by (assumption || lia).
    reflexivity. }
  set (m := Qred _) in Es.
  assert (Hm : m == c).
  { unfold m. rewrite Qred_correct. apply mean_const.
    - apply Qlen_map_skipn; lia.
    - apply Forall_map_Close, Hall. }
  unfold bb_lower in El. rewrite (nth_error_zip_with fsub _ _ _ _ _ Es Ed) in El.
  unfold bb_upper in Eu. rewrite (nth_error_zip_with fadd _ _ _ _ _ Es Ed) in Eu.
  assert (Hlo : lo = fsub (Fin m) (Fin 0)) by congruence.
  assert (Hup : up = fadd (Fin m) (Fin 0)) by congruence.
  subst lo up. clear El Eu.
  destruct (nth_error df (length df - 1)) as [b |] eqn:Eb;
    [| apply nth_error_None in Eb; lia].
  rewrite nth_error_col, Eb in Ec. injection Ec as <-.
  assert (Hb : Close b == c).
  { apply (Forall_nth_error _ _ (length df - 1 - (length df - 20)) _ Hall).
    rewrite nth_error_skipn.
    replace (length df - 20 + (length df - 1 - (length df - 20)))%nat
      with (length df - 1)%nat by lia.
    exact Eb. }
  cbn [fsub fneg fadd fdiv].
  rewrite !(Qeq_eq_bool _ 0); [reflexivity | |];
    rewrite !Qred_correct, ?Hb, Hm; ring.
Qed.

(** The change over [k] bars between two equal closes. *)
Lemma price_change_flat (k : nat) (df : DataFrame) (c : Q) :
  (k + 1 <= length df)%nat ->
  Forall (fun b => Close b == c) df ->
  price_change k df = Returns (if Qeq_bool c 0 then NaN else Fin 0).
Proof.
  intros Hle Hall.
  destruct (price_change_returns k df Hle) as (cl & p & Ecl & Ep & ->).
  destruct (nth_error df (length df - 1)) as [b |] eqn:Eb;
    [| apply nth_error_None in Eb; lia].
  destruct (nth_error df (length df - (k + 1))) as [a |] eqn:Ea;
    [| apply nth_error_None in Ea; lia].
  rewrite nth_error_col, Eb in Ecl. injection Ecl as <-.
  rewrite nth_error_col, Ea in Ep. injection Ep as <-.
  pose proof (nth_error_flat _ _ _ _ Hall Eb) as Hb.
  pose proof (nth_error_flat _ _ _ _ Hall Ea) as Ha.
  cbn [fsub fneg fadd]. rewrite Qred_zero by (rewrite Hb, Ha; ring).
  cbn [fdiv]. rewrite Ha.
  destruct (Qeq_bool c 0); [reflexivity |].
  rewrite Qred_zero by (unfold Qdiv; ring). reflexivity.
Qed.

Lemma flat_never_falls (df : DataFrame) (c : Q) :
  Forall (fun b => Close b == c) df ->
  forall i x y, nth_error df i = Some x -> nth_error df (S i) = Some y ->
                Close x <= Close y /\ Close y <= Close x.
Proof.
  intros Hall i x y Ex Ey.
  rewrite (nth_error_flat _ _ _ _ Hall Ex), (nth_error_flat _ _ _ _ Hall Ey).
  split; apply Qle_refl.
Qed.

Lemma rsi_flat (df : DataFrame) (c : Q) :
  (14 <= length df)%nat ->
  Forall (fun b => Close b == c) df ->
  last_or_0 (rsi df) = Returns NaN.
Proof.
  intros Hle Hall.
  pose proof (length_gain_input df) as Hgl.
  pose proof (length_loss_input df) as Hll.
  destruct (rolling_mean_zero_full 14 _ ltac:(lia) ltac:(rewrite Hgl; lia)
              (gain_input_zero df
                 (fun i x y Ex Ey => proj2 (flat_never_falls df c Hall i x y Ex Ey))))
    as (g & Eg & Hg).
  destruct (rolling_mean_zero_full 14 _ ltac:(lia) ltac:(rewrite Hll; lia)
              (loss_input_zero df
                 (fun i x y Ex Ey => proj1 (flat_never_falls df c Hall i x y Ex Ey))))
    as (l & El & Hl).
  rewrite Hgl in Eg. rewrite Hll in El.
  rewrite (rsi_last_of df _ _ Eg El). f_equal.
  apply (proj1 (rsi_formula_cases g l ltac:(lra) ltac:(lra))); assumption.
Qed.

(** X4: on a series of 21 bars or more whose closes are all equal, the
    record has [rsi = NaN], [macd = 0], [macd_signal = 0], and both price
    changes are 0, or [NaN] when the close is 0: a flat series is not
    told from one without data. *)
Theorem flat_series_record (df : DataFrame) (r : Indicators) (c : Q) :
  df <> [] ->
  calculate_technical_indicators (Some df) = Returns r ->
  Forall (fun b => Close b == c) df ->
  lookup r "rsi" = Some NaN /\
  lookup r "macd" = Some (Fin 0) /\
  lookup r "macd_signal" = Some (Fin 0) /\
  lookup r "price_change_5d" = Some (if Qeq_bool c 0 then NaN else Fin 0) /\
  lookup r "price_change_20d" = Some (if Qeq_bool c 0 then NaN else Fin 0).
Proof.
  intros Hdf Er Hall.
  destruct (record_fields df r Hdf Er)
    as (Hlong & _ & (v1 & E1 & H1) & (v2 & E2 & H2) & (v3 & E3 & H3) & _ & _
        & _ & _ & (v8 & E8 & H8) & (v9 & E9 & H9) & _).
  destruct (macd_flat df c Hall) as [Em Es].
  rewrite (rsi_flat df c ltac:(lia) Hall) in E1.
  rewrite Em, last_or_0_repeat in E2 by lia.
  rewrite Es, last_or_0_repeat in E3 by lia.
  rewrite (price_change_flat 5 df c ltac:(simpl; lia) Hall) in E8.
  rewrite (price_change_flat 20 df c ltac:(simpl; lia) Hall) in E9.
  repeat split; congruence.
Qed.

(** X5: when the last 20 closes of a series are equal, the [sma_20] of
    the record is that close and its [bb_position] is [NaN]: the band
    has width 0 and the position is [0/0]. *)
Theorem constant_window_sma_and_band (df : DataFrame) (r : Indicators) (c : Q) :
  df <> [] ->
  calculate_technical_indicators (Some df) = Returns r ->
  Forall (fun b => Close b == c) (skipn (length df - 20) df) ->
  (exists m, lookup r "sma_20" = Some (Fin m) /\ m == c) /\
  lookup r "bb_position" = Some NaN.
Proof.
  intros Hdf Er Hall.
  destruct (record_fields df r Hdf Er)
    as (Hlong & _ & _ & _ & _ & (v4 & E4 & H4) & _ & (v6 & E6 & H6) & _).
  split.
  - assert (E : last_or_0 (sma_20 df)
                = Returns (Fin (Qred (Qsum (map Close (skipn (length df - 20) df))
                                     / Qlen (map Close (skipn (length df - 20) df)))))).
    { apply last_or_0_nth. rewrite length_sma_20.
      apply (rolling_mean_col_last 20); lia. }
    exists (Qred (Qsum (map Close (skipn (length df - 20) df))
                  / Qlen (map Close (skipn (length df - 20) df)))).
    split.
    + rewrite H4. congruence.
    + rewrite Qred_correct. apply mean_const.
      * apply Qlen_map_skipn; lia.
      * apply Forall_map_Close, Hall.
  - rewrite (bb_position_flat df c ltac:(lia) Hall) in E6. congruence.
Qed.

(** ** The volume ratio *)

(** X7: when no volume of the last 20 bars is negative, the
    [volume_ratio] of the record is [NaN] (the 20 volumes are 0) or a
    number between 0 and 20: the last volume is one of the 20 that are
    averaged, so the ratio is never infinite. *)
Theorem volume_ratio_at_most_20 (df : DataFrame) (r : Indicators) :
  df <> [] ->
  calculate_technical_indicators (Some df) = Returns r ->
  Forall (fun b => 0 <= Volume b) (skipn (length df - 20) df) ->
  exists v, lookup r "volume_ratio" = Some v /\
            (v = NaN \/ exists q, v = Fin q /\ 0 <= q /\ q <= 20).
Proof.
  intros Hdf Er Hall.
  destruct (record_fields df r Hdf Er)
    as (Hlong & _ & _ & _ & _ & _ & _ & _ & (v & Ev & Hv) & _).
  exists v. split; [exact Hv |].
  destruct (volume_ratio_returns df Hdf) as (x & a & Ex & Ea & E).
  rewrite E in Ev. injection Ev as <-.
  unfold avg_volume in Ea.
  rewrite (rolling_mean_col_last 20 Volume df ltac:(lia) ltac:(lia)) in Ea.
  destruct (nth_error df (length df - 1)) as [b |] eqn:Eb;
    [| apply nth_error_None in Eb; lia].
  rewrite nth_error_col, Eb in Ex.
  assert (Hx : x = Fin (Volume b)) by (cbn in Ex; congruence).
  assert (Ha : a = Fin (Qred (Qsum (map Volume (skipn (length df - 20) df))
                              / Qlen (map Volume (skipn (length df - 20) df)))))
    by congruence.
  subst x a. clear Ex Ea.
  set (obs := map Volume (skipn (length df - 20) df)).
  assert (Hobs : Forall (fun q => 0 <= q) obs) by (apply Forall_map, Hall).
  assert (Hlen : Qlen obs == 20).
  { unfold Qlen, obs. rewrite length_map, length_skipn.
    replace (length df - (length df - 20))%nat with 20%nat by lia.
    reflexivity. }
  assert (Hin : In (Volume b) obs).
  { unfold obs. apply in_map.
    apply (nth_error_skipn_last df (length df - 20) b); [lia | exact Eb]. }
  pose proof (le_Qsum obs (Volume b) Hobs Hin) as Hsum.
  assert (Hb : 0 <= Volume b).
  { rewrite Forall_forall in Hobs. apply Hobs, Hin. }
  set (avg := Qred (Qsum obs / Qlen obs)).
  assert (Havg : avg == Qsum obs / 20)
    by (unfold avg; rewrite Qred_correct, Hlen; reflexivity).
  cbn [fdiv].
  destruct (Qeq_bool avg 0) eqn:E0.
  - apply Qeq_bool_eq in E0.
    assert (Hs0 : Qsum obs == 0).
    { rewrite Havg in E0. unfold Qdiv in E0.
      apply Qmult_integral in E0. destruct E0 as [E0 | E0]; [exact E0 |].
      discriminate E0. }
    left. rewrite (Qeq_eq_bool (Volume b) 0) by lra. reflexivity.
  - right. eexists. split; [reflexivity |].
    apply Qeq_bool_neq in E0.
    assert (Hpos : 0 < avg).
    { assert (0 <= avg).
      { rewrite Havg. apply Qle_shift_div_l; lra. }
      destruct (Qlt_le_dec 0 avg) as [Hp | Hn]; [exact Hp |].
      exfalso. apply E0. lra. }
    rewrite Qred_correct. split.
    + apply Qle_shift_div_l; [exact Hpos | lra].
    + apply Qle_shift_div_r; [exact Hpos |].
      assert (H20 : 20 * avg == Qsum obs) by (rewrite Havg; field).
      lra.
Qed.

Lemma volume_ratio_of_zigzag :
  exists v, lookup zigzag_record "volume_ratio" = Some v /\
            (v = NaN \/ exists q, v = Fin q /\ 0 <= q /\ q <= 20).
Proof.
  apply (volume_ratio_at_most_20 zigzag_21 zigzag_record).
  - discriminate.
  - vm_compute. reflexivity.
  - vm_compute. repeat constructor; discriminate.
Defined.
(** ** More on the aggregator *)

Import MoreExamples.


Lemma flat_25_is_flat : Forall (fun b => Close b == 100) flat_25.
Proof. repeat constructor. Qed.

Lemma flat_series_record_of_flat_25 :
  lookup (record_of flat_25) "rsi" = Some NaN /\
  lookup (record_of flat_25) "macd" = Some (Fin 0) /\
  lookup (record_of flat_25) "macd_signal" = Some (Fin 0) /\
  lookup (record_of flat_25) "price_change_5d" = Some (Fin 0) /\
  lookup (record_of flat_25) "price_change_20d" = Some (Fin 0).
Proof.
  apply (flat_series_record flat_25 (record_of flat_25) 100).
  - discriminate.
  - vm_compute. reflexivity.
  - exact flat_25_is_flat.
Defined.

Lemma constant_window_of_flat_25 :
  (exists m, lookup (record_of flat_25) "sma_20" = Some (Fin m) /\ m == 100) /\
  lookup (record_of flat_25) "bb_position" = Some NaN.
Proof.
  apply (constant_window_sma_and_band flat_25 (record_of flat_25) 100).
  - discriminate.
  - vm_compute. reflexivity.
  - apply Forall_skipn_keep, flat_25_is_flat.
Defined.

(** X8: the record of a symbol carries the symbol, the date of the run,
    the indicators of its history and the sentiment asked for under its
    company name; the company name, the market capitalisation and the
    sector are the entries [longName], [marketCap] and [sector] of the
    fetched information, whatever their value, and the symbol, 0 and
    ["Unknown"] when the entry is missing. *)
Theorem analysis_record_fields (w : World) (s : string) (hist : DataFrame)
        (info : dict json) (r : Analysis) :
  ticker w s = Returns (hist, info) ->
  analyze_stock w s = Returns (Some r) ->
  StockAnalyzer.symbol r = s /\
  StockAnalyzer.company_name r = get info "longName" (JStr s) /\
  analysis_date r = today w /\
  calculate_technical_indicators (Some hist)
  = Returns (technical_indicators r) /\
  sentiment r
  = StockAnalyzer.get_stock_news_sentiment w s (get info "longName" (JStr s)) /\
  market_cap r = get info "marketCap" (JNum (Fin 0)) /\
  sector r = get info "sector" (JStr "Unknown").
Proof.
  intros Et. unfold analyze_stock, analyze_stock_with, get_stock_data.
  rewrite Et. cbv beta iota zeta.
  destruct hist as [| b hist]; cbn [empty]; cbv beta iota;
    [intros H; discriminate H |].
  destruct (calculate_technical_indicators _) as [t | e] eqn:Ec;
    cbn [bind]; [| intros H; discriminate H].
  intros [= <-]. cbn.
  destruct info as [| kv info]; repeat split; try reflexivity; exact Ec.
Qed.

Lemma analysis_record_of_alpha :
  StockAnalyzer.symbol alpha_record = "AAA.L"%string /\
  StockAnalyzer.company_name alpha_record
  = get [("longName", JStr "Alpha plc")]%string "longName" (JStr "AAA.L") /\
  analysis_date alpha_record = today market /\
  calculate_technical_indicators (Some zigzag_21)
  = Returns (technical_indicators alpha_record) /\
  sentiment alpha_record
  = StockAnalyzer.get_stock_news_sentiment market "AAA.L"
      (get [("longName", JStr "Alpha plc")]%string "longName" (JStr "AAA.L")) /\
  market_cap alpha_record
  = get [("longName", JStr "Alpha plc")]%string "marketCap" (JNum (Fin 0)) /\
  sector alpha_record
  = get [("longName", JStr "Alpha plc")]%string "sector" (JStr "Unknown").
Proof.
  apply (analysis_record_fields market "AAA.L" zigzag_21
                                [("longName", JStr "Alpha plc")]%string).
  - reflexivity.
  - vm_compute. reflexivity.
Defined.

Lemma records_of_successes_app (w : World) (l1 l2 : list string) :
  records_of_successes w (l1 ++ l2)
  = records_of_successes w l1 ++ records_of_successes w l2.
Proof. unfold records_of_successes. apply flat_map_app. Qed.

Lemma length_records_of_successes (w : World) (l : list string) :
  (length (records_of_successes w l) <= length l)%nat.
Proof.
  induction l as [| s l IH]; [apply le_n |].
  unfold records_of_successes in *. cbn [flat_map]. rewrite length_app.
  destruct (analyze_stock w s) as [[r |] | e]; cbn [length]; lia.
Qed.

(** X9: the batch is the concatenation of its parts: analysing two lists
    of symbols one after the other gives the records of the first list
    followed by those of the second, and a list gives at most one record
    per symbol. *)
Theorem batch_of_two_lists (w : World) (l1 l2 : list string) :
  analyze_multiple_stocks w (l1 ++ l2)
  = analyze_multiple_stocks w l1 ++ analyze_multiple_stocks w l2 /\
  (length (analyze_multiple_stocks w l1) <= length l1)%nat.
Proof.
  rewrite !analyze_multiple_stocks_spec. split.
  - apply records_of_successes_app.
  - apply length_records_of_successes.
Qed.

(** X10: a symbol whose fetch succeeds with 1 to 20 bars has no record:
    [analyze_stock] raises [IndexError] for it, out of the indicator
    engine, and [analyze_multiple_stocks], which catches the exception,
    gives the batch it gives without that symbol, wherever the symbol
    stands in the list. *)
Theorem short_history_is_dropped (w : World) (s : string) (hist : DataFrame)
        (info : dict json) :
  ticker w s = Returns (hist, info) ->
  hist <> [] -> (length hist < 21)%nat ->
  analyze_stock w s = Raises IndexError /\
  (forall before after,
      analyze_multiple_stocks w (before ++ s :: after)
      = analyze_multiple_stocks w (before ++ after)) /\
  forall symbols r,
    In r (analyze_multiple_stocks w symbols) -> StockAnalyzer.symbol r <> s.
Proof.
  intros Et Hh Hlt.
  assert (E : analyze_stock w s = Raises IndexError).
  { unfold analyze_stock, analyze_stock_with, get_stock_data.
    rewrite Et. cbv beta iota zeta. rewrite (empty_false _ Hh).
    rewrite (calculate_short hist Hh Hlt). reflexivity. }
  split; [exact E |]. split.
  - intros before after. rewrite !analyze_multiple_stocks_spec.
    rewrite !records_of_successes_app. f_equal.
    unfold records_of_successes. cbn [flat_map]. rewrite E. reflexivity.
  - intros symbols r Hin Hsym.
    rewrite analyze_multiple_stocks_spec in Hin.
    apply in_records_of_successes in Hin. destruct Hin as (s' & _ & Es').
    destruct (analyze_stock_returns w s' r Es') as (_ & _ & _ & _ & _ & Hs').
    rewrite Hsym in Hs'. subst s'. rewrite E in Es'. discriminate Es'.
Qed.

Lemma short_history_in_market :
  analyze_stock market "EEE.L" = Raises IndexError /\
  (forall before after,
      analyze_multiple_stocks market (before ++ "EEE.L"%string :: after)
      = analyze_multiple_stocks market (before ++ after)) /\
  forall symbols r,
    In r (analyze_multiple_stocks market symbols) ->
    StockAnalyzer.symbol r <> "EEE.L"%string.
Proof.
  apply (short_history_is_dropped market "EEE.L" five_bars []).
  - reflexivity.
  - discriminate.
  - simpl. lia.
Defined.
(** ** The news sentiment *)

Import NewsSentiment.

(** What the method returns once the service has answered with status
    200 and an object whose [articles] is a list. *)
Lemma sentiment_of_answer (key : string) requests_get symbol company_name
      (resp : Response) (kv : dict json) (l : list json) :
  key <> ""%string ->
  requests_get symbol company_name = Returns resp ->
  status_code resp = 200%Z ->
  json_ resp = Returns (JObj kv) ->
  lookup kv "articles" = Some (JArr l) ->
  NewsSentiment.get_stock_news_sentiment (Some key) requests_get
                                         symbol company_name
  = match sentiment_of_articles (JArr l) with
    | Returns s => s
    | Raises _ => neutral_sentiment
    end.
Proof.
  intros Hkey Eget Estatus Ejson Earticles.
  unfold NewsSentiment.get_stock_news_sentiment.
  replace (String.eqb key "") with false
    by (symmetry; apply String.eqb_neq, Hkey).
  rewrite Eget. cbn [bind]. rewrite Ejson. cbn [bind]. rewrite Estatus.
  cbn [Z.eqb Pos.eqb]. unfold get. rewrite Earticles. reflexivity.
Qed.

Lemma score_articles_raises (l : list json) (a : json) (e : exn) :
  In a l -> article_score a = Raises e ->
  exists e', score_articles l = Raises e'.
Proof.
  induction l as [| x l IH]; intros Hin Ea; [destruct Hin |].
  cbn [score_articles].
  destruct (article_score x) as [q | e1] eqn:Ex; cbn [bind]; [| eauto].
  destruct Hin as [-> | Hin]; [congruence |].
  destruct (IH Hin Ea) as (e' & ->). cbn [bind]. eauto.
Qed.

(** X12: one article among the first ten whose description is [null]
    (or any value that is no string) turns the whole result into the
    neutral one, score 0.5 and [news_count] 0, however many articles the
    service listed. *)
Theorem one_article_without_description_gives_neutral
        (news_api_key : option string) requests_get symbol company_name
        (resp : Response) (kv akv : dict json) (l : list json) :
  requests_get symbol company_name = Returns resp ->
  status_code resp = 200%Z ->
  json_ resp = Returns (JObj kv) ->
  lookup kv "articles" = Some (JArr l) ->
  In (JObj akv) (firstn 10 l) ->
  (forall s, lookup akv "description" <> Some (JStr s)) ->
  lookup akv "description" <> None ->
  NewsSentiment.get_stock_news_sentiment news_api_key requests_get
                                         symbol company_name
  = neutral_sentiment.
Proof.
  intros Eget Estatus Ejson Earticles Hin Hdesc Hsome.
  destruct news_api_key as [key |]; [| reflexivity].
  destruct (String.eqb_spec key "") as [-> | Hkey]; [reflexivity |].
  rewrite (sentiment_of_answer key _ _ _ resp kv l Hkey Eget Estatus Ejson
                               Earticles).
  assert (Ea : article_score (JObj akv) = Raises TypeError).
  { unfold article_score, get.
    destruct (lookup akv "description") as [d |] eqn:Ed; [| congruence].
    destruct d as [| b | x | s | dl | dkv];
      try (destruct (match lookup akv "title" with
                     | Some v => v | None => JStr "" end); reflexivity).
    exfalso. apply (Hdesc s). reflexivity. }
  destruct (score_articles_raises _ _ _ Hin Ea) as (e' & Es).
  unfold sentiment_of_articles. rewrite Es. reflexivity.
Qed.

Lemma twelve_articles_give_neutral :
  NewsSentiment.get_stock_news_sentiment
    (Some "key"%string) (answering twelve_articles) "AAA.L" (JStr "Alpha plc")
  = neutral_sentiment.
Proof.
  apply (one_article_without_description_gives_neutral
           (Some "key"%string) (answering twelve_articles) "AAA.L"
           (JStr "Alpha plc") _
           [("status", JStr "ok"); ("articles", JArr twelve_articles)]%string
           [("title", JStr "Results due"); ("description", JNull)]%string
           twelve_articles eq_refl eq_refl eq_refl eq_refl).
  - cbn. tauto.
  - intros s. discriminate.
  - discriminate.
Defined.

Lemma titles_length (l : list json) :
  forall hs, titles l = Returns hs -> length hs = length l.
Proof.
  induction l as [| a l IH]; intros hs.
  - intros [= <-]. reflexivity.
  - cbn [titles]. destruct (title_of a) as [t | e]; cbn [bind]; [| discriminate].
    destruct (titles l) as [ts | e]; cbn [bind]; [| discriminate].
    intros [= <-]. cbn [length]. f_equal. apply IH. reflexivity.
Qed.

(** X13: the score and the headlines read the first ten articles only
    (the headlines the first three), while [news_count] counts every
    article listed: two answers that agree on their first ten articles
    give the same score and the same headlines, and an answer that gives
    headlines gives its number of articles as [news_count]. *)
Theorem score_reads_the_first_ten_articles
        (key : string) requests_get requests_get' symbol company_name
        (resp resp' : Response) (kv kv' : dict json) (l l' : list json) :
  key <> ""%string ->
  requests_get symbol company_name = Returns resp ->
  status_code resp = 200%Z ->
  json_ resp = Returns (JObj kv) ->
  lookup kv "articles" = Some (JArr l) ->
  requests_get' symbol company_name = Returns resp' ->
  status_code resp' = 200%Z ->
  json_ resp' = Returns (JObj kv') ->
  lookup kv' "articles" = Some (JArr l') ->
  firstn 10 l = firstn 10 l' ->
  let s := NewsSentiment.get_stock_news_sentiment
             (Some key) requests_get symbol company_name in
  let s' := NewsSentiment.get_stock_news_sentiment
              (Some key) requests_get' symbol company_name in
  sentiment_score s = sentiment_score s' /\
  recent_headlines s = recent_headlines s' /\
  (forall hs, recent_headlines s = Some hs ->
              news_count s = length l /\ news_count s' = length l' /\
              length hs = Nat.min 3 (length l)).
Proof.
  intros Hkey E1 E2 E3 E4 E1' E2' E3' E4' Hten s s'.
  unfold s, s'.
  rewrite (sentiment_of_answer key _ _ _ resp kv l Hkey E1 E2 E3 E4).
  rewrite (sentiment_of_answer key _ _ _ resp' kv' l' Hkey E1' E2' E3' E4').
  assert (Hthree : firstn 3 l = firstn 3 l').
  { change 3%nat with (Nat.min 3 10).
    rewrite <- !firstn_firstn, Hten. reflexivity. }
  unfold sentiment_of_articles. rewrite <- Hten, <- Hthree.
  destruct (score_articles (firstn 10 l)) as [scores | e]; cbn [bind];
    [| split; [reflexivity | split; [reflexivity | intros hs H; discriminate H]]].
  destruct (titles (firstn 3 l)) as [ts | e] eqn:Et; cbn [bind];
    [| split; [reflexivity | split; [reflexivity | intros hs H; discriminate H]]].
  cbn [sentiment_score recent_headlines news_count].
  split; [reflexivity |]. split; [reflexivity |].
  intros hs [= <-]. split; [reflexivity |]. split; [reflexivity |].
  rewrite (titles_length _ _ Et). apply length_firstn.
Qed.

Lemma score_of_two_answers :
  let s := NewsSentiment.get_stock_news_sentiment
             (Some "key"%string)
             (answering (repeat good_news 10 ++ [bad_news]))
             "AAA.L" (JStr "Alpha plc") in
  let s' := NewsSentiment.get_stock_news_sentiment
              (Some "key"%string)
              (answering (repeat good_news 10 ++ repeat bare_news 5))
              "AAA.L" (JStr "Alpha plc") in
  sentiment_score s = sentiment_score s' /\
  recent_headlines s = recent_headlines s' /\
  (forall hs, recent_headlines s = Some hs ->
              news_count s = 11%nat /\ news_count s' = 15%nat /\
              length hs = 3%nat).
Proof.
  apply (score_reads_the_first_ten_articles
           "key" (answering (repeat good_news 10 ++ [bad_news]))
           (answering (repeat good_news 10 ++ repeat bare_news 5))
           "AAA.L" (JStr "Alpha plc") _ _
           [("status", JStr "ok");
            ("articles", JArr (repeat good_news 10 ++ [bad_news]))]%string
           [("status", JStr "ok");
            ("articles", JArr (repeat good_news 10 ++ repeat bare_news 5))]%string
           (repeat good_news 10 ++ [bad_news])
           (repeat good_news 10 ++ repeat bare_news 5)
           ltac:(discriminate) eq_refl eq_refl eq_refl eq_refl
           eq_refl eq_refl eq_refl eq_refl eq_refl).
Defined.
(** ** The recommendations of the model *)

Import GroqClient.

Lemma find_range (c : ascii) (s : string) :
  (find c s = -1 \/ 0 <= find c s)%Z.
Proof.
  induction s as [| a s IH]; [left; reflexivity |].
  cbn [find]. destruct (Ascii.eqb a c); [right; lia |].
  destruct (find c s) as [| p | p]; [right; lia | right; lia | left; reflexivity].
Qed.

Lemma find_none_cons (c a : ascii) (s : string) :
  find c (String a s) = (-1)%Z -> Ascii.eqb a c = false /\ find c s = (-1)%Z.
Proof.
  cbn [find]. destruct (Ascii.eqb a c); [discriminate |].
  destruct (find_range c s) as [-> | H]; [auto |].
  destruct (find c s); try lia; discriminate.
Qed.

(** The first brace of a text that has none before it. *)
Lemma find_after_prefix (c : ascii) (pre rest : string) :
  find c pre = (-1)%Z ->
  find c (pre ++ String c rest) = Z.of_nat (String.length pre).
Proof.
  induction pre as [| a pre IH]; intros Hnone.
  - cbn. rewrite Ascii.eqb_refl. reflexivity.
  - destruct (find_none_cons c a pre Hnone) as [Ha Hpre].
    cbn [append find String.length]. rewrite Ha, (IH Hpre).
    rewrite Nat2Z.inj_succ.
    pose proof (Nat2Z.is_nonneg (String.length pre)) as Hz.
    destruct (Z.of_nat (String.length pre)); lia.
Qed.

Lemma rfind_before_suffix (c : ascii) (s post : string) :
  rfind c post = (-1)%Z -> rfind c (s ++ post) = rfind c s.
Proof.
  intros Hnone. induction s as [| a s IH]; [exact Hnone |].
  cbn [append rfind]. rewrite IH. reflexivity.
Qed.

Lemma rfind_last (c : ascii) (s : string) :
  rfind c (s ++ String c "") = Z.of_nat (String.length s).
Proof.
  induction s as [| a s IH].
  - cbn. rewrite Ascii.eqb_refl. reflexivity.
  - cbn [append rfind String.length]. rewrite IH.
    rewrite Nat2Z.inj_succ.
    pose proof (Nat2Z.is_nonneg (String.length s)) as Hz.
    destruct (Z.of_nat (String.length s)); lia.
Qed.

Lemma substring_skip (pre s : string) (n : nat) :
  substring (String.length pre) n (pre ++ s) = substring 0 n s.
Proof. induction pre as [| a pre IH]; [reflexivity | exact IH]. Qed.

Lemma substring_prefix (body post : string) :
  substring 0 (String.length body) (body ++ post) = body.
Proof.
  induction body as [| a body IH]; [destruct post; reflexivity |].
  cbn. f_equal. exact IH.
Qed.

Lemma length_append (a b : string) :
  String.length (a ++ b) = (String.length a + String.length b)%nat.
Proof. induction a as [| x a IH]; [reflexivity | cbn; f_equal; exact IH]. Qed.

Lemma append_assoc (a b c : string) : ((a ++ b) ++ c = a ++ (b ++ c))%string.
Proof. induction a as [| x a IH]; [reflexivity | cbn; f_equal; exact IH]. Qed.

(** The slice the code takes from a text with one outermost pair of
    braces: the text between them, braces included. *)
Lemma slice_between_braces (pre mid post : string) :
  find "{" pre = (-1)%Z -> rfind "}" post = (-1)%Z ->
  let body := String "{" (mid ++ "}") in
  let content := (pre ++ body ++ post)%string in
  find "{" content = Z.of_nat (String.length pre) /\
  (rfind "}" content + 1)%Z
  = Z.of_nat (String.length pre + String.length body) /\
  slice content (find "{" content) (rfind "}" content + 1) = body.
Proof.
  intros Hpre Hpost body content.
  assert (Hfind : find "{" content = Z.of_nat (String.length pre)).
  { unfold content, body. cbn [append]. apply find_after_prefix, Hpre. }
  assert (Hrfind : (rfind "}" content + 1)%Z
                   = Z.of_nat (String.length pre + String.length body)).
  { unfold content. rewrite <- append_assoc.
    rewrite (rfind_before_suffix _ _ _ Hpost).
    unfold body.
    change (String "{" (mid ++ "}"))%string
      with ((String "{" mid) ++ String "}" "")%string.
    rewrite <- append_assoc, rfind_last, !length_append. cbn [String.length].
    lia. }
  split; [exact Hfind |]. split; [exact Hrfind |].
  unfold slice. rewrite Hfind, Hrfind, !Nat2Z.id.
  replace (String.length pre + String.length body - String.length pre)%nat
    with (String.length body) by lia.
  unfold content. rewrite substring_skip. apply substring_prefix.
Qed.

Lemma append_nil_r (s : string) : (s ++ "")%string = s.
Proof. induction s as [| a s IH]; [reflexivity | cbn; f_equal; exact IH]. Qed.

Lemma rfind_range (c : ascii) (s : string) :
  (rfind c s = -1 \/ 0 <= rfind c s)%Z.
Proof.
  induction s as [| a s IH]; [left; reflexivity |].
  cbn [rfind]. destruct (rfind c s) as [| p | p];
    [right; lia | right; lia |].
  destruct (Ascii.eqb a c); [right; lia | left; reflexivity].
Qed.

(** What the method does with the content of the answer once it holds
    an opening brace. *)
Lemma recommendations_of_content chat json_loads stock_data (content : string) :
  stock_data <> [] ->
  chat stock_data = Returns (Some content) ->
  find "{" content <> (-1)%Z ->
  get_stock_recommendations chat json_loads stock_data
  = match json_loads (slice content (find "{" content)
                            (rfind "}" content + 1)) with
    | Raises _ => None
    | Returns recommendations =>
        match py_in "top_10_picks" recommendations with
        | Returns true =>
            match bind (subscript_key recommendations "top_10_picks") py_len with
            | Returns _ => Some recommendations
            | Raises _ => None
            end
        | Returns false => None
        | Raises _ => None
        end
    end.
Proof.
  intros Hdata Echat Hfind. unfold get_stock_recommendations.
  rewrite (empty_false _ Hdata), Echat.
  replace (find "{" content =? -1)%Z with false
    by (symmetry; apply Z.eqb_neq, Hfind).
  replace (rfind "}" content + 1 =? -1)%Z with false; [reflexivity |].
  symmetry. apply Z.eqb_neq. destruct (rfind_range "}" content); lia.
Qed.

(** X14: the text around the outermost braces of the model's answer
    plays no part: when no opening brace comes before them and no
    closing brace after them, the method returns what it returns for the
    braces and the text between them alone. *)
Theorem text_around_the_braces_is_dropped
        chat json_loads stock_data (pre mid post : string) :
  stock_data <> [] ->
  chat stock_data
  = Returns (Some (pre ++ String "{" (mid ++ "}") ++ post)%string) ->
  find "{" pre = (-1)%Z -> rfind "}" post = (-1)%Z ->
  get_stock_recommendations chat json_loads stock_data
  = get_stock_recommendations
      (fun _ => Returns (Some (String "{" (mid ++ "}")))) json_loads stock_data.
Proof.
  intros Hdata Echat Hpre Hpost.
  destruct (slice_between_braces pre mid post Hpre Hpost) as (Hf & _ & Hs).
  rewrite (recommendations_of_content chat json_loads stock_data _ Hdata Echat)
    by (rewrite Hf; lia).
  rewrite Hs.
  destruct (slice_between_braces "" mid "" eq_refl eq_refl) as (Hf' & _ & Hs').
  cbv zeta in Hf', Hs'. rewrite append_nil_r in Hf', Hs'.
  change ("" ++ String "{" (mid ++ "}"))%string
    with (String "{" (mid ++ "}")) in Hf', Hs'.
  rewrite (recommendations_of_content _ json_loads stock_data
             (String "{" (mid ++ "}")) Hdata eq_refl)
    by (rewrite Hf'; cbn; lia).
  rewrite Hs'. reflexivity.
Qed.

(** The value the method returns, when it returns one. *)
Lemma recommendations_shape chat json_loads stock_data (j : json) :
  get_stock_recommendations chat json_loads stock_data = Some j ->
  stock_data <> [] /\
  exists kv v n,
    j = JObj kv /\ lookup kv "top_10_picks" = Some v /\ py_len v = Returns n.
Proof.
  unfold get_stock_recommendations.
  destruct stock_data as [| r0 rest]; [discriminate |]. cbn [empty].
  destruct (chat (r0 :: rest)) as [[content |] | e]; try discriminate.
  destruct (negb _ && negb _); [| discriminate].
  destruct (json_loads _) as [recs | e]; [| discriminate].
  destruct (py_in "top_10_picks" recs) as [[|] | e] eqn:Ein; try discriminate.
  destruct (subscript_key recs "top_10_picks") as [v | e] eqn:Ek;
    cbn [bind]; [| discriminate].
  destruct (py_len v) as [n | e] eqn:El; [| discriminate].
  intros [= <-]. split; [discriminate |].
  unfold subscript_key in Ek.
  destruct recs as [| b | x | s | l | kv]; try discriminate Ek.
  destruct (lookup kv "top_10_picks") as [v' |] eqn:Ev; [| discriminate Ek].
  injection Ek as ->. exists kv, v, n. repeat split; assumption.
Qed.

(** X15: a value returned by [get_stock_recommendations] is a dict with
    a [top_10_picks] entry that has a length (a list, a string or a
    dict): the answer is dropped when the entry is [null] or a number,
    because the log line takes its [len]; and nothing is returned for an
    empty list of records. *)
Theorem recommendations_have_sized_picks chat json_loads stock_data (j : json) :
  get_stock_recommendations chat json_loads stock_data = Some j ->
  stock_data <> [] /\
  exists kv v,
    j = JObj kv /\ lookup kv "top_10_picks" = Some v /\
    match v with
    | JArr _ | JStr _ | JObj _ => True
    | JNull | JBool _ | JNum _ => False
    end.
Proof.
  intros E. destruct (recommendations_shape _ _ _ _ E)
    as (Hdata & kv & v & n & -> & Ev & El).
  split; [exact Hdata |]. exists kv, v. repeat split; try assumption.
  destruct v; try exact I; discriminate El.
Qed.

(** X16: whatever value it is given ([None] or any JSON value),
    [validate_recommendations] returns [None] or raises: it never
    returns a validated set. *)
Theorem validator_never_returns_a_set (recommendations : option json) :
  validate_recommendations recommendations = Returns None \/
  exists e, validate_recommendations recommendations = Raises e.
Proof.
  destruct recommendations as [j |]; [| left; reflexivity].
  destruct j as [| b | x | s | l | kv].
  - left. reflexivity.
  - unfold validate_recommendations, validate_recommendations_in.
    destruct b; [right; eexists; reflexivity | left; reflexivity].
  - unfold validate_recommendations, validate_recommendations_in.
    destruct (truthy (JNum x)); [right; eexists; reflexivity | left; reflexivity].
  - unfold validate_recommendations, validate_recommendations_in.
    destruct (truthy (JStr s)); cbn [negb]; [| left; reflexivity].
    cbn [py_in bind].
    destruct (NewsSentiment.is_substring "top_10_picks" s); cbn [negb];
      [right; eexists; reflexivity | left; reflexivity].
  - unfold validate_recommendations, validate_recommendations_in.
    destruct (truthy (JArr l)); cbn [negb]; [| left; reflexivity].
    cbn [py_in bind].
    destruct (existsb _ l); cbn [negb];
      [right; eexists; reflexivity | left; reflexivity].
  - destruct (lookup kv "top_10_picks") as [top |] eqn:E.
    + right. apply (validate_recommendations_raises kv top E).
    + left. apply validate_recommendations_without_picks, E.
Qed.

Lemma text_around_the_braces_of_an_answer :
  get_stock_recommendations
    (saying ("Here you go: " ++ picks_text ++ " Good luck!")%string)
    loads_picks_text [alpha_record]
  = get_stock_recommendations (saying picks_text) loads_picks_text [alpha_record]
  /\ get_stock_recommendations (saying picks_text) loads_picks_text [alpha_record]
     = Some (JObj [ ("top_10_picks"%string, JArr []) ]).
Proof.
  split; [| reflexivity].
  apply (text_around_the_braces_is_dropped
           (saying ("Here you go: " ++ picks_text ++ " Good luck!")%string)
           loads_picks_text [alpha_record]
           "Here you go: "
           (String "034" "top_10_picks" ++ String "034" ": []")%string
           " Good luck!");
    [discriminate | reflexivity | reflexivity | reflexivity].
Defined.

Lemma recommendations_of_an_answer :
  [alpha_record] <> [] /\
  exists kv v,
    JObj [ ("top_10_picks"%string, JArr []) ] = JObj kv /\
    lookup kv "top_10_picks" = Some v /\
    match v with
    | JArr _ | JStr _ | JObj _ => True
    | JNull | JBool _ | JNum _ => False
    end.
Proof.
  apply (recommendations_have_sized_picks
           (saying picks_text) loads_picks_text [alpha_record]).
  reflexivity.
Defined.
(** ** The sheet *)

Import GoogleSheetsUpdater.

Lemma three_reasons_list (l : list json) :
  exists r0 r1 r2,
    three_reasons (JArr l) = Returns (r0, r1, r2) /\
    firstn 3 (l ++ repeat (JStr "") 3) = [r0; r1; r2].
Proof.
  destruct l as [| a [| b [| c l]]]; cbn; eauto 6.
Qed.

Lemma row_of_pick_cells (date : string) (pick : ValidatedPick) (row : Row) :
  row_of_pick date pick = Returns row ->
  exists r0 r1 r2,
    three_reasons (key_reasons pick) = Returns (r0, r1, r2) /\
    row = [ JStr date; rank pick; symbol pick; company_name pick;
            recommendation pick; JNum (target_price pick);
            JNum (confidence_score pick); risk_level pick;
            expected_return pick; time_horizon pick; r0; r1; r2 ].
Proof.
  unfold row_of_pick.
  destruct (three_reasons (key_reasons pick)) as [[[r0 r1] r2] | e];
    cbn [bind]; [| discriminate].
  intros [= <-]. exists r0, r1, r2. split; reflexivity.
Qed.

Lemma rows_of_picks_rows (date : string) (picks : list ValidatedPick) :
  forall rows,
    rows_of_picks date picks = Returns rows ->
    Forall2 (fun pick row => row_of_pick date pick = Returns row) picks rows.
Proof.
  induction picks as [| pick rest IH]; intros rows E; cbn in E.
  - injection E as <-. constructor.
  - destruct (row_of_pick date pick) as [row | e] eqn:Er; cbn [bind] in E;
      [| discriminate E].
    destruct (rows_of_picks date rest) as [rows' | e]; cbn [bind] in E;
      [| discriminate E].
    injection E as <-. constructor; [exact Er | apply IH; reflexivity].
Qed.

Lemma rows_of_picks_raises (date : string) (picks : list ValidatedPick)
      (pick : ValidatedPick) (e : exn) :
  In pick picks -> row_of_pick date pick = Raises e ->
  exists e', rows_of_picks date picks = Raises e'.
Proof.
  induction picks as [| p rest IH]; intros Hin Er; [destruct Hin |].
  cbn [rows_of_picks].
  destruct (row_of_pick date p) as [row | e0] eqn:Ep; cbn [bind];
    [| eauto].
  destruct Hin as [-> | Hin]; [congruence |].
  destruct (IH Hin Er) as (e' & ->). cbn [bind]. eauto.
Qed.

Lemma Forall2_nth_error {A B : Type} (R : A -> B -> Prop)
      (l : list A) (l' : list B) :
  Forall2 R l l' ->
  forall i a, nth_error l i = Some a ->
              exists b, nth_error l' i = Some b /\ R a b.
Proof.
  induction 1 as [| x y l l' Hxy _ IH]; intros i a Ha.
  - destruct i; discriminate Ha.
  - destruct i as [| i]; cbn in *.
    + injection Ha as <-. eauto.
    + apply IH, Ha.
Qed.

Lemma Forall2_length_eq {A B : Type} (R : A -> B -> Prop)
      (l : list A) (l' : list B) :
  Forall2 R l l' -> length l = length l'.
Proof. induction 1; cbn; congruence. Qed.

(** The rows of a set, when the function returns. *)
Lemma format_rows (date : string) (r : RecommendationSet) (rows : list Row) :
  format_recommendations_for_sheets date (Some r) = Returns rows ->
  exists pick_rows sectors risks,
    rows_of_picks date (top_10_picks r) = Returns pick_rows /\
    py_iter (top_sectors r) = Returns sectors /\
    py_iter (key_risks r) = Returns risks /\
    rows = ((headers :: pick_rows)
              ++ [ []; [JStr "MARKET OVERVIEW"]; [market_overview r]; [];
                   [JStr "TOP SECTORS"] ]
              ++ map (fun sector => [sector]) sectors
              ++ [ []; [JStr "KEY RISKS"] ]
              ++ map (fun risk => [risk]) risks)%list.
Proof.
  unfold format_recommendations_for_sheets.
  destruct (rows_of_picks date (top_10_picks r)) as [pick_rows | e];
    cbn [bind]; [| discriminate].
  destruct (py_iter (top_sectors r)) as [sectors | e]; cbn [bind];
    [| discriminate].
  destruct (py_iter (key_risks r)) as [risks | e]; cbn [bind];
    [| discriminate].
  intros [= <-]. exists pick_rows, sectors, risks. repeat split.
Qed.

(** X17: the layout of the sheet.  When the rows of a set are produced,
    the first row is the header, row [i + 1] is the [i]-th pick (the
    date, its rank, its symbol, ...) with as many cells as the header
    has, and the sheet has 8 rows more than there are picks, sectors and
    risks. *)
Theorem sheet_layout (date : string) (r : RecommendationSet) (rows : list Row) :
  format_recommendations_for_sheets date (Some r) = Returns rows ->
  nth_error rows 0 = Some headers /\
  (forall i pick,
      nth_error (top_10_picks r) i = Some pick ->
      exists row,
        nth_error rows (S i) = Some row /\
        length row = length headers /\
        firstn 3 row = [JStr date; rank pick; symbol pick]) /\
  exists sectors risks,
    py_iter (top_sectors r) = Returns sectors /\
    py_iter (key_risks r) = Returns risks /\
    length rows
    = (length (top_10_picks r) + length sectors + length risks + 8)%nat.
Proof.
  intros E.
  destruct (format_rows date r rows E)
    as (pick_rows & sectors & risks & Ep & Es & Ek & ->).
  pose proof (rows_of_picks_rows date _ _ Ep) as HF.
  split; [reflexivity |]. split.
  - intros i pick Hi.
    destruct (Forall2_nth_error _ _ _ HF i pick Hi) as (row & Hrow & Er).
    exists row. cbn [app nth_error].
    rewrite nth_error_app1 by (apply nth_error_Some; congruence).
    split; [exact Hrow |].
    destruct (row_of_pick_cells date pick row Er) as (r0 & r1 & r2 & _ & ->).
    split; reflexivity.
  - exists sectors, risks. repeat split; try assumption.
    repeat (rewrite ?length_app, ?length_map; cbn [app length]).
    rewrite (Forall2_length_eq _ _ _ HF). lia.
Qed.

(** X18: a pick whose reasons are a list always gives a row, and its
    three reason cells are the first three of the list followed by empty
    strings: shorter lists are padded, longer ones cut. *)
Theorem reasons_are_padded_or_cut_to_three
        (date : string) (pick : ValidatedPick) (l : list json) :
  key_reasons pick = JArr l ->
  exists row,
    row_of_pick date pick = Returns row /\
    skipn 10 row = firstn 3 (l ++ repeat (JStr "") 3).
Proof.
  intros El. unfold row_of_pick. rewrite El.
  destruct (three_reasons_list l) as (r0 & r1 & r2 & -> & ->).
  cbn [bind]. eexists. split; reflexivity.
Qed.

Lemma three_reasons_raises (reasons : json) :
  (forall l, reasons <> JArr l) ->
  (forall s, reasons = JStr s -> (py_strlen s < 3)%nat) ->
  exists e, three_reasons reasons = Raises e.
Proof.
  intros Hl Hs. destruct reasons as [| b | x | s | l | kv].
  - eexists; reflexivity.
  - eexists; reflexivity.
  - eexists; reflexivity.
  - specialize (Hs s eq_refl). unfold py_strlen in Hs.
    cbn [three_reasons].
    destruct (py_chars s) as [| a [| b [| c r]]];
      try (eexists; reflexivity).
    cbn in Hs. lia.
  - exfalso. apply (Hl l). reflexivity.
  - cbn [three_reasons]. destruct (length kv <? 3)%nat; eexists; reflexivity.
Qed.

Lemma update_sheet_of_format (svc : Service) (name date : string)
      (recommendations : option RecommendationSet) :
  match format_recommendations_for_sheets date recommendations with
  | Raises _ =>
      update_sheet svc name date recommendations
      = (false, create_worksheet_if_not_exists svc name ++ [ClearValues])
  | Returns [] =>
      update_sheet svc name date recommendations
      = (false, create_worksheet_if_not_exists svc name ++ [ClearValues])
  | Returns rows =>
      exists after,
        update_sheet svc name date recommendations
        = (match values_update svc rows with
           | Returns (JObj _) => true
           | _ => false
           end,
           create_worksheet_if_not_exists svc name
             ++ ClearValues :: UpdateValues rows :: after) /\
        (forall rows', ~ In (UpdateValues rows') after) /\
        ~ In ClearValues after
  end.
Proof.
  unfold update_sheet, clear_existing_data.
  destruct (format_recommendations_for_sheets date recommendations)
    as [[| row rows] | e]; try reflexivity.
  cbn [empty].
  destruct (values_update svc (row :: rows)) as [[| b | x | s | l | kv] | e];
    try (exists []; rewrite <- app_assoc; cbn [app];
         split; [reflexivity | split; [intros rows' [] | intros []]]).
  exists (apply_formatting svc name). rewrite <- !app_assoc. cbn [app].
  split; [reflexivity |]. unfold apply_formatting. split.
  - intros rows' [H | [H | [H | []]]]; discriminate H.
  - intros [H | [H | [H | []]]]; discriminate H.
Qed.

Lemma create_worksheet_requests (svc : Service) (name : string) :
  (forall rows, ~ In (UpdateValues rows) (create_worksheet_if_not_exists svc name)) /\
  ~ In ClearValues (create_worksheet_if_not_exists svc name).
Proof.
  unfold create_worksheet_if_not_exists.
  destruct (bind _ _) as [[|] | e]; split;
    try (intros rows [H | [H | []]]; discriminate H);
    try (intros rows [H | []]; discriminate H);
    try (intros [H | [H | []]]; discriminate H);
    try (intros [H | []]; discriminate H).
Qed.

(** X19: [update_sheet] clears the worksheet exactly once, and before
    it writes anything: whatever the set and whatever the service
    answers, the requests it sends are some that neither clear nor
    write, then the clearing, and then either nothing more or one
    writing of the formatted rows of the set, which are not empty,
    followed by requests that neither clear nor write.  It returns
    [True] only when the rows were written. *)
Theorem sheet_is_cleared_before_it_is_written
        (svc : Service) (name date : string)
        (recommendations : option RecommendationSet) :
  exists before after,
    snd (update_sheet svc name date recommendations)
    = (before ++ ClearValues :: after)%list /\
    (forall rows, ~ In (UpdateValues rows) before) /\
    ~ In ClearValues before /\
    (after = [] \/
     exists rows rest,
       after = UpdateValues rows :: rest /\
       format_recommendations_for_sheets date recommendations = Returns rows /\
       rows <> [] /\
       (forall rows', ~ In (UpdateValues rows') rest) /\
       ~ In ClearValues rest) /\
    (fst (update_sheet svc name date recommendations) = true -> after <> []).
Proof.
  pose proof (update_sheet_of_format svc name date recommendations) as H.
  destruct (create_worksheet_requests svc name) as (Hu & Hc).
  exists (create_worksheet_if_not_exists svc name).
  destruct (format_recommendations_for_sheets date recommendations)
    as [[| row rows] | e].
  - exists []. rewrite H. cbn [fst snd].
    split; [reflexivity |]. split; [exact Hu |]. split; [exact Hc |].
    split; [left; reflexivity | discriminate].
  - destruct H as (after & -> & Ha & Hca). cbn [fst snd].
    exists (UpdateValues (row :: rows) :: after).
    split; [reflexivity |]. split; [exact Hu |]. split; [exact Hc |].
    split; [| intros _; discriminate].
    right. exists (row :: rows), after.
    split; [reflexivity |]. split; [reflexivity |].
    split; [discriminate |]. split; [exact Ha | exact Hca].
  - exists []. rewrite H. cbn [fst snd].
    split; [reflexivity |]. split; [exact Hu |]. split; [exact Hc |].
    split; [left; reflexivity | discriminate].
Qed.

(** X20: one pick whose reasons are neither a list nor a string of
    three characters or more ([null], a number, a dict, a string whose
    [len] is below 3) makes [update_sheet] fail after the worksheet has
    been cleared: it returns [False], the clearing is the last request
    sent and no row is written. *)
Theorem unreadable_reasons_leave_the_sheet_cleared
        (svc : Service) (name date : string)
        (r : RecommendationSet) (pick : ValidatedPick) :
  In pick (top_10_picks r) ->
  (forall l, key_reasons pick <> JArr l) ->
  (forall s, key_reasons pick = JStr s -> (py_strlen s < 3)%nat) ->
  update_sheet svc name date (Some r)
  = (false, (create_worksheet_if_not_exists svc name ++ [ClearValues])%list) /\
  forall rows,
    ~ In (UpdateValues rows) (snd (update_sheet svc name date (Some r))).
Proof.
  intros Hin Hl Hs.
  destruct (three_reasons_raises _ Hl Hs) as (e & Ee).
  assert (Er : row_of_pick date pick = Raises e)
    by (unfold row_of_pick; rewrite Ee; reflexivity).
  destruct (rows_of_picks_raises date _ pick e Hin Er) as (e' & Ep).
  pose proof (update_sheet_of_format svc name date (Some r)) as H.
  assert (Ef : format_recommendations_for_sheets date (Some r) = Raises e')
    by (unfold format_recommendations_for_sheets; rewrite Ep; reflexivity).
  rewrite Ef in H. rewrite H. split; [reflexivity |].
  intros rows Hx. cbn [snd] in Hx. apply in_app_or in Hx.
  destruct Hx as [Hx | [Hx | []]]; [| discriminate Hx].
  exact (proj1 (create_worksheet_requests svc name) rows Hx).
Qed.

Lemma first_sheet_id_skips (name : string) (before rest : list json) :
  Forall (fun s => title_is name s = Returns false) before ->
  first_sheet_id name (before ++ rest) = first_sheet_id name rest.
Proof.
  induction 1 as [| s before Hs _ IH]; [reflexivity |].
  cbn [app first_sheet_id]. rewrite Hs. cbn [bind]. exact IH.
Qed.

(** X21: [get_sheet_id] gives the [sheetId] of the first sheet whose
    title is the worksheet's name, also when a later sheet has the same
    title, and 0 when that sheet has no [sheetId] or when no sheet has
    the title. *)
Theorem sheet_id_of_first_matching_sheet
        (name : string) (kv : dict json) (sheets : list json) :
  lookup kv "sheets" = Some (JArr sheets) ->
  (forall before sheet after,
      sheets = (before ++ sheet :: after)%list ->
      Forall (fun s => title_is name s = Returns false) before ->
      title_is name sheet = Returns true ->
      get_sheet_id name (Returns (JObj kv))
      = match bind (subscript_key sheet "properties")
                   (fun properties => subscript_key properties "sheetId") with
        | Returns id => id
        | Raises _ => JNum (Fin 0)
        end) /\
  (Forall (fun s => title_is name s = Returns false) sheets ->
   get_sheet_id name (Returns (JObj kv)) = JNum (Fin 0)).
Proof.
  intros Ek.
  assert (E : get_sheet_id name (Returns (JObj kv))
              = match first_sheet_id name sheets with
                | Returns id => id
                | Raises _ => JNum (Fin 0)
                end).
  { unfold get_sheet_id. cbn [bind subscript_key]. rewrite Ek.
    reflexivity. }
  rewrite E. split.
  - intros before sheet after -> Hb Hs.
    rewrite (first_sheet_id_skips name before _ Hb).
    cbn [first_sheet_id]. rewrite Hs. reflexivity.
  - intros Hall.
    rewrite <- (app_nil_r sheets), (first_sheet_id_skips name sheets [] Hall).
    reflexivity.
Qed.

Lemma layout_of_the_sample_set :
  let r := sample_set (JArr [JStr "momentum"; JStr "volume"]%string) in
  let rows := sample_rows (JArr [JStr "momentum"; JStr "volume"]%string) in
  nth_error rows 0 = Some headers /\
  (forall i pick,
      nth_error (top_10_picks r) i = Some pick ->
      exists row,
        nth_error rows (S i) = Some row /\
        length row = length headers /\
        firstn 3 row = [JStr "2024-01-02 08:00"; rank pick; symbol pick]) /\
  exists sectors risks,
    py_iter (top_sectors r) = Returns sectors /\
    py_iter (key_risks r) = Returns risks /\
    length rows
    = (length (top_10_picks r) + length sectors + length risks + 8)%nat.
Proof.
  exact (sheet_layout "2024-01-02 08:00"
                      (sample_set (JArr [JStr "momentum"; JStr "volume"]%string))
                      (sample_rows (JArr [JStr "momentum"; JStr "volume"]%string))
                      eq_refl).
Defined.

Lemma reasons_of_a_pick_with_one :
  exists row,
    row_of_pick "2024-01-02 08:00" (validated (JArr [JStr "momentum"])) = Returns row /\
    skipn 10 row = [JStr "momentum"; JStr ""; JStr ""]%string.
Proof.
  exact (reasons_are_padded_or_cut_to_three
           "2024-01-02 08:00" (validated (JArr [JStr "momentum"%string]))
           [JStr "momentum"%string] eq_refl).
Defined.

Lemma null_reasons_leave_the_sheet_cleared :
  validate_pick null_reasons_pick
  = Returns (mkValidatedPick (JNum (Fin 1)) (JStr "AAA.L") (JStr "")
                             (JStr "HOLD") (Fin 120) (Fin 0) JNull
                             (JStr "MEDIUM") (JStr "1-3 days") (JStr "0%")) /\
  update_sheet sample_service "Daily_Stock_Picks" "2024-01-02 08:00"
               (Some (sample_set JNull))
  = (false, [GetSpreadsheet; ClearValues]) /\
  forall rows,
    ~ In (UpdateValues rows)
         (snd (update_sheet sample_service "Daily_Stock_Picks" "2024-01-02 08:00"
                            (Some (sample_set JNull)))).
Proof.
  split; [reflexivity |].
  apply (unreadable_reasons_leave_the_sheet_cleared
           sample_service "Daily_Stock_Picks" "2024-01-02 08:00"
           (sample_set JNull) (validated JNull)).
  - right. left. reflexivity.
  - intros l H. discriminate H.
  - intros s H. discriminate H.
Defined.

Lemma sheet_id_in_the_sample_spreadsheet :
  get_sheet_id "Daily_Stock_Picks" (Returns sample_spreadsheet) = JNum (Fin 7).
Proof.
  apply (proj1 (sheet_id_of_first_matching_sheet
                  "Daily_Stock_Picks"
                  [ ("sheets"%string,
                     JArr [ sheet "Sheet1" 0; sheet "Daily_Stock_Picks" 7;
                            sheet "Daily_Stock_Picks" 9 ]) ]
                  [ sheet "Sheet1" 0; sheet "Daily_Stock_Picks" 7;
                    sheet "Daily_Stock_Picks" 9 ]
                  eq_refl)
               [sheet "Sheet1" 0] (sheet "Daily_Stock_Picks" 7)
               [sheet "Daily_Stock_Picks" 9]).
  - reflexivity.
  - repeat constructor.
  - reflexivity.
Defined.

(* ------------------------------------------------------------------ *)

(** The reasons of a pick given as one string are read character by
    character. *)
Example reasons_of_a_long_string :
  three_reasons (JStr "€uro")
  = Returns (JStr "€", JStr "u", JStr "r")%string.
Proof. reflexivity. Qed.

Example reasons_of_a_short_string :
  three_reasons (JStr "€") = Raises AttributeError.
Proof. reflexivity. Qed.

(** ** The runs of [main.py] *)

Import Main.

Lemma analyse_and_publish_fails (s : Setting) (stock_symbols : list string) :
  analyse_and_publish s stock_symbols = (false, []).
Proof.
  unfold analyse_and_publish.
  destruct (empty _); [reflexivity |].
  destruct (get_stock_recommendations _ _ _) as [j |] eqn:E; [| reflexivity].
  destruct (recommendations_shape _ _ _ _ E)
    as (_ & kv & v & n & -> & Ev & _).
  assert (Ht : truthy (JObj kv) = true)
    by (destruct kv; [discriminate Ev | reflexivity]).
  rewrite Ht. cbn [negb].
  destruct (validate_recommendations_raises kv v Ev) as (e & ->).
  reflexivity.
Qed.

(** X22: no run publishes anything.  For every list of symbols, every
    market, every answer of the model and every sheets service,
    [run_daily_analysis] and [run_test_mode] return [False] without
    having sent one request to the sheets service: a run either has no
    usable recommendations, or stops in [validate_recommendations]. *)
Theorem runs_never_reach_the_sheet (s : Setting) :
  run_daily_analysis s = (false, []) /\ run_test_mode s = (false, []).
Proof.
  split; apply analyse_and_publish_fails.
Qed.
